(** * WaveMU: a shallow embedding of [WaveMU.py]

    The OpenPMU waveform merging unit simulator plays a sound file back as a
    stream of XML frames sent over UDP.  This development embeds the
    constructor, [run], [stop], [toXML], [readWaveFileGen] and
    [dictTypeConvert] of [WaveMU.py] and proves properties of the frames and
    of the effects of a run.

    Conventions.
    - Python [int] is [Z]; Python [float] is a binary64 primitive float;
      Python [str] and [bytes] are both [string] (a list of 8-bit characters).
    - Exceptions are values of [pyexn]; fallible code returns [except A].
    - The wall clock, the file system and a concurrent caller of [stop] are
      oracles collected in [world]; sockets, [time.sleep] and the diagnostic
      of [toXML] are events appended to a trace.  The progress dots written
      to the console by [run] are not part of the trace.
    - [self.xmlTemplate] is one shared mutable tree: [toXML] returns the new
      state of that tree together with its result.  The tree holds elements
      only (no comments or processing instructions).
    - The creation of the sockets, [time.sleep] and, in [run], [sendto]
      are taken to return; [Net.run] is the same loop on a network where
      [sendto] can raise.
    - [str] is applied to an [int] without the limit CPython puts on the
      number of its digits.
    - The decoder ([soundfile]), numpy and lxml are libraries, not code of
      this repository: the parts of their documented behaviour that [run]
      and [toXML] depend on are modelled, and what lxml and numpy print is
      kept abstract in [externals]. *)

From Stdlib Require Import ZArith Floats.PrimFloat Floats.SpecFloat Floats.FloatOps Uint63.
From Stdlib Require Import Ascii String.
From stdpp Require Import gmap strings list pretty.

Open Scope string_scope.
Open Scope Z_scope.

(** ** Exceptions *)

Inductive pyexn : Type :=
| StopIteration
| KeyError (key : string)
| IndexError
| TypeError
| AttributeError
| ValueError
| OverflowError
| ZeroDivisionError
| RuntimeError (msg : string)
| OSError (msg : string)
| KeyboardInterrupt.

Inductive except (A : Type) : Type :=
| Return (a : A)
| Raise (e : pyexn).
Arguments Return {A} a.
Arguments Raise {A} e.

Global Instance except_ret : MRet except := fun A a => Return a.
Global Instance except_bind : MBind except := fun A B k m =>
  match m with
  | Return a => k a
  | Raise e => Raise e
  end.

(** ** Floats: the arithmetic Python performs on [self.interval] *)

Local Set Warnings "-inexact-float".

(** [float(z)] for the integers that occur here (below 2^63 in magnitude). *)
Definition float_of_int (z : Z) : float :=
  if z <? 0 then PrimFloat.opp (PrimFloat.of_uint63 (Uint63.of_Z (- z)))
  else PrimFloat.of_uint63 (Uint63.of_Z z).

(** [int(f)]: truncation toward zero; raises on infinities and NaN. *)
Definition py_int (f : float) : except Z :=
  match Prim2SF f with
  | S754_zero _ => Return 0
  | S754_finite s m e =>
      let mag := if 0 <=? e then Z.shiftl (Z.pos m) e
                 else Z.shiftr (Z.pos m) (- e) in
      Return (if s then - mag else mag)
  | S754_infinity _ => Raise OverflowError
  | S754_nan => Raise ValueError
  end.

(** [round(f)]: nearest integer, ties to even. *)
Definition py_round (f : float) : except Z :=
  match Prim2SF f with
  | S754_zero _ => Return 0
  | S754_finite s m e =>
      let mag :=
        if 0 <=? e then Z.shiftl (Z.pos m) e
        else
          let q := Z.shiftr (Z.pos m) (- e) in
          let r := Z.pos m - Z.shiftl q (- e) in
          let half := Z.shiftl 1 (- e - 1) in
          if r <? half then q
          else if half <? r then q + 1
          else if Z.even q then q else q + 1 in
      Return (if s then - mag else mag)
  | S754_infinity _ => Raise OverflowError
  | S754_nan => Raise ValueError
  end.

(** [a / b] on floats: Python raises where IEEE 754 returns an infinity. *)
Definition py_div (a b : float) : except float :=
  if PrimFloat.eqb b 0%float then Raise ZeroDivisionError
  else Return (PrimFloat.div a b).

(** Whether a float is a whole number, as in [f == int(f)]. *)
Definition is_integral (f : float) : bool :=
  match py_int f with
  | Return z => PrimFloat.eqb (float_of_int z) f
  | Raise _ => false
  end.

(** ** Text formatting *)

(** [str(z)] for an [int]. *)
Definition str_int (z : Z) : string := pretty z.

Fixpoint zeros (k : nat) : string :=
  match k with
  | O => ""
  | S k' => String "0" (zeros k')
  end.

(** ["%0<w>d" % z]: the sign counts toward the width. *)
Definition fmt_0d (w : nat) (z : Z) : string :=
  if z <? 0 then
    let digits := pretty (- z) in
    "-" +:+ zeros (w - 1 - String.length digits) +:+ digits
  else
    let digits := pretty z in
    zeros (w - String.length digits) +:+ digits.

(** ** [datetime] and [timedelta] *)

Module datetime.
Record t : Type := mk {
  year : Z; month : Z; day : Z;
  hour : Z; minute : Z; second : Z; microsecond : Z
}.

Definition is_leap (y : Z) : bool :=
  (y mod 4 =? 0) && (negb (y mod 100 =? 0) || (y mod 400 =? 0)).

Definition days_before_year (y : Z) : Z :=
  let y1 := y - 1 in y1 * 365 + y1 / 4 - y1 / 100 + y1 / 400.

Definition days_before_month (y m : Z) : Z :=
  nth (Z.to_nat m) [0; 0; 31; 59; 90; 120; 151; 181; 212; 243; 273; 304; 334] 0
  + (if (2 <? m) && is_leap y then 1 else 0).

Definition toordinal (d : t) : Z :=
  days_before_year (year d) + days_before_month (year d) (month d) + day d.

(** [a - b]: a [timedelta], kept as its total number of microseconds. *)
Definition sub (a b : t) : Z :=
  let secs x := second x + minute x * 60 + hour x * 3600 in
  ((toordinal a - toordinal b) * 86400 + (secs a - secs b)) * 1000000
  + (microsecond a - microsecond b).

(** [d.time().strftime("%H:%M:%S")] *)
Definition strftime_HMS (d : t) : string :=
  fmt_0d 2 (hour d) +:+ ":" +:+ fmt_0d 2 (minute d) +:+ ":" +:+ fmt_0d 2 (second d).

(** [d.date().strftime("%Y-%m-%d")] (four-digit years) *)
Definition strftime_Ymd (d : t) : string :=
  fmt_0d 4 (year d) +:+ "-" +:+ fmt_0d 2 (month d) +:+ "-" +:+ fmt_0d 2 (day d).
End datetime.

(** [timedelta(seconds=f)] in microseconds: the whole seconds plus the
    fraction scaled by 10^6 and rounded half to even. *)
Definition timedelta_seconds (f : float) : except Z :=
  whole ← py_int f;
  frac ← py_round (PrimFloat.mul (PrimFloat.sub f (float_of_int whole)) 1000000%float);
  Return (whole * 1000000 + frac).

(** ** Base64 ([base64.standard_b64encode], RFC 4648 with padding) *)

Definition b64_alphabet : string :=
  "ABCDEFGHIJKLMNOPQRSTUVWXYZabcdefghijklmnopqrstuvwxyz0123456789+/".

Definition b64_char (n : N) : ascii :=
  default "="%char (String.get (N.to_nat n) b64_alphabet).

Definition b64_index (c : ascii) : option N :=
  N.of_nat <$> String.index 0 (String c "") b64_alphabet.

Fixpoint standard_b64encode (s : string) : string :=
  match s with
  | "" => ""
  | String a "" =>
      let n := (N_of_ascii a * 16)%N in
      String (b64_char (n / 64)) (String (b64_char (n mod 64)) "==")
  | String a (String b "") =>
      let n := ((N_of_ascii a * 256 + N_of_ascii b) * 4)%N in
      String (b64_char (n / 4096))
        (String (b64_char (n / 64 mod 64)) (String (b64_char (n mod 64)) "="))
  | String a (String b (String c rest)) =>
      let n := (N_of_ascii a * 65536 + N_of_ascii b * 256 + N_of_ascii c)%N in
      String (b64_char (n / 262144))
        (String (b64_char (n / 4096 mod 64))
           (String (b64_char (n / 64 mod 64))
              (String (b64_char (n mod 64)) (standard_b64encode rest))))
  end.

(** The decoder a receiver applies to a [Payload] text. *)
Fixpoint standard_b64decode (s : string) : option string :=
  match s with
  | "" => Some ""
  | String c1 (String c2 (String c3 (String c4 rest))) =>
      s1 ← b64_index c1; s2 ← b64_index c2;
      if Ascii.eqb c3 "=" then
        if Ascii.eqb c4 "=" && String.eqb rest "" then
          Some (String (ascii_of_N (s1 * 4 + s2 / 16)) "")
        else None
      else
        s3 ← b64_index c3;
        if Ascii.eqb c4 "=" then
          if String.eqb rest "" then
            Some (String (ascii_of_N (s1 * 4 + s2 / 16))
                    (String (ascii_of_N (s2 mod 16 * 16 + s3 / 4)) ""))
          else None
        else
          s4 ← b64_index c4;
          tl ← standard_b64decode rest;
          Some (String (ascii_of_N (s1 * 4 + s2 / 16))
                  (String (ascii_of_N (s2 mod 16 * 16 + s3 / 4))
                     (String (ascii_of_N (s3 mod 4 * 64 + s4)) tl)))
  | _ => None
  end.

(** ** numpy arrays of [int16] *)

(** An [int16] is a [Z] in [-32768, 32767].  The buffer of an array is laid
    out in the byte order of the host, which is little-endian. *)
Definition byteswap16 (v : Z) : Z :=
  let u := v mod 65536 in
  let w := (u mod 256) * 256 + u / 256 in
  if w <? 32768 then w else w - 65536.

Definition byte_of_Z (z : Z) : ascii := ascii_of_N (Z.to_N z).

Definition tobytes16 (v : Z) : string :=
  let u := v mod 65536 in
  String (byte_of_Z (u mod 256)) (String (byte_of_Z (u / 256)) "").

(** The buffer of a contiguous one-dimensional array. *)
Fixpoint tobytes (a : list Z) : string :=
  match a with
  | [] => ""
  | v :: a' => tobytes16 v +:+ tobytes a'
  end.

(** The big-endian encoding of a buffer of 16-bit samples: for each sample
    the high byte, then the low byte. *)
Fixpoint big_endian (a : list Z) : string :=
  match a with
  | [] => ""
  | v :: a' =>
      let u := v mod 65536 in
      String (byte_of_Z (u / 256)) (String (byte_of_Z (u mod 256)) (big_endian a'))
  end.

(** The samples of channel [i] in a run of frames. *)
Definition channel_samples (i : nat) (frames : list (list Z)) : list Z :=
  map (fun r => nth i r 0) frames.

Inductive ndarray : Type :=
| Arr1 (data : list Z)                       (* shape (len data,) *)
| Arr2 (ncols : nat) (rows : list (list Z)). (* shape (len rows, ncols) *)

(** [a.T] *)
Definition transpose (a : ndarray) : ndarray :=
  match a with
  | Arr1 d => Arr1 d
  | Arr2 c rows =>
      Arr2 (length rows) (map (fun j => channel_samples j rows) (seq 0 c))
  end.

(** [a.byteswap()] *)
Definition byteswap (a : ndarray) : ndarray :=
  match a with
  | Arr1 d => Arr1 (map byteswap16 d)
  | Arr2 c rows => Arr2 c (map (map byteswap16) rows)
  end.

(** [a[i, :]] for [i >= 0] *)
Definition getrow (a : ndarray) (i : nat) : except (list Z) :=
  match a with
  | Arr1 _ => Raise IndexError
  | Arr2 _ rows =>
      match rows !! i with
      | Some r => Return r
      | None => Raise IndexError
      end
  end.

(** ** Python values held by a frame record *)

Inductive pyobj : Type :=
| PInt (z : Z)
| PStr (s : string)
| PBytes (b : string)
| PArray (a : list Z).   (* contiguous one-dimensional int16 array *)

Inductive pyval : Type :=
| Obj (o : pyobj)
| Dict (d : gmap string pyobj).

(** [k in d.keys()] and [d[k]] *)
Definition py_in {V} (k : string) (d : gmap string V) : bool :=
  bool_decide (is_Some (d !! k)).

Definition getitem {V} (d : gmap string V) (k : string) : except V :=
  match d !! k with
  | Some v => Return v
  | None => Raise (KeyError k)
  end.

(** ** The XML tree of [lxml.etree] *)

#[warnings="-register-all"]
Inductive element : Type :=
| Element (tag : string) (attrib : list (string * string))
    (text : option string) (tail : option string) (children : list element).

Definition tag (x : element) : string :=
  match x with Element t _ _ _ _ => t end.
Definition text (x : element) : option string :=
  match x with Element _ _ t _ _ => t end.
Definition children (x : element) : list element :=
  match x with Element _ _ _ _ c => c end.

(** [x.text = s] *)
Definition set_text (x : element) (s : string) : element :=
  match x with Element t a _ tl c => Element t a (Some s) tl c end.

(** The children of [x] replaced, after its sub-elements were updated or
    removed in place. *)
Definition set_children (x : element) (c : list element) : element :=
  match x with Element t a tx tl _ => Element t a tx tl c end.

(** ** The texts lxml accepts

    lxml refuses a text that XML cannot carry: a [str] must consist of XML
    characters (tab, line feed, carriage return, and everything from the
    space on), and [bytes] must in addition be ASCII. *)

Definition xml_char (a : ascii) : bool :=
  let n := N_of_ascii a in
  ((n =? 9) || (n =? 10) || (n =? 13) || (32 <=? n))%N.

Definition xml_ascii (a : ascii) : bool :=
  xml_char a && (N_of_ascii a <? 128)%N.

Fixpoint string_forallb (p : ascii -> bool) (s : string) : bool :=
  match s with
  | "" => true
  | String a s' => p a && string_forallb p s'
  end.

Definition xml_str (s : string) : bool := string_forallb xml_char s.
Definition xml_bytes (b : string) : bool := string_forallb xml_ascii b.

(** ** Library functions whose output format is not modelled

    [str_other] is [str] on values other than [int] and [str] (numpy's and
    dict's printers); [etree_tostring] is
    [etree.tostring(_, encoding="utf-8")]. *)

Record externals : Type := {
  str_other : pyval -> string;
  etree_tostring : element -> string
}.

(** Events of a run, in program order. *)
Inductive socket_name : Type := socketOut | socketFwd.

Inductive event : Type :=
| Sendto (sock : socket_name) (data : string) (host : string) (port : Z)
| Sleep (microseconds : Z)
| Print (line : string).

Section Encoder.
Context (E : externals).

(** [str(v)] *)
Definition py_str (v : pyval) : except pyval :=
  Return (Obj (PStr (match v with
                     | Obj (PInt z) => str_int z
                     | Obj (PStr s) => s
                     | _ => str_other E v
                     end))).

(** [base64.standard_b64encode(v)]: any bytes-like object *)
Definition b64encode_obj (v : pyval) : except pyval :=
  match v with
  | Obj (PBytes b) => Return (Obj (PBytes (standard_b64encode b)))
  | Obj (PArray a) => Return (Obj (PBytes (standard_b64encode (tobytes a))))
  | _ => Raise TypeError
  end.

Definition dictTypeConvert (key : string) : pyval -> except pyval :=
  default (fun x => Return x)
    (({[ "Frame" := py_str;
         "Fs" := py_str;
         "n" := py_str;
         "Channels" := py_str;
         "Payload" := b64encode_obj;
         "bits" := py_str ]} : gmap string (pyval -> except pyval)) !! key).

(** What lxml accepts on the right of [x.text = v]: a [str] of XML
    characters, or [bytes] of ASCII XML characters.  Another [str] or
    [bytes] raises [ValueError], a value of another type [TypeError]. *)
Definition as_text (v : pyval) : except string :=
  match v with
  | Obj (PStr s) => if xml_str s then Return s else Raise ValueError
  | Obj (PBytes b) => if xml_bytes b then Return b else Raise ValueError
  | _ => Raise TypeError
  end.

(** [resultDict[tag1].keys()] *)
Definition keys_of (v : pyval) : except (gmap string pyobj) :=
  match v with
  | Dict d => Return d
  | Obj _ => Raise AttributeError
  end.

(** [v[k]] *)
Definition subscript (v : pyval) (k : string) : except pyobj :=
  match v with
  | Dict d => getitem d k
  | Obj _ => Raise TypeError
  end.

(** The body of [for level2 in list(level1)] for one sub-element. *)
Definition visit_level2 (resultDict : gmap string pyval) (tag1 : string)
    (level2 : element) : except element :=
  let tag2 := tag level2 in
  channel ← getitem resultDict tag1;
  d ← keys_of channel;
  if py_in tag2 d then
    channel ← getitem resultDict tag1;
    v ← subscript channel tag2;
    converted ← dictTypeConvert tag2 (Obj v);
    t ← as_text converted;
    Return (set_text level2 t)
  else Return level2.

(** One pass of [for level2 in list(level1)]: the sub-elements as the pass
    leaves them, and the exception that cut it short, if any. *)
Fixpoint walk_level2 (resultDict : gmap string pyval) (tag1 : string)
    (level1 : list element) : list element * option pyexn :=
  match level1 with
  | [] => ([], None)
  | level2 :: rest =>
      match visit_level2 resultDict tag1 level2 with
      | Raise e => (level2 :: rest, Some e)
      | Return level2' =>
          let '(rest', e) := walk_level2 resultDict tag1 rest in
          (level2' :: rest', e)
      end
  end.

(** The body of [for level1 in list(level0)] for one element: [None] when
    the element is removed from [level0]. *)
Definition visit_level1 (resultDict : gmap string pyval) (level1 : element)
    : option element * option pyexn :=
  let tag1 := tag level1 in
  if py_in tag1 resultDict then
    if String.prefix "Channel_" tag1 then
      let '(sub, e) := walk_level2 resultDict tag1 (children level1) in
      (Some (set_children level1 sub), e)
    else
      let visit : except element :=
        v ← getitem resultDict tag1;
        converted ← dictTypeConvert tag1 v;
        t ← as_text converted;
        Return (set_text level1 t) in
      match visit with
      | Return level1' => (Some level1', None)
      | Raise e => (Some level1, Some e)
      end
  else (None, None).

Fixpoint walk_level1 (resultDict : gmap string pyval) (level0 : list element)
    : list element * option pyexn :=
  match level0 with
  | [] => ([], None)
  | level1 :: rest =>
      match visit_level1 resultDict level1 with
      | (level1', Some e) => ((option_list level1' ++ rest)%list, Some e)
      | (level1', None) =>
          let '(rest', e) := walk_level1 resultDict rest in
          ((option_list level1' ++ rest')%list, e)
      end
  end.

Definition tag_error_line (key : string) : string :=
  "XML tag error:  '" +:+ key +:+ "'".

Record toXML_result : Type := {
  template_after : element;     (* [self.xmlTemplate] as the call leaves it *)
  printed : list string;        (* lines written by the [except KeyError] handler *)
  returned : except string      (* the value returned, or the exception raised *)
}.

(** [toXML(self, resultDict)], with [self.xmlTemplate] passed in. *)
Definition toXML (xmlTemplate : element) (resultDict : gmap string pyval)
    : toXML_result :=
  let '(kids, e) := walk_level1 resultDict (children xmlTemplate) in
  let level0 := set_children xmlTemplate kids in
  match e with
  | None =>
      {| template_after := level0; printed := [];
         returned := Return (etree_tostring E level0) |}
  | Some (KeyError k) =>
      {| template_after := level0; printed := [tag_error_line k];
         returned := Return (etree_tostring E level0) |}
  | Some e =>
      {| template_after := level0; printed := []; returned := Raise e |}
  end.
End Encoder.

(** ** The decoder: [soundfile.blocks]

    A sound file is the sequence of frames the decoder produces from it, one
    row of [sf_channels] samples per sampling instant, and the read that
    fails, if one does.  [soundfile.blocks] reads [blocksize] frames at a
    time and yields what it read: without a [fill_value] the last block is
    shorter when the frames run out, and with [always_2d] left off a
    one-channel file yields one-dimensional arrays. *)

Record soundfile : Type := {
  sf_channels : nat;
  sf_frames : list (list Z);
  sf_fault : option (nat * pyexn)   (* the index of the failing read, its exception;
                                       an index past the last block is a failure
                                       at the end of the file *)
}.

(** The blocks read from a run of frames: [blocksize] frames each, the last
    one shorter when the frames run out.  [fuel] bounds the number of reads;
    the number of frames is enough. *)
Fixpoint chunks (fuel blocksize : nat) (frames : list (list Z)) : list (list (list Z)) :=
  match fuel with
  | O => []
  | S fuel' =>
      match frames with
      | [] => []
      | _ => take blocksize frames :: chunks fuel' blocksize (drop blocksize frames)
      end
  end.

(** The array a block is returned as. *)
Definition block_array (channels : nat) (rows : list (list Z)) : ndarray :=
  if (channels =? 1)%nat then Arr1 (map (fun r => nth 0 r 0) rows)
  else Arr2 channels rows.

(** A generator: the values it will still yield, and the exception that ends
    it ([StopIteration] when its body returns). *)
Record generator : Type := {
  pending : list ndarray;
  ending : pyexn
}.

(** [sf.blocks(path, blocksize=blocksize, overlap=0, dtype='int16')] *)
Definition sf_blocks (blocksize : nat) (f : soundfile) : generator :=
  let blocks :=
    map (block_array (sf_channels f))
      (chunks (length (sf_frames f)) blocksize (sf_frames f)) in
  match sf_fault f with
  | None => {| pending := blocks; ending := StopIteration |}
  | Some (k, e) => {| pending := take k blocks; ending := e |}
  end.

(** ** The [WaveMU] object *)

Module WaveMU.
Record t : Type := mk {
  waveFilePath : string;
  channels : Z;
  interval : float;
  Fs : Z;
  n : Z;
  ADCRange : Z;
  bits : Z;
  ip : string;
  port : Z;
  stopThread : bool;
  xmlTemplate : element
}.

Definition set_stopThread (b : bool) (self : t) : t :=
  mk (waveFilePath self) (channels self) (interval self) (Fs self) (n self)
     (ADCRange self) (bits self) (ip self) (port self) b (xmlTemplate self).

Definition set_xmlTemplate (x : element) (self : t) : t :=
  mk (waveFilePath self) (channels self) (interval self) (Fs self) (n self)
     (ADCRange self) (bits self) (ip self) (port self) (stopThread self) x.
End WaveMU.

(** [self.n = int(self.Fs * self.interval)] *)
Definition derive_n (Fs : Z) (interval : float) : except Z :=
  py_int (PrimFloat.mul (float_of_int Fs) interval).

(** [WaveMU.__init__]; [template] is what [etree.parse] read from
    [OpenPMU_SV.xml].  Reading the template and the length of the sound
    file ([getLength], only printed) are taken to succeed. *)
Definition __init__ (waveFilePath : string) (channels : Z) (ip : string) (port : Z)
    (template : element) : except WaveMU.t :=
  let interval := 0.01%float in
  let Fs := 12800 in
  n ← derive_n Fs interval;
  Return {| WaveMU.waveFilePath := waveFilePath;
            WaveMU.channels := channels;
            WaveMU.interval := interval;
            WaveMU.Fs := Fs;
            WaveMU.n := n;
            WaveMU.ADCRange := 2 ^ 15 - 1;
            WaveMU.bits := 16;
            WaveMU.ip := ip;
            WaveMU.port := port;
            WaveMU.stopThread := false;
            WaveMU.xmlTemplate := template |}.

(** [stop(self)] *)
Definition stop (self : WaveMU.t) : WaveMU.t := WaveMU.set_stopThread true self.

(** [readWaveFileGen(self, waveFilePath)], on the file found at the path. *)
Definition readWaveFileGen (f : soundfile) : generator :=
  let blocks := sf_blocks 128 f in
  {| pending := map (fun block => byteswap (transpose block)) (pending blocks);
     ending := ending blocks |}.

(** ** The environment of a run *)

Record world : Type := {
  clock : nat -> datetime.t;       (* the k-th value returned by [datetime.now()] *)
  stop_called : nat -> bool;       (* whether another thread has called [stop()]
                                      when the loop condition is tested after
                                      [k] completed cycles *)
  file : string -> soundfile       (* the sound file found at a path *)
}.

(** What one completed cycle did. *)
Record frame_log : Type := {
  fl_now : datetime.t;               (* [now] *)
  fl_payload : ndarray;              (* [payload] *)
  fl_record : gmap string pyval;     (* [resultDict] as passed to [toXML] *)
  fl_document : element;             (* [level0] as serialised *)
  fl_xml : string;                   (* [xml] *)
  fl_sleep : Z                       (* the argument of [time.sleep], in microseconds *)
}.

Record run_state : Type := {
  st_self : WaveMU.t;
  st_frame : Z;
  st_resultDict : gmap string pyval;
  st_reads : nat;                    (* calls of [datetime.now()] so far *)
  st_trace : list event;
  st_log : list frame_log
}.

Definition tick (st : run_state) : run_state :=
  {| st_self := st_self st; st_frame := st_frame st;
     st_resultDict := st_resultDict st; st_reads := S (st_reads st);
     st_trace := st_trace st; st_log := st_log st |}.

Definition emit (evs : list event) (st : run_state) : run_state :=
  {| st_self := st_self st; st_frame := st_frame st;
     st_resultDict := st_resultDict st; st_reads := st_reads st;
     st_trace := (st_trace st ++ evs)%list; st_log := st_log st |}.

Definition with_self (self : WaveMU.t) (st : run_state) : run_state :=
  {| st_self := self; st_frame := st_frame st;
     st_resultDict := st_resultDict st; st_reads := st_reads st;
     st_trace := st_trace st; st_log := st_log st |}.

Definition with_resultDict (d : gmap string pyval) (st : run_state) : run_state :=
  {| st_self := st_self st; st_frame := st_frame st;
     st_resultDict := d; st_reads := st_reads st;
     st_trace := st_trace st; st_log := st_log st |}.

Definition end_cycle (frame : Z) (l : frame_log) (st : run_state) : run_state :=
  {| st_self := st_self st; st_frame := frame;
     st_resultDict := st_resultDict st; st_reads := st_reads st;
     st_trace := st_trace st; st_log := (st_log st ++ [l])%list |}.

Inductive cycle_result : Type :=
| Continue (st : run_state)
| Break (st : run_state)
| Abort (e : pyexn) (st : run_state).

Inductive outcome : Type :=
| Returned                 (* [run()] returned *)
| Raised (e : pyexn)       (* an exception left [run()] *)
| Spinning.                (* still waiting for the top of the second *)

(** ** [run] *)

Section Engine.
Context (E : externals) (w : world).

(** [for i in range(self.channels)]: the record as the loop leaves it and
    the exception that cut it short, if any. *)
Fixpoint fill_channels (payload : ndarray) (range : list nat)
    (resultDict : gmap string pyval) : gmap string pyval * option pyexn :=
  match range with
  | [] => (resultDict, None)
  | i :: rest =>
      let Channel_i := "Channel_" +:+ str_int (Z.of_nat i) in       (* "Channel_%d" % i *)
      let resultDict := <[Channel_i := Dict ∅]> resultDict in
      match getrow payload i with
      | Raise e => (resultDict, Some e)
      | Return row =>
          fill_channels payload rest
            (<[Channel_i := Dict (<["Payload" := PArray row]> ∅)]> resultDict)
      end
  end.

(** [while startTime.second == datetime.now().second: time.sleep(0.0001)] *)
Fixpoint hold_off (fuel : nat) (startTime : datetime.t) (st : run_state)
    : option run_state :=
  match fuel with
  | O => None
  | S fuel' =>
      let t := clock w (st_reads st) in
      let st := tick st in
      if datetime.second startTime =? datetime.second t
      then hold_off fuel' startTime (emit [Sleep 100] st)
      else Some st
  end.

(** The body of [while not self.stopThread], given what [next(SVgen)]
    does in this cycle. *)
Definition cycle (intervalDelta : Z) (pulled : except ndarray) (st : run_state)
    : cycle_result :=
  let self := st_self st in
  let frame := st_frame st in
  let now := clock w (st_reads st) in
  let st := tick st in
  match py_int (PrimFloat.mul (PrimFloat.mul (float_of_int frame)
                                 (WaveMU.interval self)) 1000%float) with
  | Raise e => Abort e st
  | Return ms =>
  let resultDict :=
    <["Frame" := Obj (PInt frame)]>
      (<["Date" := Obj (PStr (datetime.strftime_Ymd now))]>
         (<["Time" := Obj (PStr (datetime.strftime_HMS now +:+ "." +:+ fmt_0d 3 ms))]>
            (st_resultDict st))) in
  let st := with_resultDict resultDict st in
  match pulled with
  | Raise _ => Break (with_self (stop self) st)
  | Return payload =>
  match fill_channels payload (seq 0 (Z.to_nat (WaveMU.channels self))) resultDict with
  | (resultDict, Some e) => Abort e (with_resultDict resultDict st)
  | (resultDict, None) =>
  let st := with_resultDict resultDict st in
  let r := toXML E (WaveMU.xmlTemplate self) resultDict in
  let st := with_self (WaveMU.set_xmlTemplate (template_after r) self) st in
  let st := emit (map Print (printed r)) st in
  match returned r with
  | Raise e => Abort e st
  | Return xml =>
  let st := emit [Sendto socketOut xml (WaveMU.ip self) (WaveMU.port self)] st in
  let st := emit [Sendto socketFwd xml "127.0.0.1" 48005] st in
  let st := tick st in                               (* [elapsedTime] *)
  let frame := frame + 1 in
  match wrap ← py_div 1%float (WaveMU.interval self); py_int wrap with
  | Raise e => Abort e st
  | Return wrap =>
  let frame := if frame =? wrap then 0 else frame in
  let s := intervalDelta - datetime.sub (clock w (st_reads st)) now in
  let st := tick st in
  let slept := if 0 <? s then s else 0 in
  let st := emit [Sleep slept] st in
  Continue (end_cycle frame
              {| fl_now := now; fl_payload := payload; fl_record := resultDict;
                 fl_document := template_after r; fl_xml := xml;
                 fl_sleep := slept |} st)
  end end end end end.

(** The loop, by recursion on what the generator will still yield.  A
    cycle whose pull raises never continues. *)
Fixpoint streaming (intervalDelta : Z) (ending : pyexn) (pending : list ndarray)
    (st : run_state) : outcome * run_state :=
  let st :=
    if stop_called w (length (st_log st)) then with_self (stop (st_self st)) st
    else st in
  if WaveMU.stopThread (st_self st) then (Returned, st)
  else
    match pending with
    | [] =>
        match cycle intervalDelta (Raise ending) st with
        | Continue st' | Break st' => (Returned, st')
        | Abort e st' => (Raised e, st')
        end
    | payload :: rest =>
        match cycle intervalDelta (Return payload) st with
        | Continue st' => streaming intervalDelta ending rest st'
        | Break st' => (Returned, st')
        | Abort e st' => (Raised e, st')
        end
    end.

(** [run(self)]; [fuel] bounds the iterations of the hold-off loop. *)
Definition run (fuel : nat) (self : WaveMU.t) : outcome * run_state :=
  let self := WaveMU.set_stopThread false self in
  let st := {| st_self := self; st_frame := 0; st_resultDict := ∅;
               st_reads := 0; st_trace := []; st_log := [] |} in
  let st := tick st in                               (* [timeStart] *)
  let resultDict :=
    <["bits" := Obj (PInt (WaveMU.bits self))]>
      (<["Channels" := Obj (PInt (WaveMU.channels self))]>
         (<["n" := Obj (PInt (WaveMU.n self))]>
            (<["Fs" := Obj (PInt (WaveMU.Fs self))]> ∅))) in
  let st := with_resultDict resultDict st in
  match timedelta_seconds (WaveMU.interval self) with
  | Raise e => (Raised e, st)
  | Return intervalDelta =>
  let SVgen := readWaveFileGen (file w (WaveMU.waveFilePath self)) in
  let startTime := clock w (st_reads st) in
  let st := tick st in
  match hold_off fuel startTime st with
  | None => (Spinning, st)
  | Some st => streaming intervalDelta (ending SVgen) (pending SVgen) st
  end end.

(** The script at the end of the file: construct, then run. *)
Definition construct_and_run (fuel : nat) (waveFilePath : string) (channels : Z)
    (ip : string) (port : Z) (template : element)
    : except (outcome * run_state) :=
  self ← __init__ waveFilePath channels ip port template;
  Return (run fuel self).
End Engine.

(** ** [run] on a network where [sendto] can raise

    In [cycle] above the two [sendto] calls are taken to return.  Here they
    can raise: [net j sock data host port] is the exception the call raises
    in the cycle that follows [j] completed ones, if it raises.  Nothing
    guards the calls, so the exception leaves [run]; a call that raises has
    sent nothing. *)

Definition network : Type :=
  nat -> socket_name -> string -> string -> Z -> option pyexn.

(** A network on which every [sendto] returns. *)
Definition reliable : network := fun _ _ _ _ _ => None.

Module Net.
Section Engine.
Context (E : externals) (w : world) (net : network).

(** The body of [while not self.stopThread]. *)
Definition cycle (intervalDelta : Z) (pulled : except ndarray) (st : run_state)
    : cycle_result :=
  let self := st_self st in
  let frame := st_frame st in
  let j := length (st_log st) in
  let now := clock w (st_reads st) in
  let st := tick st in
  match py_int (PrimFloat.mul (PrimFloat.mul (float_of_int frame)
                                 (WaveMU.interval self)) 1000%float) with
  | Raise e => Abort e st
  | Return ms =>
  let resultDict :=
    <["Frame" := Obj (PInt frame)]>
      (<["Date" := Obj (PStr (datetime.strftime_Ymd now))]>
         (<["Time" := Obj (PStr (datetime.strftime_HMS now +:+ "." +:+ fmt_0d 3 ms))]>
            (st_resultDict st))) in
  let st := with_resultDict resultDict st in
  match pulled with
  | Raise _ => Break (with_self (stop self) st)
  | Return payload =>
  match fill_channels payload (seq 0 (Z.to_nat (WaveMU.channels self))) resultDict with
  | (resultDict, Some e) => Abort e (with_resultDict resultDict st)
  | (resultDict, None) =>
  let st := with_resultDict resultDict st in
  let r := toXML E (WaveMU.xmlTemplate self) resultDict in
  let st := with_self (WaveMU.set_xmlTemplate (template_after r) self) st in
  let st := emit (map Print (printed r)) st in
  match returned r with
  | Raise e => Abort e st
  | Return xml =>
  match net j socketOut xml (WaveMU.ip self) (WaveMU.port self) with
  | Some e => Abort e st
  | None =>
  let st := emit [Sendto socketOut xml (WaveMU.ip self) (WaveMU.port self)] st in
  match net j socketFwd xml "127.0.0.1" 48005 with
  | Some e => Abort e st
  | None =>
  let st := emit [Sendto socketFwd xml "127.0.0.1" 48005] st in
  let st := tick st in                               (* [elapsedTime] *)
  let frame := frame + 1 in
  match wrap ← py_div 1%float (WaveMU.interval self); py_int wrap with
  | Raise e => Abort e st
  | Return wrap =>
  let frame := if frame =? wrap then 0 else frame in
  let s := intervalDelta - datetime.sub (clock w (st_reads st)) now in
  let st := tick st in
  let slept := if 0 <? s then s else 0 in
  let st := emit [Sleep slept] st in
  Continue (end_cycle frame
              {| fl_now := now; fl_payload := payload; fl_record := resultDict;
                 fl_document := template_after r; fl_xml := xml;
                 fl_sleep := slept |} st)
  end end end end end end end.

Fixpoint streaming (intervalDelta : Z) (ending : pyexn) (pending : list ndarray)
    (st : run_state) : outcome * run_state :=
  let st :=
    if stop_called w (length (st_log st)) then with_self (stop (st_self st)) st
    else st in
  if WaveMU.stopThread (st_self st) then (Returned, st)
  else
    match pending with
    | [] =>
        match cycle intervalDelta (Raise ending) st with
        | Continue st' | Break st' => (Returned, st')
        | Abort e st' => (Raised e, st')
        end
    | payload :: rest =>
        match cycle intervalDelta (Return payload) st with
        | Continue st' => streaming intervalDelta ending rest st'
        | Break st' => (Returned, st')
        | Abort e st' => (Raised e, st')
        end
    end.

(** [run(self)] *)
Definition run (fuel : nat) (self : WaveMU.t) : outcome * run_state :=
  let self := WaveMU.set_stopThread false self in
  let st := {| st_self := self; st_frame := 0; st_resultDict := ∅;
               st_reads := 0; st_trace := []; st_log := [] |} in
  let st := tick st in                               (* [timeStart] *)
  let resultDict :=
    <["bits" := Obj (PInt (WaveMU.bits self))]>
      (<["Channels" := Obj (PInt (WaveMU.channels self))]>
         (<["n" := Obj (PInt (WaveMU.n self))]>
            (<["Fs" := Obj (PInt (WaveMU.Fs self))]> ∅))) in
  let st := with_resultDict resultDict st in
  match timedelta_seconds (WaveMU.interval self) with
  | Raise e => (Raised e, st)
  | Return intervalDelta =>
  let SVgen := readWaveFileGen (file w (WaveMU.waveFilePath self)) in
  let startTime := clock w (st_reads st) in
  let st := tick st in
  match hold_off w fuel startTime st with
  | None => (Spinning, st)
  | Some st => streaming intervalDelta (ending SVgen) (pending SVgen) st
  end end.

Definition construct_and_run (fuel : nat) (waveFilePath : string) (channels : Z)
    (ip : string) (port : Z) (template : element)
    : except (outcome * run_state) :=
  self ← __init__ waveFilePath channels ip port template;
  Return (run fuel self).
End Engine.
End Net.

(** ** Vocabulary of the statements *)

(** The keys [run] writes besides the channels. *)
Definition fixed_keys : list string :=
  ["Frame"; "Time"; "Date"; "Fs"; "n"; "Channels"; "bits"].

(** ["Channel_%d" % i] *)
Definition channel_key (i : nat) : string := "Channel_" +:+ str_int (Z.of_nat i).

(** [payload[i, :]] succeeds for every [i] in [range(channels)]. *)
Definition has_rows (channels : Z) (payload : ndarray) : Prop :=
  forall i, (i < Z.to_nat channels)%nat -> exists row, getrow payload i = Return row.

(** The record [run] passes to [toXML] in cycle [j] of a [WaveMU] built by
    the constructor. *)
Record frame_record (channels : Z) (j : nat) (now : datetime.t)
    (payload : ndarray) (resultDict : gmap string pyval) : Prop := {
  fr_Frame : resultDict !! "Frame" = Some (Obj (PInt (Z.of_nat j mod 100)));
  fr_Time :
    resultDict !! "Time"
    = Some (Obj (PStr (datetime.strftime_HMS now +:+ "."
                       +:+ fmt_0d 3 (10 * (Z.of_nat j mod 100)))));
  fr_Date : resultDict !! "Date" = Some (Obj (PStr (datetime.strftime_Ymd now)));
  fr_Fs : resultDict !! "Fs" = Some (Obj (PInt 12800));
  fr_n : resultDict !! "n" = Some (Obj (PInt 128));
  fr_Channels : resultDict !! "Channels" = Some (Obj (PInt channels));
  fr_bits : resultDict !! "bits" = Some (Obj (PInt 16));
  fr_channel : forall i, (i < Z.to_nat channels)%nat ->
    exists row, getrow payload i = Return row /\
      resultDict !! channel_key i = Some (Dict (<["Payload" := PArray row]> ∅));
  fr_keys : forall k, is_Some (resultDict !! k) ->
    k ∈ fixed_keys \/ exists i, (i < Z.to_nat channels)%nat /\ k = channel_key i
}.

(** A node of a document carries the converted value of its field: its own
    text for a plain field, the text of each resolved sub-element for a
    channel. *)
Definition encoded (E : externals) (resultDict : gmap string pyval)
    (x : element) : Prop :=
  match resultDict !! tag x with
  | None => False
  | Some v =>
      if String.prefix "Channel_" (tag x) then
        forall y d o, y ∈ children x -> v = Dict d -> d !! tag y = Some o ->
          exists converted t,
            dictTypeConvert E (tag y) (Obj o) = Return converted /\
            as_text converted = Return t /\ text y = Some t
      else
        exists converted t,
          dictTypeConvert E (tag x) v = Return converted /\
          as_text converted = Return t /\ text x = Some t
  end.

(** The events of one completed cycle. *)
Definition cycle_events (ip : string) (port : Z) (l : frame_log) : list event :=
  [Sendto socketOut (fl_xml l) ip port;
   Sendto socketFwd (fl_xml l) "127.0.0.1" 48005;
   Sleep (fl_sleep l)].

Definition sends (trace : list event) : list event :=
  omap (fun ev => match ev with Sendto _ _ _ _ => Some ev | _ => None end) trace.

Definition sleeps (trace : list event) : list Z :=
  omap (fun ev => match ev with Sleep d => Some d | _ => None end) trace.

(** What holds of the [j]-th completed cycle of a run whose first cycle
    starts at clock reading [t0]. *)
Record entry_ok (E : externals) (w : world) (channels : Z) (t0 j : nat)
    (l : frame_log) : Prop := {
  eo_now : fl_now l = clock w (t0 + 3 * j);
  eo_record : frame_record channels j (fl_now l) (fl_payload l) (fl_record l);
  eo_xml : exists tmpl,
    toXML E tmpl (fl_record l)
    = {| template_after := fl_document l; printed := [];
         returned := Return (fl_xml l) |};
  eo_sleep :
    fl_sleep l
    = Z.max 0 (10000 - datetime.sub (clock w (t0 + 3 * j + 2)) (fl_now l))
}.

(** What holds of the state in which a run ends: [k] is the number of
    [time.sleep(0.0001)] calls of the hold-off loop. *)
Record run_ok (E : externals) (w : world) (path : string) (channels : Z)
    (ip : string) (port : Z) (t0 k : nat) (st : run_state) : Prop := {
  ro_self : exists b x,
    st_self st
    = WaveMU.mk path channels 0.01%float 12800 128 32767 16 ip port b x;
  ro_trace :
    st_trace st
    = (replicate k (Sleep 100) ++ flat_map (cycle_events ip port) (st_log st))%list;
  ro_log : forall j l, st_log st !! j = Some l -> entry_ok E w channels t0 j l
}.

(** What holds in addition each time the loop condition is tested. *)
Record loop_inv (E : externals) (w : world) (path : string) (channels : Z)
    (ip : string) (port : Z) (t0 k : nat) (st : run_state) : Prop := {
  li_run : run_ok E w path channels ip port t0 k st;
  li_frame : st_frame st = Z.of_nat (length (st_log st)) mod 100;
  li_reads : st_reads st = (t0 + 3 * length (st_log st))%nat;
  li_Fs : st_resultDict st !! "Fs" = Some (Obj (PInt 12800));
  li_n : st_resultDict st !! "n" = Some (Obj (PInt 128));
  li_Channels : st_resultDict st !! "Channels" = Some (Obj (PInt channels));
  li_bits : st_resultDict st !! "bits" = Some (Obj (PInt 16));
  li_keys : forall k, is_Some (st_resultDict st !! k) ->
    k ∈ fixed_keys \/ exists i, (i < Z.to_nat channels)%nat /\ k = channel_key i
}.

(** A world in which the read with index [k] of the sound file fails with
    [e]. *)
Definition world_failing (clk : nat -> datetime.t) (stp : nat -> bool)
    (f : soundfile) (k : nat) (e : pyexn) : world :=
  {| clock := clk; stop_called := stp;
     file := fun _ => {| sf_channels := sf_channels f; sf_frames := sf_frames f;
                         sf_fault := Some (k, e) |} |}.

(** The [j]-th block [soundfile.blocks] reads from a file. *)
Definition block_frames (f : soundfile) (j : nat) : option (list (list Z)) :=
  chunks (length (sf_frames f)) 128 (sf_frames f) !! j.

(** A run that nothing cuts short: the file has every configured channel
    (and more than one, so that its blocks are two-dimensional), [stop] is
    not called from outside, and the second changes within the polls that
    [fuel] allows. *)
Definition plays_through (w : world) (fuel : nat) (path : string)
    (channels : Z) : Prop :=
  (2 <= sf_channels (file w path))%nat /\
  channels <= Z.of_nat (sf_channels (file w path)) /\
  (forall j, stop_called w j = false) /\
  exists i, (i < fuel)%nat /\
    datetime.second (clock w (2 + i)) <> datetime.second (clock w 1).

(** The blocks the generator yields before it ends. *)
Definition blocks_yielded (w : world) (path : string) : nat :=
  length (pending (readWaveFileGen (file w path))).

(** The two datagrams of a frame. *)
Definition frame_sends (ip : string) (port : Z) (l : frame_log) : list event :=
  [Sendto socketOut (fl_xml l) ip port;
   Sendto socketFwd (fl_xml l) "127.0.0.1" 48005].

(** The datagrams a trace hands to one socket. *)
Definition datagrams (sock : socket_name) (trace : list event) : list string :=
  omap (fun ev => match ev with
                  | Sendto s data _ _ =>
                      match s, sock with
                      | socketOut, socketOut | socketFwd, socketFwd => Some data
                      | _, _ => None
                      end
                  | _ => None
                  end) trace.

(** What a parser makes of a serialised tree: an empty text or tail reads
    back as none. *)
Definition nonempty (t : option string) : option string :=
  match t with
  | Some "" => None
  | _ => t
  end.

Fixpoint parsed (x : element) : element :=
  match x with
  | Element t a tx tl c => Element t a (nonempty tx) (nonempty tl) (List.map parsed c)
  end.

(** The milliseconds of [Time]: [int(frame * self.interval * 1000)] for
    [self.interval = 0.01]. *)
Definition ms_of_frame (frame : Z) : except Z :=
  py_int (PrimFloat.mul (PrimFloat.mul (float_of_int frame) 0.01%float) 1000%float).

(** The exceptions [toXML] can let through. *)
Definition benign (e : pyexn) : Prop :=
  e = TypeError \/ e = AttributeError \/ e = ValueError.

(** ** Tactics *)

(** [lia] with the equations of division and modulo by constants. *)
Ltac div_lia := zify; Z.to_euclidean_division_equations; lia.

(** A lookup of a literal key in the table of [dictTypeConvert]. *)
Ltac table_lookup :=
  unfold dictTypeConvert;
  repeat (rewrite lookup_insert_ne by done);
  rewrite ?lookup_insert_eq, ?lookup_singleton_eq, ?lookup_singleton_ne by done;
  done.

(** ** Sample inputs *)

Module Sample.
(** A stand-in for lxml's serialiser (no attributes, no escaping): an
    element without text and without sub-elements is written [<t/>]. *)
Fixpoint serialise (x : element) : string :=
  match x with
  | Element t _ tx tl c =>
      match tx, c with
      | None, [] => "<" +:+ t +:+ "/>"
      | _, _ =>
          "<" +:+ t +:+ ">" +:+ default "" tx
          +:+ (fix all (l : list element) : string :=
                 match l with
                 | [] => ""
                 | y :: l' => serialise y +:+ all l'
                 end) c
          +:+ "</" +:+ t +:+ ">"
      end +:+ default "" tl
  end.

Definition lib : externals :=
  {| str_other := fun _ => "<object>"; etree_tostring := serialise |}.

Definition leaf (t : string) : element := Element t [] None None [].
Definition channel (t : string) : element :=
  Element t [] None None [leaf "Name"; leaf "Payload"].

(** Modelled from the spec: the template file [OpenPMU_SV.xml] is not
    among the sources.  This one declares the fields of the wire format
    (section 6 of the specification) and six channel blocks. *)
Definition template : element :=
  Element "OpenPMU" [] None None
    [leaf "Frame"; leaf "Time"; leaf "Date"; leaf "Fs"; leaf "n";
     leaf "Channels"; leaf "bits";
     channel "Channel_0"; channel "Channel_1"; channel "Channel_2";
     channel "Channel_3"; channel "Channel_4"; channel "Channel_5"].

(** 4 March 2021, [us] microseconds after midnight. *)
Definition at_us (us : Z) : datetime.t :=
  datetime.mk 2021 3 4 (us / 3600000000) (us / 60000000 mod 60)
    (us / 1000000 mod 60) (us mod 1000000).

Definition noon : Z := 43200000000.

(** The second changes at the third reading; from then on a cycle starts
    every 10 ms and takes 2 ms. *)
Definition punctual (k : nat) : datetime.t :=
  match k with
  | 0%nat => at_us (noon - 100000)
  | 1%nat => at_us (noon - 50000)
  | _ => let i := Z.of_nat (k - 3) in
         at_us (noon + (i / 3) * 10000 + (i mod 3) * 1000)
  end.

(** The same readings up to the start of the first cycle; encoding and
    sending then take 1.2 s in every cycle. *)
Definition delayed (k : nat) : datetime.t :=
  match k with
  | 0%nat => at_us (noon - 100000)
  | 1%nat => at_us (noon - 50000)
  | _ => let i := Z.of_nat (k - 3) in
         at_us (noon + (i / 3) * 1200000 + (i mod 3) * 600000)
  end.

(** Two channels, [len] frames: a ramp and its negation. *)
Definition ramp (len : nat) : soundfile :=
  {| sf_channels := 2;
     sf_frames := map (fun j => [Z.of_nat j; - Z.of_nat j]) (seq 0 len);
     sf_fault := None |}.

Definition playing (clk : nat -> datetime.t) (f : soundfile) : world :=
  {| clock := clk; stop_called := fun _ => false; file := fun _ => f |}.

(** A run of a two-channel [WaveMU] on a file, with a given clock. *)
Definition demo_run (clk : nat -> datetime.t) (f : soundfile)
    : except (outcome * run_state) :=
  construct_and_run lib (playing clk f) 5 "example.flac" 2 "127.0.0.1" 48001
    template.

(** The values of one field in the frames of a run. *)
Definition field (key : string) (r : except (outcome * run_state))
    : list (option pyval) :=
  match r with
  | Return (_, st) => map (fun l => fl_record l !! key) (st_log st)
  | Raise _ => []
  end.

(** The [Time] values of the frames of a run. *)
Definition times (r : except (outcome * run_state)) : list (option pyval) :=
  field "Time" r.

Definition frames_emitted (r : except (outcome * run_state)) : option nat :=
  match r with
  | Return (_, st) => Some (length (st_log st))
  | Raise _ => None
  end.

(** The texts of the [Payload] sub-elements of a document. *)
Definition payload_texts (document : element) : list (option string) :=
  flat_map (fun x =>
              if String.prefix "Channel_" (tag x) then
                map text (List.filter (fun y => String.eqb (tag y) "Payload")
                            (children x))
              else [])
    (children document).

(** For each frame of a run, the number of bytes each [Payload] decodes to. *)
Definition payload_sizes (r : except (outcome * run_state))
    : list (list (option nat)) :=
  match r with
  | Return (_, st) =>
      map (fun l =>
             map (fun t : option string =>
                    t' ← t; b ← standard_b64decode t'; Some (String.length b))
               (payload_texts (fl_document l)))
        (st_log st)
  | Raise _ => []
  end.

(** Records of a one-channel and of a two-channel stream. *)
Definition record_one : gmap string pyval :=
  <["Channel_0" := Dict (<["Payload" := PArray [1; 2]]> ∅)]>
    (<["Frame" := Obj (PInt 0)]>
       (<["Time" := Obj (PStr "12:00:00.000")]>
          (<["Fs" := Obj (PInt 12800)]> ∅))).

Definition record_two : gmap string pyval :=
  <["Channel_1" := Dict (<["Payload" := PArray [3; 4]]> ∅)]> record_one.
End Sample.

(** ** Vocabulary of the further properties *)

Definition attrib (x : element) : list (string * string) :=
  match x with Element _ a _ _ _ => a end.
Definition tail (x : element) : option string :=
  match x with Element _ _ _ tl _ => tl end.

(** Two elements that differ at most in their text. *)
Definition same_but_text (x x' : element) : Prop :=
  tag x' = tag x /\ attrib x' = attrib x /\ tail x' = tail x /\
  children x' = children x.

(** Two records with the same fields: the same keys, and the same sub-keys
    wherever both hold a dict. *)
Definition same_fields (A B : gmap string pyval) : Prop :=
  (forall k, is_Some (A !! k) <-> is_Some (B !! k)) /\
  (forall k dA dB, A !! k = Some (Dict dA) -> B !! k = Some (Dict dB) ->
     forall k2, is_Some (dA !! k2) <-> is_Some (dB !! k2)).

(** [str] refuses an [int] of more than [sys.get_int_max_str_digits()]
    digits (4300 unless reconfigured).  [py_str] does not model this limit;
    the values called well typed below stay under it. *)
Definition int_max_str_digits : Z := 4300.

(** Values to which [str] can be applied with a result lxml accepts: an
    [int] below the digit limit, or a [str] of XML characters. *)
Definition str_ok (v : pyval) : bool :=
  match v with
  | Obj (PInt z) => Z.abs z <? 10 ^ int_max_str_digits
  | Obj (PStr s) => xml_str s
  | _ => false
  end.

(** Well-typed fields, which [toXML] encodes without raising: under the
    keys converted with [str] a value that is [str_ok]; something bytes-like
    under ["Payload"]; under any other key a [str] of XML characters or
    [bytes] of ASCII XML characters. *)
Definition field_ok (key : string) (v : pyval) : bool :=
  if bool_decide (key ∈ ["Frame"; "Fs"; "n"; "Channels"; "bits"]) then str_ok v
  else if bool_decide (key = "Payload") then
    match v with Obj (PBytes _) | Obj (PArray _) => true | _ => false end
  else
    match v with
    | Obj (PStr s) => xml_str s
    | Obj (PBytes b) => xml_bytes b
    | _ => false
    end.

(** The same for a top-level node of the template: a channel needs a dict
    (unless the node has no sub-element) whose declared entries are fine. *)
Definition node_ok (resultDict : gmap string pyval) (x : element) : bool :=
  match resultDict !! tag x with
  | None => true
  | Some v =>
      if String.prefix "Channel_" (tag x) then
        match v with
        | Dict d =>
            forallb (fun y => match d !! tag y with
                              | None => true
                              | Some o => field_ok (tag y) (Obj o)
                              end) (children x)
        | Obj _ => match children x with [] => true | _ => false end
        end
      else field_ok (tag x) v
  end.

(** The object [__init__] builds. *)
Definition built (path : string) (channels : Z) (ip : string) (port : Z)
    (template : element) : WaveMU.t :=
  WaveMU.mk path channels 0.01%float 12800 128 32767 16 ip port false template.

(** The state of [run] when the hold-off loop starts, and when it ends after
    sleeping [k] times. *)
Definition holding (self : WaveMU.t) : run_state :=
  {| st_self := self; st_frame := 0;
     st_resultDict :=
       <["bits" := Obj (PInt 16)]>
         (<["Channels" := Obj (PInt (WaveMU.channels self))]>
            (<["n" := Obj (PInt 128)]> (<["Fs" := Obj (PInt 12800)]> ∅)));
     st_reads := 2; st_trace := []; st_log := [] |}.

Definition synced (self : WaveMU.t) (k : nat) : run_state :=
  {| st_self := self; st_frame := 0;
     st_resultDict := st_resultDict (holding self);
     st_reads := 2 + k + 1; st_trace := ([] ++ replicate k (Sleep 100))%list;
     st_log := [] |}.

(** [a[i, :]], or nothing when there is no such row. *)
Definition row_or_nil (a : ndarray) (i : nat) : list Z :=
  match getrow a i with
  | Return r => r
  | Raise _ => []
  end.

(** The time-of-day fields of a [datetime] are in range. *)
Definition valid_time (d : datetime.t) : Prop :=
  0 <= datetime.hour d < 24 /\ 0 <= datetime.minute d < 60 /\
  0 <= datetime.second d < 60.

(** Whether [run] writes [key] into the record of a frame. *)
Definition run_key (channels : Z) (key : string) : bool :=
  bool_decide (key ∈ fixed_keys)
  || existsb (fun i => String.eqb key (channel_key i)) (seq 0 (Z.to_nat channels)).

(** ** More sample inputs *)

Module More.
(** A record with the fields of [Sample.record_one] and other values. *)
Definition record_later : gmap string pyval :=
  <["Channel_0" := Dict (<["Payload" := PArray [5; 6; 7]]> ∅)]>
    (<["Frame" := Obj (PInt 1)]>
       (<["Time" := Obj (PStr "12:00:00.010")]>
          (<["Fs" := Obj (PInt 12800)]> ∅))).

(** Another thread calls [stop()] while cycle [m] runs. *)
Definition stopping (m : nat) (clk : nat -> datetime.t) (f : soundfile) : world :=
  {| clock := clk; stop_called := fun j => (m <=? j)%nat; file := fun _ => f |}.

(** Two channels of silence, [len] frames. *)
Definition silence (len : nat) : soundfile :=
  {| sf_channels := 2; sf_frames := replicate len [0; 0]; sf_fault := None |}.

(** A network on which the relay's [sendto] raises in the second cycle. *)
Definition relay_down : network :=
  fun j sock _ _ _ =>
    match sock with
    | socketFwd => if (j =? 1)%nat then Some (OSError "Network is unreachable")
                   else None
    | socketOut => None
    end.

(** How a run ended. *)
Definition outcome_of (r : except (outcome * run_state)) : option outcome :=
  match r with
  | Return (o, _) => Some o
  | Raise _ => None
  end.

(** The number of datagrams handed to each socket in a run. *)
Definition datagram_counts (r : except (outcome * run_state))
    : option (nat * nat) :=
  match r with
  | Return (_, st) =>
      Some (length (datagrams socketOut (st_trace st)),
            length (datagrams socketFwd (st_trace st)))
  | Raise _ => None
  end.

(** One channel, [len] frames. *)
Definition mono (len : nat) : soundfile :=
  {| sf_channels := 1; sf_frames := map (fun j => [Z.of_nat j]) (seq 0 len);
     sf_fault := None |}.

(** Records [toXML] cannot encode: a [Time] with a control character
    (U+0001), and a channel that is not a dict. *)
Definition ill_typed : gmap string pyval :=
  <["Time" := Obj (PStr (String "001"%char "2:00"))]>
    (<["Frame" := Obj (PInt 0)]> ∅).

Definition not_a_dict : gmap string pyval :=
  <["Channel_0" := Obj (PInt 5)]> (<["Frame" := Obj (PInt 0)]> ∅).

(** [Sample.record_one] with a field no template declares. *)
Definition extended : gmap string pyval :=
  <["Comment" := Obj (PStr "test")]> Sample.record_one.

(** A clock that is read every 0.4 s and wraps at midnight. *)
Definition daily (k : nat) : datetime.t :=
  Sample.at_us ((Sample.noon + Z.of_nat k * 400000) mod 86400000000).
End More.

(** A serialiser that has a parser.  It does not write XML: it numbers the
    tree as a parser would read it back and writes the number in binary. *)
Module Codec.
Definition label : Type :=
  string * list (string * string) * option string * option string.

Fixpoint to_tree (x : element) : gen_tree label :=
  match x with
  | Element t a tx tl c => GenNode 0 (GenLeaf (t, a, tx, tl) :: List.map to_tree c)
  end.

Fixpoint of_tree (g : gen_tree label) : element :=
  match g with
  | GenNode _ (GenLeaf (t, a, tx, tl) :: l) => Element t a tx tl (List.map of_tree l)
  | _ => Element "" [] None None []
  end.

Fixpoint bits (p : positive) : string :=
  match p with
  | xH => ""
  | xO p' => String "0" (bits p')
  | xI p' => String "1" (bits p')
  end.

Fixpoint unbits (s : string) : option positive :=
  match s with
  | "" => Some xH
  | String a s' =>
      if Ascii.eqb a "0" then xO <$> unbits s'
      else if Ascii.eqb a "1" then xI <$> unbits s'
      else None
  end.

Definition tostring (x : element) : string := bits (encode (to_tree (parsed x))).

Definition fromstring (s : string) : option element :=
  p ← unbits s; g ← decode p; Some (of_tree g).

Definition lib : externals :=
  {| str_other := fun _ => "<object>"; etree_tostring := tostring |}.
End Codec.

(** * Properties *)

(** ** Arithmetic on the constants of the constructor *)

Lemma derive_n_default : derive_n 12800 0.01%float = Return 128.
Proof. vm_compute. reflexivity. Qed.

Lemma wrap_default :
  (wrap ← py_div 1%float 0.01%float; py_int wrap) = Return 100.
Proof. vm_compute. reflexivity. Qed.

Lemma intervalDelta_default : timedelta_seconds 0.01%float = Return 10000.
Proof. vm_compute. reflexivity. Qed.

Lemma ms_table :
  forallb (fun k => match ms_of_frame (Z.of_nat k) with
                    | Return ms => ms =? 10 * Z.of_nat k
                    | Raise _ => false
                    end) (seq 0 100) = true.
Proof. vm_compute. reflexivity. Qed.

Lemma ms_of_frame_exact frame :
  0 <= frame < 100 -> ms_of_frame frame = Return (10 * frame).
Proof.
  intros Hf.
  pose proof (proj1 (forallb_forall _ _) ms_table (Z.to_nat frame)) as H.
  cbv beta in H. rewrite Z2Nat.id in H by lia.
  destruct (ms_of_frame frame) as [ms|e].
  - f_equal. apply Z.eqb_eq, H, in_seq. lia.
  - discriminate H. apply in_seq. lia.
Qed.

(** ** Base64 *)

Lemma b64_table :
  forallb (fun k => let n := N.of_nat k in
                    match b64_index (b64_char n) with
                    | Some m => N.eqb m n
                    | None => false
                    end && negb (Ascii.eqb (b64_char n) "=")) (seq 0 64) = true.
Proof. vm_compute. reflexivity. Qed.

Lemma b64_index_char n : (n < 64)%N -> b64_index (b64_char n) = Some n.
Proof.
  intros Hn.
  pose proof (proj1 (forallb_forall _ _) b64_table (N.to_nat n)) as H.
  cbv beta zeta in H. rewrite N2Nat.id in H.
  assert (Hin : In (N.to_nat n) (seq 0 64)) by (apply in_seq; lia).
  apply H, andb_prop in Hin as [Hin _].
  destruct (b64_index (b64_char n)) as [m|]; [|discriminate].
  apply N.eqb_eq in Hin. congruence.
Qed.

Lemma b64_char_not_pad n : (n < 64)%N -> Ascii.eqb (b64_char n) "=" = false.
Proof.
  intros Hn.
  pose proof (proj1 (forallb_forall _ _) b64_table (N.to_nat n)) as H.
  cbv beta zeta in H. rewrite N2Nat.id in H.
  assert (Hin : In (N.to_nat n) (seq 0 64)) by (apply in_seq; lia).
  apply H, andb_prop in Hin as [_ Hin].
  by apply negb_true_iff in Hin.
Qed.

Lemma string_triples (P : string -> Prop) :
  P "" ->
  (forall a, P (String a "")) ->
  (forall a b, P (String a (String b ""))) ->
  (forall a b c s, P s -> P (String a (String b (String c s)))) ->
  forall s, P s.
Proof.
  intros H0 H1 H2 H3. fix IH 1.
  intros [|a [|b [|c s]]]; [done..|]. apply H3, IH.
Qed.

Lemma ascii_of_N_of_ascii_eq a n : n = N_of_ascii a -> ascii_of_N n = a.
Proof. intros ->. apply ascii_N_embedding. Qed.

Lemma b64_roundtrip s : standard_b64decode (standard_b64encode s) = Some s.
Proof.
  induction s as [|a|a b|a b c s IH] using string_triples.
  - done.
  - pose proof (N_ascii_bounded a) as Ha.
    cbn [standard_b64encode standard_b64decode]. cbv zeta.
    rewrite !b64_index_char by div_lia. cbn [mbind option_bind].
    cbn. f_equal. f_equal. apply ascii_of_N_of_ascii_eq; div_lia.
  - pose proof (N_ascii_bounded a) as Ha. pose proof (N_ascii_bounded b) as Hb.
    cbn [standard_b64encode standard_b64decode]. cbv zeta.
    rewrite !b64_index_char by div_lia. cbn [mbind option_bind].
    rewrite b64_char_not_pad by div_lia. cbn.
    f_equal. f_equal; [|f_equal]; apply ascii_of_N_of_ascii_eq; div_lia.
  - pose proof (N_ascii_bounded a) as Ha. pose proof (N_ascii_bounded b) as Hb.
    pose proof (N_ascii_bounded c) as Hc.
    cbn [standard_b64encode standard_b64decode]. cbv zeta.
    rewrite !b64_index_char by div_lia. cbn [mbind option_bind].
    rewrite !b64_char_not_pad by div_lia. rewrite IH. cbn [mbind option_bind].
    f_equal. f_equal; [|f_equal; [|f_equal]]; apply ascii_of_N_of_ascii_eq; div_lia.
Qed.

(** ** Sample buffers *)

Lemma tobytes16_byteswap16 v :
  tobytes16 (byteswap16 v) =
  String (byte_of_Z (v mod 65536 / 256)) (String (byte_of_Z (v mod 65536 mod 256)) "").
Proof.
  unfold tobytes16, byteswap16.
  set (u := v mod 65536). cbv zeta.
  assert (0 <= u < 65536) by (subst u; div_lia).
  set (w := u mod 256 * 256 + u / 256).
  assert (Hw : (if w <? 32768 then w else w - 65536) mod 65536 = w)
    by (subst w; destruct (Z.ltb_spec (u mod 256 * 256 + u / 256) 32768); div_lia).
  rewrite Hw. subst w. f_equal; [|f_equal]; f_equal; div_lia.
Qed.

Lemma tobytes_byteswap a : tobytes (map byteswap16 a) = big_endian a.
Proof.
  induction a as [|v a IH]; [done|].
  cbn [map tobytes big_endian]. rewrite tobytes16_byteswap16, IH. done.
Qed.

Lemma big_endian_length a : String.length (big_endian a) = (2 * length a)%nat.
Proof. induction a as [|v a IH]; cbn [big_endian String.length length]; lia. Qed.

(** ** Blocks *)

Lemma chunks_nil fuel bs : chunks fuel bs [] = [].
Proof. by destruct fuel. Qed.

Lemma chunks_count bs k : forall fuel l r,
  (0 < bs)%nat -> (length l <= fuel)%nat ->
  length l = (k * bs + r)%nat -> (r < bs)%nat ->
  length (chunks fuel bs l) = (k + (if (r =? 0)%nat then 0 else 1))%nat.
Proof.
  induction k as [|k IH]; intros fuel l r Hbs Hfuel Hlen Hr.
  - destruct l as [|x l].
    + rewrite chunks_nil. cbn in Hlen. subst r. done.
    + destruct fuel as [|fuel]; [cbn in Hfuel; lia|].
      cbn [chunks]. rewrite drop_ge by lia. rewrite chunks_nil.
      destruct (Nat.eqb_spec r 0); [cbn in Hlen; lia|done].
  - destruct l as [|x l]; [cbn in Hlen; lia|].
    destruct fuel as [|fuel]; [cbn in Hfuel; lia|].
    cbn [chunks length].
    rewrite (IH fuel (drop bs (x :: l)) r); [lia|done| | |done].
    + rewrite length_drop. cbn [length] in *. lia.
    + rewrite length_drop. cbn [length] in *. lia.
Qed.

Lemma chunks_sizes bs : forall fuel l,
  (0 < bs)%nat -> (length l <= fuel)%nat ->
  forall j rows, chunks fuel bs l !! j = Some rows ->
  length rows = Nat.min bs (length l - j * bs).
Proof.
  induction fuel as [|fuel IH]; intros l Hbs Hfuel j rows Hj; [done|].
  destruct l as [|x l]; [done|]. cbn [chunks] in Hj.
  destruct j as [|j].
  - injection Hj as <-. rewrite length_take. lia.
  - cbn in Hj. apply IH in Hj; [|done|rewrite length_drop; cbn [length] in *; lia].
    rewrite Hj, length_drop. lia.
Qed.

Lemma getrow_block ch rows i :
  (ch <> 1)%nat -> (i < ch)%nat ->
  getrow (byteswap (transpose (block_array ch rows))) i
  = Return (map byteswap16 (channel_samples i rows)).
Proof.
  intros Hch Hi. unfold block_array.
  destruct (Nat.eqb_spec ch 1); [done|].
  cbn [transpose byteswap getrow].
  rewrite !list_lookup_fmap, lookup_seq_lt by done. done.
Qed.

(** ** The encoder *)

(** ** The texts [run] writes are texts lxml accepts *)

Lemma string_forallb_app p s1 s2 :
  string_forallb p (s1 +:+ s2) = string_forallb p s1 && string_forallb p s2.
Proof.
  induction s1 as [|a s1 IH]; [done|].
  change (p a && string_forallb p (s1 +:+ s2)
          = p a && string_forallb p s1 && string_forallb p s2).
  rewrite IH. by destruct (p a).
Qed.

Lemma xml_bytes_app s1 s2 :
  xml_bytes s1 = true -> xml_bytes s2 = true -> xml_bytes (s1 +:+ s2) = true.
Proof. unfold xml_bytes. rewrite string_forallb_app. by intros -> ->. Qed.

Lemma xml_bytes_str s : xml_bytes s = true -> xml_str s = true.
Proof.
  unfold xml_bytes, xml_str. induction s as [|a s IH]; [done|]. cbn [string_forallb].
  intros [[Ha _]%andb_prop Hs]%andb_prop. by rewrite Ha, IH.
Qed.

Lemma pretty_N_char_xml x : xml_ascii (pretty_N_char x) = true.
Proof. unfold pretty_N_char. by repeat case_match. Qed.

Lemma pretty_N_go_xml x : forall s,
  xml_bytes s = true -> xml_bytes (pretty_N_go x s) = true.
Proof.
  induction (N.lt_wf_0 x) as [x _ IH]. intros s Hs.
  destruct (decide (x = 0%N)) as [->|Hx]; [by rewrite pretty_N_go_0|].
  rewrite pretty_N_go_step by lia. apply IH.
  - apply N.div_lt; lia.
  - unfold xml_bytes. cbn [string_forallb]. by rewrite pretty_N_char_xml.
Qed.

Lemma pretty_N_xml (x : N) : xml_bytes (pretty x) = true.
Proof.
  unfold pretty, pretty_N. case_decide; [done|]. by apply pretty_N_go_xml.
Qed.

Lemma str_int_xml z : xml_bytes (str_int z) = true.
Proof.
  unfold str_int, pretty, pretty_Z. destruct z as [|x|x]; [done|apply pretty_N_xml|].
  apply xml_bytes_app; [done|apply pretty_N_xml].
Qed.

Lemma zeros_xml k : xml_bytes (zeros k) = true.
Proof. induction k as [|k IH]; [done|]. unfold xml_bytes. cbn. exact IH. Qed.

Lemma fmt_0d_xml w z : xml_bytes (fmt_0d w z) = true.
Proof.
  unfold fmt_0d. destruct (z <? 0).
  - repeat apply xml_bytes_app; [done|apply zeros_xml|apply (str_int_xml (- z))].
  - apply xml_bytes_app; [apply zeros_xml|apply (str_int_xml z)].
Qed.

Lemma strftime_HMS_xml d : xml_bytes (datetime.strftime_HMS d) = true.
Proof.
  unfold datetime.strftime_HMS.
  repeat apply xml_bytes_app; first [apply fmt_0d_xml|done].
Qed.

Lemma strftime_Ymd_xml d : xml_bytes (datetime.strftime_Ymd d) = true.
Proof.
  unfold datetime.strftime_Ymd.
  repeat apply xml_bytes_app; first [apply fmt_0d_xml|done].
Qed.

Lemma b64_char_xml n : xml_ascii (b64_char n) = true.
Proof.
  unfold b64_char. generalize (N.to_nat n). intros k.
  do 64 (destruct k as [|k]; [reflexivity|]). reflexivity.
Qed.

Lemma standard_b64encode_xml s : xml_bytes (standard_b64encode s) = true.
Proof.
  unfold xml_bytes.
  induction s as [|a|a b|a b c s IH] using string_triples;
    cbn [standard_b64encode string_forallb]; rewrite ?b64_char_xml; done.
Qed.

Lemma as_text_inv o t :
  as_text (Obj o) = Return t -> o = PStr t \/ o = PBytes t.
Proof.
  destruct o as [z|s|b|a]; cbn; [done| | |done].
  - destruct (xml_str s); [|done]. intros [= <-]. by left.
  - destruct (xml_bytes b); [|done]. intros [= <-]. by right.
Qed.

Lemma as_text_str s : xml_bytes s = true -> as_text (Obj (PStr s)) = Return s.
Proof. intros H%xml_bytes_str. cbn. by rewrite H. Qed.

Lemma as_text_b64 b :
  as_text (Obj (PBytes (standard_b64encode b))) = Return (standard_b64encode b).
Proof. cbn. by rewrite standard_b64encode_xml. Qed.

Section EncoderFacts.
Context (E : externals).
Implicit Types (resultDict : gmap string pyval) (x : element).

Lemma tag_set_text x s : tag (set_text x s) = tag x.
Proof. by destruct x. Qed.
Lemma tag_set_children x c : tag (set_children x c) = tag x.
Proof. by destruct x. Qed.
Lemma text_set_text x s : text (set_text x s) = Some s.
Proof. by destruct x. Qed.
Lemma children_set_text x s : children (set_text x s) = children x.
Proof. by destruct x. Qed.
Lemma children_set_children x c : children (set_children x c) = c.
Proof. by destruct x. Qed.
Lemma set_text_set_text x s : set_text (set_text x s) s = set_text x s.
Proof. by destruct x. Qed.
Lemma set_children_set_children x c c' :
  set_children (set_children x c) c' = set_children x c'.
Proof. by destruct x. Qed.

Lemma py_in_spec {V} k (d : gmap string V) : py_in k d = true <-> is_Some (d !! k).
Proof. unfold py_in. apply bool_decide_eq_true. Qed.

(** A membership test that succeeds makes the lookup that follows succeed:
    [toXML] never raises [KeyError]. *)
Lemma getitem_guarded {V} k (d : gmap string V) :
  py_in k d = true -> exists v, d !! k = Some v /\ getitem d k = Return v.
Proof.
  intros [v Hv]%py_in_spec. exists v. unfold getitem. by rewrite Hv.
Qed.

Lemma visit_level2_idem resultDict tag1 x x' :
  visit_level2 E resultDict tag1 x = Return x' ->
  visit_level2 E resultDict tag1 x' = Return x'.
Proof.
  unfold visit_level2. cbv zeta.
  destruct (getitem resultDict tag1) as [ch|]; [|done]. cbn [mbind except_bind].
  destruct (keys_of ch) as [d|]; [|done]. cbn [mbind except_bind].
  destruct (py_in (tag x) d) eqn:Hin.
  - destruct (subscript ch (tag x)) as [v|] eqn:Hv; [|done].
    cbn [mbind except_bind].
    destruct (dictTypeConvert E (tag x) (Obj v)) as [cv|] eqn:Hc; [|done].
    cbn [mbind except_bind].
    destruct (as_text cv) as [t|] eqn:Ht; [|done]. cbn [mbind except_bind].
    intros [= <-]. rewrite tag_set_text, Hin, Hv. cbn [mbind except_bind].
    rewrite Hc. cbn [mbind except_bind]. rewrite Ht. cbn [mbind except_bind].
    by rewrite set_text_set_text.
  - intros [= <-]. by rewrite Hin.
Qed.

Lemma walk_level2_idem resultDict tag1 l :
  walk_level2 E resultDict tag1 (walk_level2 E resultDict tag1 l).1
  = walk_level2 E resultDict tag1 l.
Proof.
  induction l as [|x l IH]; [done|]. cbn [walk_level2].
  destruct (visit_level2 E resultDict tag1 x) as [x'|e] eqn:Hx.
  - destruct (walk_level2 E resultDict tag1 l) as [l' e'] eqn:Hl.
    cbn [fst walk_level2]. rewrite (visit_level2_idem _ _ _ _ Hx).
    cbn [fst] in IH. by rewrite IH.
  - cbn [fst walk_level2]. by rewrite Hx.
Qed.

Lemma visit_level1_removes resultDict x e :
  visit_level1 E resultDict x = (None, e) ->
  py_in (tag x) resultDict = false /\ e = None.
Proof.
  unfold visit_level1. cbv zeta.
  destruct (py_in (tag x) resultDict); [|by intros [= <-]].
  destruct (String.prefix "Channel_" (tag x)).
  - by destruct (walk_level2 _ _ _ _).
  - by destruct (_ ≫= _).
Qed.

Lemma visit_level1_idem resultDict x x' e :
  visit_level1 E resultDict x = (Some x', e) ->
  visit_level1 E resultDict x' = (Some x', e).
Proof.
  unfold visit_level1. cbv zeta.
  destruct (py_in (tag x) resultDict) eqn:Hin; [|done].
  destruct (String.prefix "Channel_" (tag x)) eqn:Hpre.
  - destruct (walk_level2 E resultDict (tag x) (children x)) as [sub e'] eqn:Hw.
    intros [= <- <-].
    rewrite tag_set_children, Hin, Hpre, children_set_children.
    pose proof (walk_level2_idem resultDict (tag x) (children x)) as Hi.
    rewrite Hw in Hi. cbn [fst] in Hi. rewrite Hi.
    by rewrite set_children_set_children.
  - destruct (getitem resultDict (tag x)) as [v|e0] eqn:Hg; cbn [mbind except_bind].
    + destruct (dictTypeConvert E (tag x) v) as [cv|e1] eqn:Hc; cbn [mbind except_bind].
      * destruct (as_text cv) as [t|e2] eqn:Ht; cbn [mbind except_bind].
        -- intros [= <- <-]. rewrite tag_set_text, Hin, Hpre, Hg.
           cbn [mbind except_bind]. rewrite Hc. cbn [mbind except_bind].
           rewrite Ht. cbn [mbind except_bind]. by rewrite set_text_set_text.
        -- intros [= <- <-]. rewrite Hin, Hpre, Hg. cbn [mbind except_bind].
           rewrite Hc. cbn [mbind except_bind]. by rewrite Ht.
      * intros [= <- <-]. rewrite Hin, Hpre, Hg. cbn [mbind except_bind].
        by rewrite Hc.
    + intros [= <- <-]. by rewrite Hin, Hpre, Hg.
Qed.

Lemma walk_level1_idem resultDict l :
  walk_level1 E resultDict (walk_level1 E resultDict l).1
  = walk_level1 E resultDict l.
Proof.
  induction l as [|x l IH]; [done|]. cbn [walk_level1].
  destruct (visit_level1 E resultDict x) as [[x'|] [e|]] eqn:Hx.
  - cbn [fst]; simpl option_list; cbn [app walk_level1].
    by rewrite (visit_level1_idem _ _ _ _ Hx).
  - destruct (walk_level1 E resultDict l) as [l' e'] eqn:Hl.
    cbn [fst]; simpl option_list; cbn [app walk_level1].
    rewrite (visit_level1_idem _ _ _ _ Hx). cbn [fst] in IH. by rewrite IH.
  - by apply visit_level1_removes in Hx as [_ ?].
  - destruct (walk_level1 E resultDict l) as [l' e'] eqn:Hl.
    cbn [fst]; simpl option_list; cbn [app]. by cbn [fst] in IH.
Qed.

Lemma toXML_template_after xmlTemplate resultDict :
  template_after (toXML E xmlTemplate resultDict)
  = set_children xmlTemplate (walk_level1 E resultDict (children xmlTemplate)).1.
Proof.
  unfold toXML. destruct (walk_level1 _ _ _) as [kids [e|]]; [|done].
  by destruct e.
Qed.

Lemma toXML_idem xmlTemplate resultDict :
  toXML E (template_after (toXML E xmlTemplate resultDict)) resultDict
  = toXML E xmlTemplate resultDict.
Proof.
  rewrite toXML_template_after. unfold toXML.
  rewrite children_set_children, walk_level1_idem.
  destruct (walk_level1 _ _ _) as [kids e]. cbn [fst].
  by rewrite set_children_set_children.
Qed.

(** *** What can be raised: never [KeyError] *)

Lemma dictTypeConvert_cases k :
  dictTypeConvert E k = py_str E \/ dictTypeConvert E k = b64encode_obj
  \/ dictTypeConvert E k = (fun v => Return v).
Proof.
  unfold dictTypeConvert.
  destruct (decide (k = "Frame")) as [->|?]; [left; by rewrite lookup_insert_eq|].
  rewrite lookup_insert_ne by done.
  destruct (decide (k = "Fs")) as [->|?]; [left; by rewrite lookup_insert_eq|].
  rewrite lookup_insert_ne by done.
  destruct (decide (k = "n")) as [->|?]; [left; by rewrite lookup_insert_eq|].
  rewrite lookup_insert_ne by done.
  destruct (decide (k = "Channels")) as [->|?]; [left; by rewrite lookup_insert_eq|].
  rewrite lookup_insert_ne by done.
  destruct (decide (k = "Payload")) as [->|?];
    [right; left; by rewrite lookup_insert_eq|].
  rewrite lookup_insert_ne by done.
  destruct (decide (k = "bits")) as [->|?]; [left; by rewrite lookup_singleton_eq|].
  rewrite lookup_singleton_ne by done. by right; right.
Qed.

Lemma dictTypeConvert_raises k v e :
  dictTypeConvert E k v = Raise e -> benign e.
Proof.
  destruct (dictTypeConvert_cases k) as [-> | [-> | ->]]; [done| |done].
  destruct v as [[]|]; cbn; intros [= <-]; by left.
Qed.

Lemma as_text_raises_other v e :
  as_text v = Raise e -> e = TypeError \/ e = ValueError.
Proof.
  destruct v as [[z|s|b|a]|d]; cbn; try (intros [= <-]; by left).
  - destruct (xml_str s); [done|]. intros [= <-]. by right.
  - destruct (xml_bytes b); [done|]. intros [= <-]. by right.
Qed.

Lemma as_text_raises v e : as_text v = Raise e -> benign e.
Proof.
  destruct v as [[z|s|b|a]|d]; cbn; try (intros [= <-]; by left).
  - destruct (xml_str s); [done|]. intros [= <-]. by right; right.
  - destruct (xml_bytes b); [done|]. intros [= <-]. by right; right.
Qed.

Lemma visit_level2_raises resultDict tag1 x e :
  py_in tag1 resultDict = true ->
  visit_level2 E resultDict tag1 x = Raise e -> benign e.
Proof.
  intros (ch & _ & Hg)%getitem_guarded. unfold visit_level2. cbv zeta.
  rewrite Hg. cbn [mbind except_bind].
  destruct ch as [o|d]; [intros [= <-]; by right; left|].
  cbn [keys_of mbind except_bind].
  destruct (py_in (tag x) d) eqn:Hin; [|done].
  apply getitem_guarded in Hin as (v & _ & Hv).
  cbn [subscript]. rewrite Hv. cbn [mbind except_bind].
  destruct (dictTypeConvert E (tag x) (Obj v)) as [cv|e'] eqn:Hc;
    cbn [mbind except_bind].
  - destruct (as_text cv) as [t|e'] eqn:Ht; cbn [mbind except_bind]; [done|].
    intros [= <-]. by eapply as_text_raises.
  - intros [= <-]. by eapply dictTypeConvert_raises.
Qed.

Lemma walk_level2_raises resultDict tag1 l l' e :
  py_in tag1 resultDict = true ->
  walk_level2 E resultDict tag1 l = (l', Some e) -> benign e.
Proof.
  intros Hin. revert l'. induction l as [|x l IH]; intros l'; [done|].
  cbn [walk_level2].
  destruct (visit_level2 E resultDict tag1 x) as [x'|e'] eqn:Hx.
  - destruct (walk_level2 E resultDict tag1 l) as [l'' [e''|]]; [|done].
    intros [= _ <-]. by eapply IH.
  - intros [= _ <-]. by eapply visit_level2_raises.
Qed.

Lemma visit_level1_raises resultDict x (r : option element) e :
  visit_level1 E resultDict x = (r, Some e) -> benign e.
Proof.
  unfold visit_level1. cbv zeta.
  destruct (py_in (tag x) resultDict) eqn:Hin; [|done].
  destruct (String.prefix "Channel_" (tag x)).
  - destruct (walk_level2 E resultDict (tag x) (children x)) as [sub e'] eqn:Hw.
    intros [= _ ->]. by eapply walk_level2_raises.
  - apply getitem_guarded in Hin as (v & _ & ->). cbn [mbind except_bind].
    destruct (dictTypeConvert E (tag x) v) as [cv|e'] eqn:Hc;
      cbn [mbind except_bind].
    + destruct (as_text cv) as [t|e'] eqn:Ht; cbn [mbind except_bind]; [done|].
      intros [= _ <-]. by eapply as_text_raises.
    + intros [= _ <-]. by eapply dictTypeConvert_raises.
Qed.

Lemma walk_level1_raises resultDict l l' e :
  walk_level1 E resultDict l = (l', Some e) -> benign e.
Proof.
  revert l'. induction l as [|x l IH]; intros l'; [done|]. cbn [walk_level1].
  destruct (visit_level1 E resultDict x) as [x' [e'|]] eqn:Hx.
  - intros [= _ <-]. by eapply visit_level1_raises.
  - destruct (walk_level1 E resultDict l) as [l'' [e''|]]; [|done].
    intros [= _ <-]. by eapply IH.
Qed.

Lemma toXML_printed xmlTemplate resultDict :
  printed (toXML E xmlTemplate resultDict) = [].
Proof.
  unfold toXML.
  destruct (walk_level1 _ _ _) as [kids [e|]] eqn:Hw; [|done].
  apply walk_level1_raises in Hw as [-> | [-> | ->]]; done.
Qed.

Lemma toXML_returned xmlTemplate resultDict xml :
  returned (toXML E xmlTemplate resultDict) = Return xml ->
  (walk_level1 E resultDict (children xmlTemplate)).2 = None /\
  xml = etree_tostring E (template_after (toXML E xmlTemplate resultDict)).
Proof.
  unfold toXML.
  destruct (walk_level1 _ _ _) as [kids [e|]] eqn:Hw.
  - apply walk_level1_raises in Hw as [-> | [-> | ->]]; done.
  - cbn. by intros [= <-].
Qed.

(** *** What a pass that completes leaves behind *)

Lemma visit_level2_encoded resultDict tag1 d x x' o :
  resultDict !! tag1 = Some (Dict d) ->
  visit_level2 E resultDict tag1 x = Return x' ->
  d !! tag x' = Some o ->
  exists converted t,
    dictTypeConvert E (tag x') (Obj o) = Return converted /\
    as_text converted = Return t /\ text x' = Some t.
Proof.
  intros Hd. unfold visit_level2, getitem. cbv zeta. rewrite Hd.
  cbn [mbind except_bind keys_of subscript].
  destruct (py_in (tag x) d) eqn:Hin.
  - unfold getitem. destruct (d !! tag x) as [v|] eqn:Hv; [|done].
    cbn [mbind except_bind].
    destruct (dictTypeConvert E (tag x) (Obj v)) as [cv|] eqn:Hc; [|done].
    cbn [mbind except_bind].
    destruct (as_text cv) as [t|] eqn:Ht; [|done]. cbn [mbind except_bind].
    intros [= <-]. rewrite tag_set_text, Hv. intros [= <-].
    exists cv, t. by rewrite text_set_text.
  - intros [= <-] Ho. apply bool_decide_eq_false in Hin.
    destruct Hin. by eexists.
Qed.

Lemma walk_level2_encoded resultDict tag1 d l l' :
  resultDict !! tag1 = Some (Dict d) ->
  walk_level2 E resultDict tag1 l = (l', None) ->
  forall y o, y ∈ l' -> d !! tag y = Some o ->
    exists converted t,
      dictTypeConvert E (tag y) (Obj o) = Return converted /\
      as_text converted = Return t /\ text y = Some t.
Proof.
  intros Hd. revert l'. induction l as [|x l IH]; intros l'.
  - intros [= <-] y o Hy. by apply elem_of_nil in Hy.
  - cbn [walk_level2].
    destruct (visit_level2 E resultDict tag1 x) as [x'|] eqn:Hx; [|done].
    destruct (walk_level2 E resultDict tag1 l) as [l'' e'] eqn:Hl.
    intros [= <- ->] y o [->|Hy]%elem_of_cons Ho.
    + by eapply visit_level2_encoded.
    + by eapply IH.
Qed.

Lemma visit_level1_encoded resultDict x x' :
  visit_level1 E resultDict x = (Some x', None) -> encoded E resultDict x'.
Proof.
  unfold visit_level1, encoded. cbv zeta.
  destruct (py_in (tag x) resultDict) eqn:Hin; [|done].
  apply getitem_guarded in Hin as (v & Hv & Hg).
  destruct (String.prefix "Channel_" (tag x)) eqn:Hpre.
  - destruct (walk_level2 E resultDict (tag x) (children x)) as [sub e'] eqn:Hw.
    intros [= <- ->]. rewrite tag_set_children, Hv, Hpre, children_set_children.
    intros y d o Hy -> Ho. by eapply walk_level2_encoded.
  - rewrite Hg. cbn [mbind except_bind].
    destruct (dictTypeConvert E (tag x) v) as [cv|] eqn:Hc; [|done].
    cbn [mbind except_bind].
    destruct (as_text cv) as [t|] eqn:Ht; [|done]. cbn [mbind except_bind].
    intros [= <-]. rewrite tag_set_text, Hv, Hpre.
    exists cv, t. by rewrite text_set_text.
Qed.

Lemma visit_level1_keeps resultDict x x' e :
  visit_level1 E resultDict x = (Some x', e) ->
  tag x' = tag x /\ is_Some (resultDict !! tag x).
Proof.
  unfold visit_level1. cbv zeta.
  destruct (py_in (tag x) resultDict) eqn:Hin; [|done].
  apply py_in_spec in Hin.
  destruct (String.prefix "Channel_" (tag x)).
  - destruct (walk_level2 _ _ _ _). intros [= <- _]. by rewrite tag_set_children.
  - destruct (getitem resultDict (tag x)) as [v|]; cbn [mbind except_bind];
      [|by intros [= <- _]].
    destruct (dictTypeConvert E (tag x) v) as [cv|]; cbn [mbind except_bind];
      [|by intros [= <- _]].
    destruct (as_text cv) as [t|]; cbn [mbind except_bind]; intros [= <- _];
      [by rewrite tag_set_text|done].
Qed.

Lemma walk_level1_done resultDict l l' :
  walk_level1 E resultDict l = (l', None) ->
  Forall (encoded E resultDict) l' /\
  map tag l' = filter (fun k => is_Some (resultDict !! k)) (map tag l).
Proof.
  revert l'. induction l as [|x l IH]; intros l'.
  - by intros [= <-].
  - cbn [walk_level1 map].
    destruct (visit_level1 E resultDict x) as [r [e|]] eqn:Hx; [done|].
    destruct (walk_level1 E resultDict l) as [l'' e'] eqn:Hl.
    intros [= <- ->]. destruct (IH _ eq_refl) as [IH1 IH2].
    destruct r as [x'|]; simpl option_list; cbn [app map].
    + pose proof (visit_level1_keeps _ _ _ _ Hx) as [Ht Hs].
      rewrite filter_cons_True by done. split; [|by rewrite Ht, IH2].
      constructor; [|done]. by eapply visit_level1_encoded.
    + apply visit_level1_removes in Hx as [Hin _].
      apply bool_decide_eq_false in Hin. by rewrite filter_cons_False.
Qed.

End EncoderFacts.

Section FrameRecords.
Context (E : externals).
Implicit Types (resultDict : gmap string pyval) (x : element).
(** *** The records [run] builds are always encoded in full *)

Lemma dictTypeConvert_str k :
  k ∈ ["Frame"; "Fs"; "n"; "Channels"; "bits"] -> dictTypeConvert E k = py_str E.
Proof.
  intros Hk. repeat (apply elem_of_cons in Hk as [->|Hk]; [table_lookup|]).
  by apply elem_of_nil in Hk.
Qed.

Lemma dictTypeConvert_Payload : dictTypeConvert E "Payload" = b64encode_obj.
Proof. table_lookup. Qed.

Lemma dictTypeConvert_id k :
  k ∈ ["Time"; "Date"] -> dictTypeConvert E k = (fun v => Return v).
Proof.
  intros Hk. repeat (apply elem_of_cons in Hk as [->|Hk]; [table_lookup|]).
  by apply elem_of_nil in Hk.
Qed.

Lemma prefix_channel_key i : String.prefix "Channel_" (channel_key i) = true.
Proof. unfold channel_key. generalize (str_int (Z.of_nat i)). intros s. cbn. by destruct s. Qed.

Lemma channel_key_inj i j : channel_key i = channel_key j -> i = j.
Proof.
  unfold channel_key, str_int. intros H%(inj (String.app "Channel_")).
  by apply (inj pretty), Nat2Z.inj in H.
Qed.

Lemma channel_key_not_fixed i : channel_key i ∉ fixed_keys.
Proof.
  intros Hk. pose proof (prefix_channel_key i) as Hp.
  unfold fixed_keys in Hk.
  repeat (apply elem_of_cons in Hk as [Hk|Hk]; [by rewrite Hk in Hp|]).
  by apply elem_of_nil in Hk.
Qed.

Lemma walk_level2_payload resultDict tag1 row l :
  resultDict !! tag1 = Some (Dict (<["Payload" := PArray row]> ∅)) ->
  (walk_level2 E resultDict tag1 l).2 = None.
Proof.
  intros Hd. induction l as [|y l IH]; [done|].
  cbn [walk_level2]. unfold visit_level2, getitem. cbv zeta. rewrite Hd.
  cbn [mbind except_bind keys_of subscript].
  destruct (py_in (tag y) _) eqn:Hin.
  - apply py_in_spec in Hin as [o Ho].
    apply lookup_insert_Some in Ho as [[<- <-]|[_ Ho]]; [|done].
    unfold getitem. rewrite lookup_insert_eq. cbn [mbind except_bind].
    rewrite dictTypeConvert_Payload.
    cbn [b64encode_obj mbind except_bind]. rewrite as_text_b64.
    cbn [mbind except_bind]. by destruct (walk_level2 _ _ _ _).
  - by destruct (walk_level2 _ _ _ _).
Qed.

Lemma frame_record_visit channels j now payload resultDict x :
  frame_record channels j now payload resultDict ->
  (visit_level1 E resultDict x).2 = None.
Proof.
  intros Hr. unfold visit_level1. cbv zeta.
  destruct (py_in (tag x) resultDict) eqn:Hin; [|done].
  apply py_in_spec in Hin.
  destruct (fr_keys _ _ _ _ _ Hr _ Hin) as [Hk|(i & Hi & Hk)].
  - assert (Hp : String.prefix "Channel_" (tag x) = false).
    { unfold fixed_keys in Hk.
      repeat (apply elem_of_cons in Hk as [->|Hk]; [done|]).
      by apply elem_of_nil in Hk. }
    rewrite Hp. unfold getitem, fixed_keys in *.
    apply elem_of_cons in Hk as [Hk|Hk].
    { rewrite Hk, (fr_Frame _ _ _ _ _ Hr). cbn [mbind except_bind].
      rewrite dictTypeConvert_str by set_solver. cbn [py_str mbind except_bind].
      by rewrite as_text_str by apply str_int_xml. }
    apply elem_of_cons in Hk as [Hk|Hk].
    { rewrite Hk, (fr_Time _ _ _ _ _ Hr). cbn [mbind except_bind].
      rewrite dictTypeConvert_id by set_solver. cbn [mbind except_bind].
      rewrite as_text_str; [done|].
      repeat apply xml_bytes_app;
        first [apply strftime_HMS_xml|apply fmt_0d_xml|done]. }
    apply elem_of_cons in Hk as [Hk|Hk].
    { rewrite Hk, (fr_Date _ _ _ _ _ Hr). cbn [mbind except_bind].
      rewrite dictTypeConvert_id by set_solver. cbn [mbind except_bind].
      by rewrite as_text_str by apply strftime_Ymd_xml. }
    apply elem_of_cons in Hk as [Hk|Hk].
    { rewrite Hk, (fr_Fs _ _ _ _ _ Hr). cbn [mbind except_bind].
      rewrite dictTypeConvert_str by set_solver. cbn [py_str mbind except_bind].
      by rewrite as_text_str by apply str_int_xml. }
    apply elem_of_cons in Hk as [Hk|Hk].
    { rewrite Hk, (fr_n _ _ _ _ _ Hr). cbn [mbind except_bind].
      rewrite dictTypeConvert_str by set_solver. cbn [py_str mbind except_bind].
      by rewrite as_text_str by apply str_int_xml. }
    apply elem_of_cons in Hk as [Hk|Hk].
    { rewrite Hk, (fr_Channels _ _ _ _ _ Hr). cbn [mbind except_bind].
      rewrite dictTypeConvert_str by set_solver. cbn [py_str mbind except_bind].
      by rewrite as_text_str by apply str_int_xml. }
    apply elem_of_cons in Hk as [Hk|Hk].
    { rewrite Hk, (fr_bits _ _ _ _ _ Hr). cbn [mbind except_bind].
      rewrite dictTypeConvert_str by set_solver. cbn [py_str mbind except_bind].
      by rewrite as_text_str by apply str_int_xml. }
    by apply elem_of_nil in Hk.
  - rewrite Hk, prefix_channel_key.
    destruct (fr_channel _ _ _ _ _ Hr i Hi) as (row & _ & Hd).
    pose proof (walk_level2_payload _ _ _ (children x) Hd) as Hw.
    by destruct (walk_level2 _ _ _ _).
Qed.

Lemma frame_record_walk channels j now payload resultDict l :
  frame_record channels j now payload resultDict ->
  (walk_level1 E resultDict l).2 = None.
Proof.
  intros Hr. induction l as [|x l IH]; [done|]. cbn [walk_level1].
  pose proof (frame_record_visit _ _ _ _ _ x Hr) as Hx.
  destruct (visit_level1 E resultDict x) as [r e]. cbn [snd] in Hx. subst e.
  by destruct (walk_level1 E resultDict l).
Qed.

Lemma frame_record_toXML channels j now payload resultDict xmlTemplate :
  frame_record channels j now payload resultDict ->
  toXML E xmlTemplate resultDict
  = {| template_after :=
         set_children xmlTemplate
           (walk_level1 E resultDict (children xmlTemplate)).1;
       printed := [];
       returned :=
         Return (etree_tostring E
                   (set_children xmlTemplate
                      (walk_level1 E resultDict (children xmlTemplate)).1)) |}.
Proof.
  intros Hr. unfold toXML.
  pose proof (frame_record_walk _ _ _ _ _ (children xmlTemplate) Hr) as Hw.
  destruct (walk_level1 _ _ _) as [kids e]. cbn [snd] in Hw. by subst e.
Qed.

(** The document of an encoded record: its nodes are the declared fields
    the record has, each carrying its converted value. *)
Lemma toXML_document xmlTemplate resultDict xml :
  returned (toXML E xmlTemplate resultDict) = Return xml ->
  let document := template_after (toXML E xmlTemplate resultDict) in
  xml = etree_tostring E document /\
  Forall (encoded E resultDict) (children document) /\
  map tag (children document)
  = filter (fun k => is_Some (resultDict !! k)) (map tag (children xmlTemplate)).
Proof.
  intros Hret. apply toXML_returned in Hret as [Hw ->].
  cbv zeta. split; [done|].
  rewrite toXML_template_after, children_set_children.
  destruct (walk_level1 E resultDict (children xmlTemplate)) as [kids e] eqn:Hk.
  cbn [snd] in Hw. subst e. by apply walk_level1_done.
Qed.
End FrameRecords.

(** ** The run *)

Lemma init_ok path channels ip port template :
  __init__ path channels ip port template
  = Return (WaveMU.mk path channels 0.01%float 12800 128 32767 16 ip port false
              template).
Proof. unfold __init__. cbv zeta. by rewrite derive_n_default. Qed.

Lemma fill_channels_done payload range : forall resultDict resultDict',
  fill_channels payload range resultDict = (resultDict', None) ->
  (forall i, i ∈ range -> exists row, getrow payload i = Return row /\
     resultDict' !! channel_key i = Some (Dict (<["Payload" := PArray row]> ∅))) /\
  (forall k, (forall i, i ∈ range -> k <> channel_key i) ->
     resultDict' !! k = resultDict !! k) /\
  (forall k, is_Some (resultDict' !! k) ->
     is_Some (resultDict !! k) \/ exists i, i ∈ range /\ k = channel_key i).
Proof.
  induction range as [|i rest IH]; intros rd rd'.
  - intros [= <-]. split_and!; [|done|by left].
    intros i Hi. by apply elem_of_nil in Hi.
  - cbn [fill_channels]. fold (channel_key i).
    destruct (getrow payload i) as [row|] eqn:Hrow; [|done].
    intros (H1 & H2 & H3)%IH. split_and!.
    + intros i0 Hi0. destruct (decide (i0 ∈ rest)) as [Hin|Hnin]; [by apply H1|].
      apply elem_of_cons in Hi0 as [->|?]; [|done].
      exists row. split; [done|]. rewrite H2.
      * by rewrite lookup_insert_eq.
      * intros i' Hi' Heq%channel_key_inj. by subst.
    + intros k Hk. rewrite H2.
      * rewrite !lookup_insert_ne; [done|..]; intros <-; eapply Hk; [|done| |done];
          by left.
      * intros i' Hi'. apply Hk. by right.
    + intros k [Hk|(i' & Hi' & ->)]%H3.
      * destruct (decide (k = channel_key i)) as [->|Hne].
        -- right. exists i. split; [by left|done].
        -- left. by rewrite !lookup_insert_ne in Hk.
      * right. exists i'. split; [by right|done].
Qed.

Lemma fill_channels_raise payload range : forall resultDict resultDict' e,
  fill_channels payload range resultDict = (resultDict', Some e) ->
  exists i, i ∈ range /\ getrow payload i = Raise e.
Proof.
  induction range as [|i rest IH]; intros rd rd' e; [done|].
  cbn [fill_channels].
  destruct (getrow payload i) as [row|e'] eqn:Hrow.
  - intros (i' & Hi' & He)%IH. exists i'. split; [by right|done].
  - intros [= _ <-]. exists i. split; [by left|done].
Qed.

Lemma cycle_ignores_exception E w intervalDelta e1 e2 st :
  cycle E w intervalDelta (Raise e1) st = cycle E w intervalDelta (Raise e2) st.
Proof. unfold cycle. cbv zeta. by destruct (py_int _). Qed.

Lemma streaming_ignores_exception E w intervalDelta e1 e2 pending : forall st,
  streaming E w intervalDelta e1 pending st
  = streaming E w intervalDelta e2 pending st.
Proof.
  induction pending as [|payload rest IH]; intros st; cbn [streaming].
  - by rewrite (cycle_ignores_exception E w intervalDelta e1 e2).
  - destruct (WaveMU.stopThread _); [done|].
    destruct (cycle E w intervalDelta (Return payload) _); [apply IH|done..].
Qed.

Section RunFacts.
Context (E : externals) (w : world).
Context (path : string) (channels : Z) (ip : string) (port : Z).
Context (t0 k : nat).

Local Abbreviation loop_inv := (loop_inv E w path channels ip port t0 k).
Local Abbreviation run_ok := (run_ok E w path channels ip port t0 k).

Lemma loop_inv_stop st :
  loop_inv st -> loop_inv (with_self (stop (st_self st)) st).
Proof.
  intros [[(b & x & Hs) Ht Hl] Hf Hr HFs Hn HC Hb Hk].
  split; [split|..]; try done.
  exists true, x. cbn. by rewrite Hs.
Qed.

Lemma cycle_spec pulled st :
  loop_inv st ->
  match cycle E w 10000 pulled st with
  | Continue st' =>
      loop_inv st' /\
      WaveMU.stopThread (st_self st') = WaveMU.stopThread (st_self st) /\
      exists payload l,
        pulled = Return payload /\ has_rows channels payload /\
        st_log st' = (st_log st ++ [l])%list /\ fl_payload l = payload
  | Break st' =>
      run_ok st' /\ st_log st' = st_log st /\
      WaveMU.stopThread (st_self st') = true /\ exists e, pulled = Raise e
  | Abort e st' =>
      run_ok st' /\ st_log st' = st_log st /\ e = IndexError /\
      exists payload, pulled = Return payload /\ ~ has_rows channels payload
  end.
Proof.
  intros [[(b & x & Hs) Ht Hl] Hf Hr HFs Hn HC Hb Hk].
  unfold cycle. cbv zeta. rewrite Hs. cbn [st_resultDict st_reads st_frame tick].
  cbn [WaveMU.interval WaveMU.channels WaveMU.xmlTemplate WaveMU.ip WaveMU.port].
  fold (ms_of_frame (st_frame st)).
  rewrite Hf, ms_of_frame_exact by div_lia.
  set (now := clock w (st_reads st)).
  set (j := length (st_log st)) in *.
  set (rd0 := <["Frame":=_]> _).
  destruct pulled as [payload|e].
  2:{ split_and!; [split| | |by eauto]; try done.
      exists true, x. done. }
  destruct (fill_channels payload _ rd0) as [rd [e|]] eqn:Hfill.
  { apply fill_channels_raise in Hfill as (i & Hi & He).
    split_and!; [split| | |]; try done; [by eauto| |].
    - destruct payload as [d|c rows]; cbn in He; [|destruct (rows !! i); [done|]];
        by injection He as <-.
    - exists payload. split; [done|]. intros Hrows.
      apply elem_of_seq in Hi. destruct (Hrows i) as [row Hrow]; [lia|congruence]. }
  apply fill_channels_done in Hfill as (H1 & H2 & H3).
  assert (Hfixed : forall key, key ∈ fixed_keys -> rd !! key = rd0 !! key).
  { intros key Hkey. apply H2. intros i _ ->.
    by apply channel_key_not_fixed in Hkey. }
  assert (Hrec : frame_record channels j now payload rd).
  { split.
    - rewrite Hfixed by (unfold fixed_keys; repeat constructor). subst rd0.
      by rewrite lookup_insert_eq.
    - rewrite Hfixed by (unfold fixed_keys; repeat constructor). subst rd0.
      rewrite lookup_insert_ne, lookup_insert_ne, lookup_insert_eq by done. done.
    - rewrite Hfixed by (unfold fixed_keys; repeat constructor). subst rd0.
      rewrite lookup_insert_ne, lookup_insert_eq by done. done.
    - rewrite Hfixed by (unfold fixed_keys; repeat constructor). subst rd0.
      by rewrite !lookup_insert_ne by done.
    - rewrite Hfixed by (unfold fixed_keys; repeat constructor). subst rd0.
      by rewrite !lookup_insert_ne by done.
    - rewrite Hfixed by (unfold fixed_keys; repeat constructor). subst rd0.
      by rewrite !lookup_insert_ne by done.
    - rewrite Hfixed by (unfold fixed_keys; repeat constructor). subst rd0.
      by rewrite !lookup_insert_ne by done.
    - intros i Hi. apply H1, elem_of_seq. lia.
    - intros key [Hkey|(i & Hi%elem_of_seq & ->)]%H3.
      + subst rd0.
        destruct (decide (key = "Frame")) as [->|?];
          [left; unfold fixed_keys; repeat constructor|].
        destruct (decide (key = "Date")) as [->|?];
          [left; unfold fixed_keys; repeat constructor|].
        destruct (decide (key = "Time")) as [->|?];
          [left; unfold fixed_keys; repeat constructor|].
        rewrite !lookup_insert_ne in Hkey by done. by apply Hk.
      + right. exists i. split; [lia|done]. }
  rewrite (frame_record_toXML E _ _ _ _ _ x Hrec).
  cbn [returned printed template_after map].
  rewrite wrap_default.
  set (doc := set_children x _).
  set (l := {| fl_now := now |}). 
  split_and!.
  - split; [split|..].
    + exists b, doc. done.
    + cbn. rewrite Ht, flat_map_app. cbn. rewrite app_nil_r, <- !app_assoc. done.
    + cbn [st_log end_cycle emit tick with_self with_resultDict].
      intros i l' [[_ Hi]|[-> <-]]%lookup_snoc_Some; [by apply Hl|].
      fold j. split.
      * cbn. subst now. by rewrite Hr.
      * done.
      * exists x. cbn. by rewrite (frame_record_toXML E _ _ _ _ _ x Hrec).
      * cbn. rewrite Hr. fold j.
        replace (S (S (t0 + 3 * j)))%nat with (t0 + 3 * j + 2)%nat by lia.
        set (s := 10000 - _). destruct (Z.ltb_spec 0 s); lia.
    + cbn. rewrite length_app. cbn. fold j.
      replace (Z.of_nat (j + 1)) with (Z.of_nat j + 1) by lia.
      destruct (Z.eqb_spec (Z.of_nat j mod 100 + 1) 100); div_lia.
    + cbn. rewrite length_app, Hr. cbn. lia.
    + cbn. apply Hrec.
    + cbn. apply Hrec.
    + cbn. apply Hrec.
    + cbn. apply Hrec.
    + cbn. apply Hrec.
  - done.
  - exists payload, l. split_and!; try done.
    intros i Hi. destruct (fr_channel _ _ _ _ _ Hrec i Hi) as (row & Hrow & _).
    by exists row.
Qed.

Lemma streaming_spec ending pending : forall st o st',
  loop_inv st ->
  streaming E w 10000 ending pending st = (o, st') ->
  run_ok st' /\
  (forall e, o = Raised e -> e = IndexError) /\
  exists m, map fl_payload (st_log st')
            = (map fl_payload (st_log st) ++ take m pending)%list.
Proof.
  induction pending as [|payload rest IH]; intros st o st' Hinv;
    cbn [streaming]; cbv zeta.
  - set (st1 := if stop_called w _ then _ else st).
    assert (Hinv1 : loop_inv st1)
      by (subst st1; destruct (stop_called w _); [by apply loop_inv_stop|done]).
    assert (Hlog1 : st_log st1 = st_log st)
      by (subst st1; by destruct (stop_called w _)).
    rewrite <- Hlog1. clearbody st1.
    destruct (WaveMU.stopThread (st_self st1)).
    { intros [= <- <-]. split; [apply Hinv1|]. split; [done|]. exists 0%nat. by rewrite app_nil_r. }
    pose proof (cycle_spec (Raise ending) st1 Hinv1) as Hc.
    destruct (cycle E w 10000 (Raise ending) st1) as [st2|st2|e st2].
    + by destruct Hc as (_ & _ & ? & ? & ? & _).
    + destruct Hc as (Hok & Hlog & _). intros [= <- <-]. split; [done|].
      split; [done|]. exists 0%nat. by rewrite Hlog, app_nil_r.
    + by destruct Hc as (_ & _ & _ & ? & ? & _).
  - set (st1 := if stop_called w _ then _ else st).
    assert (Hinv1 : loop_inv st1)
      by (subst st1; destruct (stop_called w _); [by apply loop_inv_stop|done]).
    assert (Hlog1 : st_log st1 = st_log st)
      by (subst st1; by destruct (stop_called w _)).
    rewrite <- Hlog1. clearbody st1.
    destruct (WaveMU.stopThread (st_self st1)).
    { intros [= <- <-]. split; [apply Hinv1|]. split; [done|]. exists 0%nat. by rewrite app_nil_r. }
    pose proof (cycle_spec (Return payload) st1 Hinv1) as Hc.
    destruct (cycle E w 10000 (Return payload) st1) as [st2|st2|e st2].
    + destruct Hc as (Hinv2 & _ & p & l & [= <-] & _ & Hlog & Hp).
      intros (Hok & He & m & Hm)%IH; [|done]. split; [done|]. split; [done|].
      exists (S m). rewrite Hm, Hlog, map_app. cbn. rewrite Hp.
      by rewrite <- app_assoc.
    + destruct Hc as (Hok & Hlog & _). intros [= <- <-]. split; [done|].
      split; [done|]. exists 0%nat. by rewrite Hlog, app_nil_r.
    + destruct Hc as (Hok & Hlog & -> & _). intros [= <- <-]. split; [done|].
      split; [by intros ? [= <-]|]. exists 0%nat. by rewrite Hlog, app_nil_r.
Qed.

Lemma streaming_complete ending pending : forall st,
  loop_inv st ->
  (forall j, stop_called w j = false) ->
  WaveMU.stopThread (st_self st) = false ->
  Forall (has_rows channels) pending ->
  exists st',
    streaming E w 10000 ending pending st = (Returned, st') /\
    WaveMU.stopThread (st_self st') = true /\
    length (st_log st') = (length (st_log st) + length pending)%nat.
Proof.
  induction pending as [|payload rest IH]; intros st Hinv Hstop Hrun Hrows;
    cbn [streaming]; cbv zeta; rewrite Hstop, Hrun.
  - pose proof (cycle_spec (Raise ending) st Hinv) as Hc.
    destruct (cycle E w 10000 (Raise ending) st) as [st2|st2|e st2].
    + by destruct Hc as (_ & _ & ? & ? & ? & _).
    + destruct Hc as (_ & Hlog & Hs & _). exists st2. rewrite Hlog. cbn.
      split_and!; [done..|lia].
    + by destruct Hc as (_ & _ & _ & ? & ? & _).
  - apply Forall_cons in Hrows as [Hrow Hrows].
    pose proof (cycle_spec (Return payload) st Hinv) as Hc.
    destruct (cycle E w 10000 (Return payload) st) as [st2|st2|e st2].
    + destruct Hc as (Hinv2 & Hs & p & l & _ & _ & Hlog & _).
      destruct (IH st2) as (st' & Hst' & Hs' & Hlen); [done|done|congruence|done|].
      exists st'. split_and!; [done..|].
      rewrite Hlen, Hlog, length_app. cbn. lia.
    + by destruct Hc as (_ & _ & _ & ? & ?).
    + by destruct Hc as (_ & _ & _ & ? & [= <-] & []).
Qed.
End RunFacts.

Lemma hold_off_spec w fuel startTime : forall st st',
  hold_off w fuel startTime st = Some st' ->
  exists k,
    st' = {| st_self := st_self st; st_frame := st_frame st;
             st_resultDict := st_resultDict st;
             st_reads := st_reads st + k + 1;
             st_trace := st_trace st ++ replicate k (Sleep 100);
             st_log := st_log st |}.
Proof.
  induction fuel as [|fuel IH]; intros st st'; [done|]. cbn [hold_off]. cbv zeta.
  destruct (_ =? _).
  - intros (k & ->)%IH. exists (S k). unfold emit, tick. cbn. f_equal; [lia|].
    by rewrite <- app_assoc.
  - intros [= <-]. exists 0%nat. unfold tick. cbn. rewrite app_nil_r. f_equal. lia.
Qed.

Lemma hold_off_total w fuel startTime : forall st i,
  (i < fuel)%nat ->
  datetime.second (clock w (st_reads st + i)) <> datetime.second startTime ->
  is_Some (hold_off w fuel startTime st).
Proof.
  induction fuel as [|fuel IH]; intros st i Hi Hne; [lia|].
  cbn [hold_off]. cbv zeta.
  destruct (Z.eqb_spec (datetime.second startTime)
              (datetime.second (clock w (st_reads st)))) as [Heq|]; [|done].
  destruct i as [|i]; [by rewrite Nat.add_0_r in Hne|].
  apply (IH _ i); [lia|]. cbn. by rewrite <- Nat.add_succ_comm in Hne.
Qed.

Section Run.
Context (E : externals) (w : world).
Context (path : string) (channels : Z) (ip : string) (port : Z).
Context (template : element).

Let self : WaveMU.t :=
  WaveMU.mk path channels 0.01%float 12800 128 32767 16 ip port false template.

Lemma run_unfold fuel st1 :
  hold_off w fuel (clock w 1)
    {| st_self := self; st_frame := 0;
       st_resultDict :=
         <["bits" := Obj (PInt 16)]>
           (<["Channels" := Obj (PInt channels)]>
              (<["n" := Obj (PInt 128)]> (<["Fs" := Obj (PInt 12800)]> ∅)));
       st_reads := 2; st_trace := []; st_log := [] |} = Some st1 ->
  run E w fuel self
  = streaming E w 10000 (ending (readWaveFileGen (file w path)))
      (pending (readWaveFileGen (file w path))) st1.
Proof.
  intros H. unfold run. cbv zeta.
  change (WaveMU.set_stopThread false self) with self. unfold self in *.
  cbn [WaveMU.interval WaveMU.bits WaveMU.channels WaveMU.n WaveMU.Fs
       WaveMU.waveFilePath].
  rewrite intervalDelta_default. unfold with_resultDict, tick.
  cbn [st_self st_frame st_reads st_trace st_log st_resultDict].
  by rewrite H.
Qed.

Lemma run_spinning fuel :
  hold_off w fuel (clock w 1)
    {| st_self := self; st_frame := 0;
       st_resultDict :=
         <["bits" := Obj (PInt 16)]>
           (<["Channels" := Obj (PInt channels)]>
              (<["n" := Obj (PInt 128)]> (<["Fs" := Obj (PInt 12800)]> ∅)));
       st_reads := 2; st_trace := []; st_log := [] |} = None ->
  exists st, run E w fuel self = (Spinning, st) /\
             st_self st = self /\ st_trace st = [] /\ st_log st = [].
Proof.
  intros H. unfold run. cbv zeta.
  change (WaveMU.set_stopThread false self) with self. unfold self in *.
  cbn [WaveMU.interval WaveMU.bits WaveMU.channels WaveMU.n WaveMU.Fs
       WaveMU.waveFilePath].
  rewrite intervalDelta_default. unfold with_resultDict, tick.
  cbn [st_self st_frame st_reads st_trace st_log st_resultDict].
  rewrite H. by eexists.
Qed.

Lemma loop_inv_start k :
  loop_inv E w path channels ip port (3 + k) k
    {| st_self := self; st_frame := 0;
       st_resultDict :=
         <["bits" := Obj (PInt 16)]>
           (<["Channels" := Obj (PInt channels)]>
              (<["n" := Obj (PInt 128)]> (<["Fs" := Obj (PInt 12800)]> ∅)));
       st_reads := 2 + k + 1; st_trace := [] ++ replicate k (Sleep 100);
       st_log := [] |}.
Proof.
  split; [split|..]; cbn.
  - by exists false, template.
  - by rewrite app_nil_r.
  - done.
  - done.
  - lia.
  - by rewrite !lookup_insert_ne by done.
  - by rewrite !lookup_insert_ne by done.
  - by rewrite !lookup_insert_ne by done.
  - done.
  - intros key Hkey. left. unfold fixed_keys.
    repeat (apply lookup_insert_is_Some in Hkey as [<-|[_ Hkey]];
            [repeat constructor|]).
    by apply is_Some_None in Hkey.
Qed.

Lemma run_spec fuel o st :
  run E w fuel self = (o, st) ->
  (forall e, o = Raised e -> e = IndexError) /\
  exists t0 k, run_ok E w path channels ip port t0 k st.
Proof.
  destruct (hold_off w fuel (clock w 1)
              {| st_self := self; st_frame := 0;
                 st_resultDict :=
                   <["bits" := Obj (PInt 16)]>
                     (<["Channels" := Obj (PInt channels)]>
                        (<["n" := Obj (PInt 128)]> (<["Fs" := Obj (PInt 12800)]> ∅)));
                 st_reads := 2; st_trace := []; st_log := [] |})
    as [st1|] eqn:Hh.
  - rewrite (run_unfold _ _ Hh). apply hold_off_spec in Hh as (k & ->). cbn.
    intros Hs. eapply streaming_spec in Hs as (Hok & He & _);
      [|apply loop_inv_start].
    split; [done|]. by exists (3 + k)%nat, k.
  - apply run_spinning in Hh as (st' & -> & Hs & Ht & Hl). intros [= <- <-].
    split; [done|].
    exists 0%nat, 0%nat. split; [by eauto|by rewrite Ht, Hl|].
    intros j l. by rewrite Hl.
Qed.

Lemma run_payloads fuel o st :
  run E w fuel self = (o, st) ->
  exists m, map fl_payload (st_log st)
            = take m (pending (readWaveFileGen (file w path))).
Proof.
  destruct (hold_off w fuel (clock w 1)
              {| st_self := self; st_frame := 0;
                 st_resultDict :=
                   <["bits" := Obj (PInt 16)]>
                     (<["Channels" := Obj (PInt channels)]>
                        (<["n" := Obj (PInt 128)]> (<["Fs" := Obj (PInt 12800)]> ∅)));
                 st_reads := 2; st_trace := []; st_log := [] |})
    as [st1|] eqn:Hh.
  - rewrite (run_unfold _ _ Hh). apply hold_off_spec in Hh as (k & ->). cbn.
    intros Hs. by eapply streaming_spec in Hs as (_ & _ & m & Hm);
      [exists m|apply loop_inv_start].
  - apply run_spinning in Hh as (st' & -> & Hs & Ht & Hl). intros [= <- <-].
    exists 0%nat. by rewrite Hl.
Qed.

Lemma run_complete fuel i :
  (i < fuel)%nat ->
  datetime.second (clock w (2 + i)) <> datetime.second (clock w 1) ->
  (forall j, stop_called w j = false) ->
  Forall (has_rows channels) (pending (readWaveFileGen (file w path))) ->
  exists st,
    run E w fuel self = (Returned, st) /\
    WaveMU.stopThread (st_self st) = true /\
    length (st_log st) = length (pending (readWaveFileGen (file w path))).
Proof.
  intros Hi Hclock Hstop Hrows.
  destruct (hold_off_total w fuel (clock w 1)
              {| st_self := self; st_frame := 0;
                 st_resultDict :=
                   <["bits" := Obj (PInt 16)]>
                     (<["Channels" := Obj (PInt channels)]>
                        (<["n" := Obj (PInt 128)]> (<["Fs" := Obj (PInt 12800)]> ∅)));
                 st_reads := 2; st_trace := []; st_log := [] |} i Hi Hclock)
    as [st1 Hh].
  rewrite (run_unfold _ _ Hh). apply hold_off_spec in Hh as (k & ->). cbn.
  destruct (streaming_complete E w path channels ip port (3 + k) k
              (ending (readWaveFileGen (file w path)))
              (pending (readWaveFileGen (file w path))) _
              (loop_inv_start k) Hstop eq_refl Hrows) as (st & Hst & Hs & Hlen).
  exists st. by split_and!.
Qed.
End Run.

(** ** Reading a trace and a document *)

Lemma sends_cycles ip port k log :
  sends (replicate k (Sleep 100) ++ flat_map (cycle_events ip port) log)
  = flat_map (fun l => [Sendto socketOut (fl_xml l) ip port;
                        Sendto socketFwd (fl_xml l) "127.0.0.1" 48005]) log.
Proof.
  unfold sends. rewrite omap_app.
  assert (Hk : omap (fun ev => match ev with Sendto _ _ _ _ => Some ev | _ => None end)
                 (replicate k (Sleep 100)) = []).
  { induction k as [|k IH]; [done|]. cbn. by rewrite IH. }
  rewrite Hk. cbn [app].
  induction log as [|l log IH]; [done|]. cbn. by rewrite IH.
Qed.

Lemma sleeps_cycles ip port k log :
  sleeps (replicate k (Sleep 100) ++ flat_map (cycle_events ip port) log)
  = (replicate k 100 ++ map fl_sleep log)%list.
Proof.
  unfold sleeps. rewrite omap_app. f_equal.
  - induction k as [|k IH]; [done|]. cbn. by rewrite IH.
  - induction log as [|l log IH]; [done|]. cbn. by rewrite IH.
Qed.

Lemma construct_and_run_eq E w fuel path channels ip port template :
  construct_and_run E w fuel path channels ip port template
  = Return (run E w fuel
              (WaveMU.mk path channels 0.01%float 12800 128 32767 16 ip port
                 false template)).
Proof. unfold construct_and_run. by rewrite init_ok. Qed.

Section Documents.
Context (E : externals).

Lemma encoded_int resultDict x key z :
  encoded E resultDict x -> tag x = key ->
  key ∈ ["Frame"; "Fs"; "n"; "Channels"; "bits"] ->
  resultDict !! key = Some (Obj (PInt z)) ->
  text x = Some (str_int z).
Proof.
  unfold encoded. intros He <- Hkey Hz. rewrite Hz in He.
  assert (Hp : String.prefix "Channel_" (tag x) = false).
  { repeat (apply elem_of_cons in Hkey as [->|Hkey]; [done|]).
    by apply elem_of_nil in Hkey. }
  rewrite Hp, dictTypeConvert_str in He by done.
  destruct He as (cv & t & [= <-] & Ht & ->).
  by apply as_text_inv in Ht as [[= <-]|[=]].
Qed.

Lemma encoded_str resultDict x key s :
  encoded E resultDict x -> tag x = key -> key ∈ ["Time"; "Date"] ->
  resultDict !! key = Some (Obj (PStr s)) ->
  text x = Some s.
Proof.
  unfold encoded. intros He <- Hkey Hs. rewrite Hs in He.
  assert (Hp : String.prefix "Channel_" (tag x) = false).
  { repeat (apply elem_of_cons in Hkey as [->|Hkey]; [done|]).
    by apply elem_of_nil in Hkey. }
  rewrite Hp, dictTypeConvert_id in He by done.
  destruct He as (cv & t & [= <-] & Ht & ->).
  by apply as_text_inv in Ht as [[= <-]|[=]].
Qed.

Lemma encoded_payload resultDict x i row y :
  encoded E resultDict x -> tag x = channel_key i ->
  resultDict !! channel_key i = Some (Dict (<["Payload" := PArray row]> ∅)) ->
  y ∈ children x -> tag y = "Payload" ->
  text y = Some (standard_b64encode (tobytes row)).
Proof.
  unfold encoded. intros He Hx Hd Hy Ht. rewrite Hx, Hd, prefix_channel_key in He.
  destruct (He y _ (PArray row) Hy eq_refl) as (cv & t & Hc & Hcv & ->).
  { by rewrite Ht, lookup_insert_eq. }
  rewrite Ht, dictTypeConvert_Payload in Hc. cbn in Hc.
  injection Hc as <-. by apply as_text_inv in Hcv as [[=]|[= <-]].
Qed.

Lemma entry_document w channels t0 j l :
  entry_ok E w channels t0 j l ->
  fl_xml l = etree_tostring E (fl_document l) /\
  Forall (encoded E (fl_record l)) (children (fl_document l)) /\
  exists tmpl,
    map tag (children (fl_document l))
    = filter (fun key => is_Some (fl_record l !! key)) (map tag (children tmpl)).
Proof.
  intros [_ _ (tmpl & Hx) _].
  assert (Hret : returned (toXML E tmpl (fl_record l)) = Return (fl_xml l))
    by (by rewrite Hx).
  apply toXML_document in Hret as (H1 & H2 & H3). rewrite Hx in H1, H2, H3.
  cbn in H1, H2, H3. split_and!; [done..|by exists tmpl].
Qed.
End Documents.

(** ** Blocks of a run *)

Lemma getrow_block_inv ch rows i row :
  getrow (byteswap (transpose (block_array ch rows))) i = Return row ->
  row = map byteswap16 (channel_samples i rows).
Proof.
  unfold block_array. destruct (ch =? 1)%nat; [done|].
  cbn [transpose byteswap getrow]. rewrite !list_lookup_fmap.
  destruct (seq 0 ch !! i) as [i'|] eqn:Hi; [|done].
  apply lookup_seq in Hi as [-> _]. cbn. by intros [= <-].
Qed.

Lemma pending_blocks f j payload :
  pending (readWaveFileGen f) !! j = Some payload ->
  exists rows, block_frames f j = Some rows /\
    payload = byteswap (transpose (block_array (sf_channels f) rows)).
Proof.
  unfold readWaveFileGen, sf_blocks, block_frames. cbv zeta.
  destruct (sf_fault f) as [[k e]|]; cbn [pending];
    rewrite !list_lookup_fmap; intros H.
  - destruct (take k _ !! j) as [rows|] eqn:Hrows; [|done].
    apply lookup_take_Some in Hrows as [Hrows _].
    rewrite list_lookup_fmap in Hrows.
    destruct (chunks _ _ _ !! j) as [rows'|]; [|done].
    cbn in Hrows, H. injection Hrows as <-. injection H as <-. by eexists.
  - destruct (chunks _ _ _ !! j) as [rows'|]; [|done].
    cbn in H. injection H as <-. by eexists.
Qed.

Lemma pending_has_rows f channels :
  (2 <= sf_channels f)%nat -> channels <= Z.of_nat (sf_channels f) ->
  Forall (has_rows channels) (pending (readWaveFileGen f)).
Proof.
  intros Hch Hc. apply Forall_lookup. intros j payload Hj.
  apply pending_blocks in Hj as (rows & _ & ->). intros i Hi.
  eexists. apply getrow_block; lia.
Qed.

Lemma run_blocks E w fuel path channels ip port template o st j l :
  run E w fuel
    (WaveMU.mk path channels 0.01%float 12800 128 32767 16 ip port false template)
  = (o, st) ->
  st_log st !! j = Some l ->
  exists rows, block_frames (file w path) j = Some rows /\
    fl_payload l = byteswap (transpose (block_array (sf_channels (file w path)) rows)).
Proof.
  intros (m & Hm)%run_payloads Hl. apply pending_blocks.
  assert (H : map fl_payload (st_log st) !! j = Some (fl_payload l))
    by (by rewrite list_lookup_fmap, Hl).
  rewrite Hm in H. by apply lookup_take_Some in H as [H _].
Qed.

Lemma block_frames_length f j rows :
  block_frames f j = Some rows ->
  length rows = Nat.min 128 (length (sf_frames f) - j * 128).
Proof. unfold block_frames. apply chunks_sizes; lia. Qed.

(** Worlds that differ only in the exception of the failing read. *)
Lemma run_ignores_exception E clk stp f k e1 e2 fuel self :
  run E (world_failing clk stp f k e1) fuel self
  = run E (world_failing clk stp f k e2) fuel self.
Proof.
  unfold run. cbv zeta.
  destruct (timedelta_seconds _) as [intervalDelta|]; [|done].
  change (hold_off (world_failing clk stp f k e1)) with
    (hold_off (world_failing clk stp f k e2)).
  destruct (hold_off _ _ _ _) as [st|]; [|done].
  change (streaming E (world_failing clk stp f k e1)) with
    (streaming E (world_failing clk stp f k e2)).
  apply streaming_ignores_exception.
Qed.

Lemma run_plays_through E w fuel path channels ip port template o st :
  plays_through w fuel path channels ->
  run E w fuel
    (WaveMU.mk path channels 0.01%float 12800 128 32767 16 ip port false template)
  = (o, st) ->
  o = Returned /\ WaveMU.stopThread (st_self st) = true /\
  length (st_log st) = blocks_yielded w path.
Proof.
  intros (Hch & Hc & Hstop & i & Hi & Hclock) Hrun.
  destruct (run_complete E w path channels ip port template fuel i Hi Hclock Hstop)
    as (st' & Hrun' & Hs & Hn); [by apply pending_has_rows|].
  rewrite Hrun in Hrun'. by injection Hrun' as -> ->.
Qed.

(** * The claims *)

Section Claims.
Context (E : externals) (w : world).
Context (fuel : nat) (path : string) (channels : Z) (ip : string) (port : Z).
Context (template : element).

(** C3.  Every [WaveMU] the constructor builds has
    [n = int(Fs * interval) = 128]: a positive integer that equals the
    product [Fs * interval] exactly.  [Fs] and [interval] are constants and
    not arguments, so the product is integral for every object that can be
    built: no construction has a non-integral product, and no [n] is a
    truncation. *)
Theorem constructor_samples_per_frame self :
  __init__ path channels ip port template = Return self ->
  WaveMU.n self = 128 /\
  0 < WaveMU.n self /\
  PrimFloat.eqb (float_of_int (WaveMU.n self))
    (PrimFloat.mul (float_of_int (WaveMU.Fs self)) (WaveMU.interval self))
  = true /\
  is_integral (PrimFloat.mul (float_of_int (WaveMU.Fs self)) (WaveMU.interval self))
  = true /\
  py_int (PrimFloat.mul (float_of_int (WaveMU.Fs self)) (WaveMU.interval self))
  = Return (WaveMU.n self).
Proof.
  rewrite init_ok. intros [= <-]. cbn [WaveMU.n WaveMU.Fs WaveMU.interval].
  split_and!; [done|done|by vm_compute..].
Qed.


(** C1, as amended.  The [Time] of the [j]-th frame emitted is the
    [HH:MM:SS] of the clock reading taken at the start of its cycle,
    followed by a dot and the three digits of [10 * (j mod 100)]: the
    milliseconds come from the frame counter alone, the seconds from the
    clock. *)
Theorem time_from_cycle_start_and_counter :
  exists o st t0,
    construct_and_run E w fuel path channels ip port template = Return (o, st) /\
    forall j l, st_log st !! j = Some l ->
      let Time := datetime.strftime_HMS (clock w (t0 + 3 * j)) +:+ "."
                  +:+ fmt_0d 3 (10 * (Z.of_nat j mod 100)) in
      fl_now l = clock w (t0 + 3 * j) /\
      fl_record l !! "Time" = Some (Obj (PStr Time)) /\
      forall x, x ∈ children (fl_document l) -> tag x = "Time" ->
        text x = Some Time.
Proof.
  rewrite construct_and_run_eq.
  destruct (run E w fuel _) as [o st] eqn:Hrun.
  apply run_spec in Hrun as (_ & t0 & k & [_ _ Hlog]).
  exists o, st, t0. split; [done|].
  intros j l Hl. pose proof (Hlog j l Hl) as Hok. cbv zeta.
  pose proof (eo_record _ _ _ _ _ _ Hok) as Hrec.
  rewrite <- (eo_now _ _ _ _ _ _ Hok).
  split; [done|]. split; [apply Hrec|]. intros x Hx Ht.
  apply entry_document in Hok as (_ & Henc & _).
  eapply encoded_str; [by eapply Forall_forall|done|repeat constructor|apply Hrec].
Qed.


End Claims.

Section MoreClaims.
Context (E : externals).

(** C2, as amended.  [toXML] is not pure: it overwrites the shared
    template, setting the text of the fields it resolves and removing the
    top-level nodes it does not.  It is idempotent: encoding the same
    record again, against the template as the first call left it, returns
    the same bytes and leaves the template as it was. *)
Theorem toXML_idempotent xmlTemplate resultDict :
  let first := toXML E xmlTemplate resultDict in
  let second := toXML E (template_after first) resultDict in
  template_after first
  = set_children xmlTemplate (walk_level1 E resultDict (children xmlTemplate)).1 /\
  returned second = returned first /\
  template_after second = template_after first.
Proof.
  cbv zeta. split; [apply toXML_template_after|]. by rewrite toXML_idem.
Qed.


(** The fields of the document of a frame: the nodes [Fs], [n], [Channels]
    and [bits] carry the decimal text of 12800, 128, the channel count and
    16, and the [Payload] of [Channel_i] decodes from base64 to the
    big-endian 16-bit buffer of channel [i] of the block the frame
    carries. *)
Lemma frame_fields w fuel path channels ip port template o st j l :
  run E w fuel
    (WaveMU.mk path channels 0.01%float 12800 128 32767 16 ip port false template)
  = (o, st) ->
  st_log st !! j = Some l ->
  exists rows,
    block_frames (file w path) j = Some rows /\
    length rows = Nat.min 128 (length (sf_frames (file w path)) - j * 128) /\
    forall x, x ∈ children (fl_document l) ->
      (tag x = "Fs" -> text x = Some "12800") /\
      (tag x = "n" -> text x = Some "128") /\
      (tag x = "Channels" -> text x = Some (str_int channels)) /\
      (tag x = "bits" -> text x = Some "16") /\
      forall i y, (i < Z.to_nat channels)%nat -> tag x = channel_key i ->
        y ∈ children x -> tag y = "Payload" ->
        exists t,
          text y = Some t /\
          standard_b64decode t = Some (big_endian (channel_samples i rows)) /\
          String.length (big_endian (channel_samples i rows))
          = (2 * length rows)%nat.
Proof.
  intros Hrun Hl.
  destruct (run_blocks _ _ _ _ _ _ _ _ _ _ _ _ Hrun Hl) as (rows & Hrows & Hp).
  apply run_spec in Hrun as (_ & t0 & k & [_ _ Hlog]).
  exists rows. split; [done|]. split; [by apply block_frames_length|].
  intros x Hx. pose proof (Hlog j l Hl) as Hok.
  pose proof (eo_record _ _ _ _ _ _ Hok) as Hrec.
  apply entry_document in Hok as (_ & Henc & _).
  eapply Forall_forall in Henc; [|done].
  split_and!.
  - intros Ht. change "12800" with (str_int 12800).
    eapply encoded_int; [done..|repeat constructor|apply Hrec].
  - intros Ht. change "128" with (str_int 128).
    eapply encoded_int; [done..|repeat constructor|apply Hrec].
  - intros Ht.
    eapply encoded_int; [done..|repeat constructor|apply Hrec].
  - intros Ht. change "16" with (str_int 16).
    eapply encoded_int; [done..|repeat constructor|apply Hrec].
  - intros i y Hi Ht Hy Hty.
    destruct (fr_channel _ _ _ _ _ Hrec i Hi) as (row & Hrow & Hd).
    rewrite Hp in Hrow. apply getrow_block_inv in Hrow as ->.
    eexists. split; [by eapply encoded_payload|].
    rewrite tobytes_byteswap, b64_roundtrip. split; [done|].
    rewrite big_endian_length. unfold channel_samples. by rewrite length_map.
Qed.

(** C5, as amended.  A stream of [k] full blocks of 128 frames and [r]
    further frames, played on a [WaveMU] whose channels the file has,
    makes [run] emit one frame per block the decoder yields -- [k] frames
    when [r = 0], and [k + 1] frames otherwise, the last one carrying the
    [r] samples of the short block unpadded -- with two datagrams per
    frame, and then return normally with the stop flag set. *)
Theorem frames_emitted_per_block w fuel path channels ip port template k r i :
  sf_fault (file w path) = None ->
  length (sf_frames (file w path)) = (k * 128 + r)%nat ->
  (r < 128)%nat ->
  (2 <= sf_channels (file w path))%nat ->
  channels <= Z.of_nat (sf_channels (file w path)) ->
  (forall j, stop_called w j = false) ->
  (i < fuel)%nat ->
  datetime.second (clock w (2 + i)) <> datetime.second (clock w 1) ->
  exists st,
    construct_and_run E w fuel path channels ip port template
    = Return (Returned, st) /\
    WaveMU.stopThread (st_self st) = true /\
    length (st_log st) = (k + if (r =? 0)%nat then 0 else 1)%nat /\
    length (sends (st_trace st)) = (2 * length (st_log st))%nat /\
    forall j l c row,
      st_log st !! j = Some l -> getrow (fl_payload l) c = Return row ->
      length row = Nat.min 128 (length (sf_frames (file w path)) - j * 128).
Proof.
  intros Hfault Hlen Hr Hch Hc Hstop Hi Hclock.
  rewrite construct_and_run_eq.
  destruct (run_complete E w path channels ip port template fuel i Hi Hclock Hstop)
    as (st & Hrun & Hs & Hn); [by apply pending_has_rows|].
  exists st. split; [by rewrite Hrun|]. split; [done|].
  assert (Hcount : length (pending (readWaveFileGen (file w path)))
                   = (k + if (r =? 0)%nat then 0 else 1)%nat).
  { unfold readWaveFileGen, sf_blocks. cbv zeta. rewrite Hfault. cbn [pending].
    rewrite !length_map. by apply chunks_count; [lia|lia|..]. }
  split; [by rewrite Hn|]. split.
  - pose proof Hrun as (_ & t0 & k' & [_ Htrace _])%run_spec.
    rewrite Htrace, sends_cycles. generalize (st_log st).
    intros log. induction log as [|l log IH]; [done|]. cbn. rewrite IH. lia.
  - intros j l c row Hl Hrow.
    destruct (run_blocks _ _ _ _ _ _ _ _ _ _ _ _ Hrun Hl) as (rows & Hrows & Hp).
    rewrite Hp in Hrow. apply getrow_block_inv in Hrow as ->.
    unfold channel_samples. rewrite !length_map. by apply block_frames_length.
Qed.

End MoreClaims.

(** * Concrete runs *)

(** C1, as stated, fails.  Two runs with the same interval whose clocks
    agree up to and including the start of the first cycle, so that they are
    synchronised at the same instant, and which differ only in how long the
    cycles take, emit different [Time] sequences; the delayed one advances
    by 1.010 s per frame and not by [interval]. *)
Lemma time_sequences_differ_under_delay :
  (forall k, (k <= 3)%nat -> Sample.punctual k = Sample.delayed k) /\
  Sample.times (Sample.demo_run Sample.punctual (Sample.ramp 300))
  = [Some (Obj (PStr "12:00:00.000")); Some (Obj (PStr "12:00:00.010"));
     Some (Obj (PStr "12:00:00.020"))] /\
  Sample.times (Sample.demo_run Sample.delayed (Sample.ramp 300))
  = [Some (Obj (PStr "12:00:00.000")); Some (Obj (PStr "12:00:01.010"));
     Some (Obj (PStr "12:00:02.020"))] /\
  Sample.times (Sample.demo_run Sample.punctual (Sample.ramp 300))
  <> Sample.times (Sample.demo_run Sample.delayed (Sample.ramp 300)).
Proof.
  split; [|split; [|split]].
  - intros [|[|[|[|k]]]] Hk; [reflexivity..|lia].
  - vm_compute. reflexivity.
  - vm_compute. reflexivity.
  - intros H. vm_compute in H. discriminate H.
Qed.

(** C2, as stated, fails.  Encoding a one-channel record changes the
    template, and a two-channel record encoded afterwards has lost its
    [Channel_1]: the bytes differ from those a fresh template gives. *)
Lemma toXML_mutates_template :
  template_after (toXML Sample.lib Sample.template Sample.record_one)
  <> Sample.template /\
  returned (toXML Sample.lib
              (template_after (toXML Sample.lib Sample.template Sample.record_one))
              Sample.record_two)
  <> returned (toXML Sample.lib Sample.template Sample.record_two).
Proof.
  split; intros H; vm_compute in H; discriminate H.
Qed.

(** C5, as stated, fails.  A file of 130 frames holds one full block and a
    partial block of two frames; the run emits two frames, the second with
    payloads of four bytes. *)
Lemma partial_block_is_emitted :
  length (sf_frames (Sample.ramp 130)) = (1 * 128 + 2)%nat /\
  Sample.frames_emitted (Sample.demo_run Sample.punctual (Sample.ramp 130))
  = Some 2%nat /\
  Sample.payload_sizes (Sample.demo_run Sample.punctual (Sample.ramp 130))
  = [[Some 256%nat; Some 256%nat]; [Some 4%nat; Some 4%nat]].
Proof. split; [|split]; vm_compute; reflexivity. Qed.



(** C5, witness: the hypotheses of the amended statement hold of the
    130-frame file played with the punctual clock. *)
Lemma frames_emitted_per_block_witness :
  exists st,
    Sample.demo_run Sample.punctual (Sample.ramp 130) = Return (Returned, st) /\
    WaveMU.stopThread (st_self st) = true /\
    length (st_log st) = 2%nat /\
    length (sends (st_trace st)) = (2 * length (st_log st))%nat /\
    forall j l c row,
      st_log st !! j = Some l -> getrow (fl_payload l) c = Return row ->
      length row = Nat.min 128 (130 - j * 128).
Proof.
  apply (frames_emitted_per_block Sample.lib
           (Sample.playing Sample.punctual (Sample.ramp 130)) 5 "example.flac" 2
           "127.0.0.1" 48001 Sample.template 1 2 0).
  - reflexivity.
  - vm_compute. reflexivity.
  - lia.
  - cbn. lia.
  - cbn. lia.
  - intros j. reflexivity.
  - lia.
  - vm_compute. discriminate.
Defined.


(** C3, witness: the object the script at the end of the file builds. *)
Lemma constructor_samples_per_frame_witness :
  let self := WaveMU.mk "example.flac" 2 0.01%float 12800 128 32767 16
                "127.0.0.1" 48001 false Sample.template in
  WaveMU.n self = 128 /\
  0 < WaveMU.n self /\
  PrimFloat.eqb (float_of_int (WaveMU.n self))
    (PrimFloat.mul (float_of_int (WaveMU.Fs self)) (WaveMU.interval self))
  = true /\
  is_integral (PrimFloat.mul (float_of_int (WaveMU.Fs self)) (WaveMU.interval self))
  = true /\
  py_int (PrimFloat.mul (float_of_int (WaveMU.Fs self)) (WaveMU.interval self))
  = Return (WaveMU.n self).
Proof.
  apply (constructor_samples_per_frame "example.flac" 2 "127.0.0.1" 48001
           Sample.template).
  vm_compute. reflexivity.
Defined.



(** ** Unit checks of the primitives *)

Example fmt_0d_examples :
  fmt_0d 3 0 = "000" /\ fmt_0d 3 70 = "070" /\ fmt_0d 3 990 = "990" /\
  fmt_0d 2 7 = "07" /\ fmt_0d 3 (-5) = "-05" /\ fmt_0d 2 123 = "123".
Proof. vm_compute. repeat split. Qed.

Example float_examples :
  py_int 2.75%float = Return 2 /\ py_int (-2.75)%float = Return (-2) /\
  py_round 2.5%float = Return 2 /\ py_round 3.5%float = Return 4 /\
  py_div 1%float 0%float = Raise ZeroDivisionError.
Proof. vm_compute. repeat split. Qed.

Example b64_examples :
  standard_b64encode "Man" = "TWFu" /\ standard_b64encode "Ma" = "TWE=" /\
  standard_b64encode "M" = "TQ==" /\ standard_b64decode "TWFu" = Some "Man".
Proof. vm_compute. repeat split. Qed.

Example byteswap16_examples :
  byteswap16 1 = 256 /\ byteswap16 (-2) = -257 /\ byteswap16 258 = 513 /\
  tobytes [byteswap16 258] = big_endian [258].
Proof. vm_compute. repeat split. Qed.

(** * Further properties *)

(** ** The encoder *)

Section EncoderMore.
Context (E : externals).
Implicit Types (A B resultDict : gmap string pyval) (x y : element).

Lemma set_text_twice x s s' : set_text (set_text x s) s' = set_text x s'.
Proof. by destruct x. Qed.

Lemma visit_level2_ext A B tag1 y :
  A !! tag1 = B !! tag1 ->
  visit_level2 E A tag1 y = visit_level2 E B tag1 y.
Proof. intros H. unfold visit_level2, getitem. by rewrite H. Qed.

Lemma walk_level2_ext A B tag1 l :
  A !! tag1 = B !! tag1 ->
  walk_level2 E A tag1 l = walk_level2 E B tag1 l.
Proof.
  intros H. induction l as [|y l IH]; [done|]. cbn [walk_level2].
  by rewrite (visit_level2_ext A B tag1 y H), IH.
Qed.

Lemma visit_level1_ext A B x :
  A !! tag x = B !! tag x ->
  visit_level1 E A x = visit_level1 E B x.
Proof.
  intros H. unfold visit_level1, py_in, getitem. cbv zeta.
  by rewrite H, (walk_level2_ext A B (tag x) (children x) H).
Qed.

(** X1.  [toXML] reads a record only at the keys the template declares:
    two records that agree there give the same bytes, the same template
    afterwards and the same exception. *)
Theorem toXML_ignores_undeclared_fields xmlTemplate A B :
  (forall x, x ∈ children xmlTemplate -> A !! tag x = B !! tag x) ->
  toXML E xmlTemplate A = toXML E xmlTemplate B.
Proof.
  intros H. unfold toXML.
  assert (Hw : walk_level1 E A (children xmlTemplate)
               = walk_level1 E B (children xmlTemplate)).
  { induction (children xmlTemplate) as [|x l IH]; [done|]. cbn [walk_level1].
    rewrite (visit_level1_ext A B x) by (apply H; by left).
    rewrite IH; [done|]. intros x' Hx'. apply H. by right. }
  by rewrite Hw.
Qed.

(** *** What the pass never touches *)

Lemma visit_level2_same resultDict tag1 y y' :
  visit_level2 E resultDict tag1 y = Return y' -> same_but_text y y'.
Proof.
  unfold visit_level2. cbv zeta.
  destruct (getitem resultDict tag1) as [ch|]; [|done]. cbn [mbind except_bind].
  destruct (keys_of ch) as [d|]; [|done]. cbn [mbind except_bind].
  destruct (py_in (tag y) d).
  - destruct (subscript ch (tag y)) as [v|]; [|done]. cbn [mbind except_bind].
    destruct (dictTypeConvert E (tag y) (Obj v)) as [cv|]; [|done].
    cbn [mbind except_bind].
    destruct (as_text cv) as [t|]; [|done]. cbn [mbind except_bind].
    intros [= <-]. by destruct y.
  - intros [= <-]. by destruct y.
Qed.

Lemma walk_level2_same resultDict tag1 l :
  Forall2 same_but_text l (walk_level2 E resultDict tag1 l).1.
Proof.
  induction l as [|y l IH]; [constructor|]. cbn [walk_level2].
  destruct (visit_level2 E resultDict tag1 y) as [y'|e] eqn:Hy.
  - destruct (walk_level2 E resultDict tag1 l) as [l' e']. cbn [fst] in *.
    constructor; [by eapply visit_level2_same|done].
  - cbn [fst]. apply Forall_Forall2_diag, Forall_forall. by intros [].
Qed.

Lemma visit_level1_same resultDict x x' e :
  visit_level1 E resultDict x = (Some x', e) ->
  tag x' = tag x /\ attrib x' = attrib x /\ tail x' = tail x /\
  Forall2 same_but_text (children x) (children x').
Proof.
  assert (Hrefl : forall l, Forall2 same_but_text l l)
    by (intros l; apply Forall_Forall2_diag, Forall_forall; by intros []).
  unfold visit_level1. cbv zeta.
  destruct (py_in (tag x) resultDict); [|done].
  destruct (String.prefix "Channel_" (tag x)).
  - pose proof (walk_level2_same resultDict (tag x) (children x)) as Hs.
    destruct (walk_level2 _ _ _ _) as [sub e']. intros [= <- _].
    destruct x. by split_and!.
  - destruct (getitem resultDict (tag x)) as [v|]; cbn [mbind except_bind];
      [|intros [= <- _]; by split_and!].
    destruct (dictTypeConvert E (tag x) v) as [cv|]; cbn [mbind except_bind];
      [|intros [= <- _]; by split_and!].
    destruct (as_text cv) as [t|]; cbn [mbind except_bind]; intros [= <- _];
      [destruct x; by split_and!|by split_and!].
Qed.

Lemma walk_level1_same resultDict l :
  sublist (map tag (walk_level1 E resultDict l).1) (map tag l) /\
  forall x', x' ∈ (walk_level1 E resultDict l).1 ->
    exists x, x ∈ l /\ tag x' = tag x /\ attrib x' = attrib x /\
      tail x' = tail x /\ Forall2 same_but_text (children x) (children x').
Proof.
  assert (Hrefl : forall l, Forall2 same_but_text l l)
    by (intros l0; apply Forall_Forall2_diag, Forall_forall; by intros []).
  induction l as [|x l [IH1 IH2]].
  - split; [done|]. intros x' Hx'. by apply elem_of_nil in Hx'.
  - cbn [walk_level1].
    destruct (visit_level1 E resultDict x) as [[x1|] [e|]] eqn:Hx.
    + apply visit_level1_same in Hx as (Ht & Ha & Htl & Hc).
      cbn [fst]; simpl option_list; cbn [app map]. rewrite Ht. split; [done|].
      intros x' [->|Hx']%elem_of_cons.
      * exists x. split; [by left|done].
      * exists x'. split; [by right|]. by split_and!.
    + apply visit_level1_same in Hx as (Ht & Ha & Htl & Hc).
      destruct (walk_level1 E resultDict l) as [l' e'].
      cbn [fst] in *; simpl option_list; cbn [app map]. rewrite Ht.
      split; [by apply sublist_skip|].
      intros x' [->|Hx']%elem_of_cons.
      * exists x. split; [by left|done].
      * destruct (IH2 x' Hx') as (x0 & Hx0 & H). exists x0. split; [by right|done].
    + by apply visit_level1_removes in Hx as [_ ?].
    + destruct (walk_level1 E resultDict l) as [l' e'].
      cbn [fst] in *; simpl option_list; cbn [app map].
      split; [by apply sublist_cons|].
      intros x' Hx'. destruct (IH2 x' Hx') as (x0 & Hx0 & H).
      exists x0. split; [by right|done].
Qed.

(** X2.  Whatever the record and whether or not it raises, [toXML] changes
    nothing but texts and the set of top-level nodes: the root keeps its
    tag, attributes, text and tail; the top-level nodes left are some of the
    template's, in the same order, each with its tag, attributes and tail;
    and no sub-element of a node is ever removed, added or reordered, only
    its text may change. *)
Theorem toXML_changes_only_texts xmlTemplate resultDict :
  let after := template_after (toXML E xmlTemplate resultDict) in
  tag after = tag xmlTemplate /\ attrib after = attrib xmlTemplate /\
  text after = text xmlTemplate /\ tail after = tail xmlTemplate /\
  sublist (map tag (children after)) (map tag (children xmlTemplate)) /\
  forall x', x' ∈ children after ->
    exists x, x ∈ children xmlTemplate /\
      tag x' = tag x /\ attrib x' = attrib x /\ tail x' = tail x /\
      Forall2 same_but_text (children x) (children x').
Proof.
  cbv zeta. rewrite toXML_template_after.
  destruct (walk_level1_same resultDict (children xmlTemplate)) as [H1 H2].
  destruct xmlTemplate as [t a tx tl c]. cbn in *. by split_and!.
Qed.
End EncoderMore.

Section EncoderFailures.
Context (E : externals).
Implicit Types (A B resultDict : gmap string pyval) (x y : element).

Lemma walk_level1_app resultDict l1 l2 l1' :
  walk_level1 E resultDict l1 = (l1', None) ->
  walk_level1 E resultDict (l1 ++ l2)
  = ((l1' ++ (walk_level1 E resultDict l2).1)%list,
     (walk_level1 E resultDict l2).2).
Proof.
  revert l1'. induction l1 as [|x l1 IH]; intros l1'.
  - intros [= <-]. cbn [app]. by destruct (walk_level1 E resultDict l2).
  - cbn [walk_level1 app].
    destruct (visit_level1 E resultDict x) as [r [e|]]; [done|].
    destruct (walk_level1 E resultDict l1) as [l1'' [e|]]; [done|].
    intros [= <-]. rewrite (IH _ eq_refl).
    destruct (walk_level1 E resultDict l2). cbn [fst snd]. by rewrite app_assoc.
Qed.

Lemma walk_level1_failure resultDict l l' e :
  walk_level1 E resultDict l = (l', Some e) ->
  exists before x after before' x',
    l = (before ++ x :: after)%list /\
    l' = (before' ++ x' :: after)%list /\
    walk_level1 E resultDict before = (before', None) /\
    visit_level1 E resultDict x = (Some x', Some e).
Proof.
  revert l'. induction l as [|x l IH]; intros l'; [done|]. cbn [walk_level1].
  destruct (visit_level1 E resultDict x) as [r [e'|]] eqn:Hx.
  - intros [= <- <-]. destruct r as [x'|];
      [|by apply visit_level1_removes in Hx as [_ ?]].
    by exists [], x, l, [], x'.
  - destruct (walk_level1 E resultDict l) as [l'' [e'|]] eqn:Hl; [|done].
    intros [= <- <-].
    destruct (IH _ eq_refl) as (b & x0 & a & b' & x0' & -> & -> & Hb & Hx0).
    exists (x :: b), x0, a, (option_list r ++ b')%list, x0'.
    split_and!; [done|by rewrite <- app_assoc| |done].
    cbn [walk_level1]. by rewrite Hx, Hb.
Qed.


(** *** Which records are encoded *)

Lemma dictTypeConvert_default key :
  key ∉ ["Frame"; "Fs"; "n"; "Channels"; "bits"] -> key <> "Payload" ->
  dictTypeConvert E key = (fun v => Return v).
Proof.
  intros Hs Hp. unfold dictTypeConvert.
  rewrite lookup_insert_ne by (intros <-; apply Hs; repeat constructor).
  rewrite lookup_insert_ne by (intros <-; apply Hs; repeat constructor).
  rewrite lookup_insert_ne by (intros <-; apply Hs; repeat constructor).
  rewrite lookup_insert_ne by (intros <-; apply Hs; repeat constructor).
  rewrite lookup_insert_ne by congruence.
  rewrite lookup_singleton_ne by (intros <-; apply Hs; repeat constructor).
  done.
Qed.

Lemma field_ok_spec key v :
  field_ok key v = true ->
  exists t, (converted ← dictTypeConvert E key v; as_text converted) = Return t.
Proof.
  unfold field_ok.
  destruct (bool_decide _) eqn:Hs.
  - apply bool_decide_eq_true in Hs. rewrite dictTypeConvert_str by done.
    unfold str_ok. destruct v as [[z|s|b|a]|d]; try done;
      cbn [py_str mbind except_bind].
    + intros _. rewrite as_text_str by apply str_int_xml. by eexists.
    + intros Hv. cbn [as_text]. rewrite Hv. by eexists.
  - apply bool_decide_eq_false in Hs.
    destruct (bool_decide (key = "Payload")) eqn:Hp.
    + apply bool_decide_eq_true in Hp as ->. rewrite dictTypeConvert_Payload.
      destruct v as [[z|s|b|a]|d]; try done; intros _;
        cbn [b64encode_obj mbind except_bind]; rewrite as_text_b64; by eexists.
    + apply bool_decide_eq_false in Hp.
      rewrite dictTypeConvert_default by done.
      destruct v as [[z|s|b|a]|d]; try done; cbn [mbind except_bind as_text];
        intros ->; by eexists.
Qed.

Lemma visit_level2_ok d resultDict tag1 y :
  resultDict !! tag1 = Some (Dict d) ->
  match d !! tag y with
  | None => true
  | Some o => field_ok (tag y) (Obj o)
  end = true ->
  exists y', visit_level2 E resultDict tag1 y = Return y'.
Proof.
  intros Hd. unfold visit_level2, getitem. cbv zeta. rewrite Hd.
  cbn [mbind except_bind keys_of subscript]. unfold py_in, getitem.
  destruct (d !! tag y) as [o|] eqn:Ho.
  - rewrite bool_decide_eq_true_2 by done. cbn [mbind except_bind].
    intros (t & Ht)%field_ok_spec. revert Ht.
    destruct (dictTypeConvert E (tag y) (Obj o)) as [cv|]; cbn [mbind except_bind];
      [|done].
    intros ->. cbn [mbind except_bind]. by eexists.
  - rewrite bool_decide_eq_false_2 by (by intros [? ?]). by eexists.
Qed.

Lemma walk_level2_ok d resultDict tag1 l :
  resultDict !! tag1 = Some (Dict d) ->
  forallb (fun y => match d !! tag y with
                    | None => true
                    | Some o => field_ok (tag y) (Obj o)
                    end) l = true ->
  (walk_level2 E resultDict tag1 l).2 = None.
Proof.
  intros Hd. induction l as [|y l IH]; [done|]. cbn [walk_level2 forallb].
  intros [Hy Hl]%andb_prop.
  destruct (visit_level2_ok d resultDict tag1 y Hd Hy) as [y' ->].
  specialize (IH Hl). by destruct (walk_level2 E resultDict tag1 l).
Qed.

Lemma visit_level1_ok resultDict x :
  node_ok resultDict x = true -> (visit_level1 E resultDict x).2 = None.
Proof.
  unfold visit_level1, node_ok, py_in, getitem. cbv zeta.
  destruct (resultDict !! tag x) as [v|] eqn:Hv.
  - rewrite bool_decide_eq_true_2 by done.
    destruct (String.prefix "Channel_" (tag x)).
    + destruct v as [o|d].
      * by destruct (children x) as [|y l].
      * intros Hw%(walk_level2_ok d resultDict (tag x) (children x) Hv).
        by destruct (walk_level2 _ _ _ _).
    + intros (t & Ht)%field_ok_spec. revert Ht. cbn [mbind except_bind].
      destruct (dictTypeConvert E (tag x) v) as [cv|]; cbn [mbind except_bind];
        [|done].
      by intros ->.
  - by rewrite bool_decide_eq_false_2 by (by intros [? ?]).
Qed.

Lemma walk_level1_ok resultDict l :
  forallb (node_ok resultDict) l = true -> (walk_level1 E resultDict l).2 = None.
Proof.
  induction l as [|x l IH]; [done|]. cbn [walk_level1 forallb].
  intros [Hx%visit_level1_ok Hl]%andb_prop. specialize (IH Hl).
  destruct (visit_level1 E resultDict x) as [r e]. cbn [snd] in Hx. subst e.
  by destruct (walk_level1 E resultDict l).
Qed.

(** X4.  [toXML] returns bytes, and prints nothing, whenever every declared
    field the record has is well typed: an [int] below the digit limit of
    [str] or a [str] of XML characters under the five keys converted with
    [str]; a bytes-like value under ["Payload"]; a [str] of XML characters
    or [bytes] of ASCII XML characters under any other key; and under a
    [Channel_] key a dict whose declared entries are well typed, or any
    value when the node has no sub-element. *)
Theorem toXML_returns_when_fields_ok xmlTemplate resultDict :
  forallb (node_ok resultDict) (children xmlTemplate) = true ->
  returned (toXML E xmlTemplate resultDict)
  = Return (etree_tostring E (template_after (toXML E xmlTemplate resultDict))) /\
  printed (toXML E xmlTemplate resultDict) = [].
Proof.
  intros Hok%walk_level1_ok. split; [|apply toXML_printed].
  unfold toXML. destruct (walk_level1 _ _ _) as [kids e]. cbn [snd] in Hok.
  by subst e.
Qed.

(** X5.  The [AttributeError] of [toXML] has one cause: a [Channel_] field
    that is not a dict, on a node with at least one sub-element. *)
Theorem toXML_AttributeError_cause xmlTemplate resultDict :
  returned (toXML E xmlTemplate resultDict) = Raise AttributeError ->
  exists x o,
    x ∈ children xmlTemplate /\ String.prefix "Channel_" (tag x) = true /\
    resultDict !! tag x = Some (Obj o) /\ children x <> [].
Proof.
  intros Hret. unfold toXML in Hret.
  destruct (walk_level1 _ _ _) as [kids [e|]] eqn:Hw; [|done].
  assert (e = AttributeError) as ->.
  { pose proof (walk_level1_raises _ _ _ _ _ Hw) as [-> | [-> | ->]];
      cbn in Hret; congruence. }
  apply walk_level1_failure in Hw as (b & x & a & b' & x' & Hl & _ & _ & Hx).
  assert (Hin : x ∈ children xmlTemplate)
    by (rewrite Hl; apply elem_of_app; right; by left).
  revert Hx. unfold visit_level1, py_in, getitem. cbv zeta.
  destruct (resultDict !! tag x) as [v|] eqn:Hv;
    [rewrite bool_decide_eq_true_2 by done
    |by rewrite bool_decide_eq_false_2 by (by intros [? ?])].
  destruct (String.prefix "Channel_" (tag x)) eqn:Hp.
  - destruct (walk_level2 E resultDict (tag x) (children x)) as [sub e'] eqn:Hw2.
    intros [= _ ->]. destruct v as [o|d].
    + exists x, o. split_and!; try done. intros Hnil. by rewrite Hnil in Hw2.
    + exfalso. clear Hin Hl. revert sub Hw2.
      induction (children x) as [|y l IH]; intros sub; [done|].
      cbn [walk_level2].
      destruct (visit_level2 E resultDict (tag x) y) as [y'|e0] eqn:Hy.
      * destruct (walk_level2 E resultDict (tag x) l) as [l' e']. intros [= _ ->].
        by eapply IH.
      * intros [= _ ->]. revert Hy. unfold visit_level2, getitem. cbv zeta.
        rewrite Hv. cbn [mbind except_bind keys_of subscript].
        destruct (py_in (tag y) d) eqn:Hi; [|done].
        apply getitem_guarded in Hi as (o & _ & ->). cbn [mbind except_bind].
        destruct (dictTypeConvert E (tag y) (Obj o)) as [cv|e1] eqn:Hc;
          cbn [mbind except_bind].
        -- destruct (as_text cv) as [t|e1] eqn:Ht; [done|].
           cbn [mbind except_bind]. intros [= ->].
           by apply as_text_raises_other in Ht as [?|?].
        -- intros [= ->].
           destruct (dictTypeConvert_cases E (tag y)) as [H|[H|H]];
             rewrite H in Hc; [done| |done].
           by destruct o.
  - cbn [mbind except_bind].
    destruct (dictTypeConvert E (tag x) v) as [cv|e1] eqn:Hc;
      cbn [mbind except_bind].
    + destruct (as_text cv) as [t|e1] eqn:Ht; [done|]. cbn [mbind except_bind].
      intros [= _ ->]. by apply as_text_raises_other in Ht as [?|?].
    + intros [= _ ->].
      destruct (dictTypeConvert_cases E (tag x)) as [H|[H|H]];
        rewrite H in Hc; [done| |done].
      by destruct v as [[]|].
Qed.
End EncoderFailures.

(** ** Encoding one record after another *)

Section EncoderCompose.
Context (E : externals).
Implicit Types (A B resultDict : gmap string pyval) (x y : element).

Lemma visit_level2_after A B tag1 y yA yB :
  (forall dA dB, A !! tag1 = Some (Dict dA) -> B !! tag1 = Some (Dict dB) ->
     forall k2, is_Some (dA !! k2) <-> is_Some (dB !! k2)) ->
  visit_level2 E B tag1 y = Return yB ->
  visit_level2 E A tag1 y = Return yA ->
  visit_level2 E B tag1 yA = Return yB.
Proof.
  intros Hsub. unfold visit_level2, getitem. cbv zeta.
  destruct (B !! tag1) as [[oB|dB]|] eqn:HB; [done| |done].
  cbn [mbind except_bind keys_of subscript].
  destruct (A !! tag1) as [[oA|dA]|] eqn:HA; [done| |done].
  cbn [mbind except_bind keys_of subscript].
  specialize (Hsub dA dB eq_refl eq_refl (tag y)).
  unfold py_in, getitem.
  destruct (dB !! tag y) as [vB|] eqn:HvB.
  - rewrite (bool_decide_eq_true_2 (is_Some (Some vB))) by done.
    cbn [mbind except_bind].
    destruct (dictTypeConvert E (tag y) (Obj vB)) as [cB|] eqn:HcB; [|done].
    cbn [mbind except_bind].
    destruct (as_text cB) as [tB|] eqn:HtB; [|done]. cbn [mbind except_bind].
    intros [= <-].
    destruct (dA !! tag y) as [vA|] eqn:HvA; [|by destruct Hsub as [_ [? ?]]].
    rewrite (bool_decide_eq_true_2 (is_Some (Some vA))) by done.
    cbn [mbind except_bind].
    destruct (dictTypeConvert E (tag y) (Obj vA)) as [cA|]; [|done].
    cbn [mbind except_bind].
    destruct (as_text cA) as [tA|]; [|done]. cbn [mbind except_bind].
    intros [= <-]. rewrite tag_set_text, HvB.
    rewrite (bool_decide_eq_true_2 (is_Some (Some vB))) by done.
    cbn [mbind except_bind]. rewrite HcB. cbn [mbind except_bind].
    rewrite HtB. cbn [mbind except_bind]. by rewrite set_text_twice.
  - rewrite (bool_decide_eq_false_2 (is_Some None)) by (by intros [? ?]).
    intros [= <-].
    destruct (dA !! tag y) as [vA|] eqn:HvA; [by destruct Hsub as [[? ?] _]|].
    rewrite (bool_decide_eq_false_2 (is_Some None)) by (by intros [? ?]).
    intros [= <-]. rewrite HvB.
    by rewrite (bool_decide_eq_false_2 (is_Some None)) by (by intros [? ?]).
Qed.

Lemma walk_level2_after A B tag1 l :
  (forall dA dB, A !! tag1 = Some (Dict dA) -> B !! tag1 = Some (Dict dB) ->
     forall k2, is_Some (dA !! k2) <-> is_Some (dB !! k2)) ->
  (walk_level2 E B tag1 l).2 = None ->
  walk_level2 E B tag1 (walk_level2 E A tag1 l).1 = walk_level2 E B tag1 l.
Proof.
  intros Hsub. induction l as [|y l IH]; [done|]. cbn [walk_level2].
  destruct (visit_level2 E B tag1 y) as [yB|] eqn:HyB; [|done].
  destruct (walk_level2 E B tag1 l) as [lB eB] eqn:HlB. cbn [snd]. intros ->.
  destruct (visit_level2 E A tag1 y) as [yA|] eqn:HyA.
  - destruct (walk_level2 E A tag1 l) as [lA eA] eqn:HlA.
    cbn [fst walk_level2] in *.
    rewrite (visit_level2_after A B tag1 y yA yB Hsub HyB HyA).
    by rewrite IH.
  - cbn [fst walk_level2]. by rewrite HyB, HlB.
Qed.

Lemma visit_level1_after A B x xA eA :
  same_fields A B ->
  (visit_level1 E B x).2 = None ->
  visit_level1 E A x = (Some xA, eA) ->
  visit_level1 E B xA = visit_level1 E B x.
Proof.
  intros [Hdom Hsub]. unfold visit_level1, py_in, getitem. cbv zeta.
  destruct (A !! tag x) as [vA|] eqn:HA;
    [rewrite (bool_decide_eq_true_2 (is_Some (Some vA))) by done
    |by rewrite (bool_decide_eq_false_2 (is_Some None)) by (by intros [? ?])].
  destruct (B !! tag x) as [vB|] eqn:HB;
    [rewrite (bool_decide_eq_true_2 (is_Some (Some vB))) by done
    |pose proof (proj1 (Hdom (tag x))) as H; rewrite HA, HB in H;
     by destruct H as [? ?]].
  destruct (String.prefix "Channel_" (tag x)) eqn:Hp.
  - destruct (walk_level2 E B (tag x) (children x)) as [subB eB] eqn:HwB.
    cbn [snd]. intros ->.
    destruct (walk_level2 E A (tag x) (children x)) as [subA eA'] eqn:HwA.
    intros [= <- _]. rewrite tag_set_children, HB, Hp, children_set_children.
    rewrite (bool_decide_eq_true_2 (is_Some (Some vB))) by done.
    pose proof (walk_level2_after A B (tag x) (children x)) as Hw.
    rewrite HwA, HwB in Hw. cbn [fst snd] in Hw. rewrite Hw; [|by eauto|done].
    by rewrite set_children_set_children.
  - cbn [mbind except_bind].
    destruct (dictTypeConvert E (tag x) vB) as [cB|] eqn:HcB; [|done].
    cbn [mbind except_bind].
    destruct (as_text cB) as [tB|] eqn:HtB; [|done]. cbn [mbind except_bind].
    intros _.
    assert (Hgoal : forall xA', tag xA' = tag x -> set_text xA' tB = set_text x tB ->
      (if bool_decide (is_Some (B !! tag xA'))
       then
         if String.prefix "Channel_" (tag xA')
         then
           let '(sub, e) := walk_level2 E B (tag xA') (children xA') in
           (Some (set_children xA' sub), e)
         else
           match
             v ← match B !! tag xA' with
                 | Some v => Return v
                 | None => Raise (KeyError (tag xA'))
                 end;
             converted ← dictTypeConvert E (tag xA') v;
             t ← as_text converted; Return (set_text xA' t)
           with
           | Return level1' => (Some level1', None)
           | Raise e => (Some xA', Some e)
           end
       else (None, None)) = (Some (set_text x tB), None)).
    { intros xA' Ht Hs. rewrite Ht, HB, Hp.
      rewrite (bool_decide_eq_true_2 (is_Some (Some vB))) by done.
      cbn [mbind except_bind]. rewrite HcB. cbn [mbind except_bind].
      rewrite HtB. cbn [mbind except_bind]. by rewrite Hs. }
    destruct (dictTypeConvert E (tag x) vA) as [cA|]; cbn [mbind except_bind].
    + destruct (as_text cA) as [tA|]; cbn [mbind except_bind]; intros [= <- _].
      * apply Hgoal; [apply tag_set_text|apply set_text_twice].
      * by apply Hgoal.
    + intros [= <- _]. by apply Hgoal.
Qed.

Lemma walk_level1_after A B l :
  same_fields A B ->
  (walk_level1 E B l).2 = None ->
  walk_level1 E B (walk_level1 E A l).1 = walk_level1 E B l.
Proof.
  intros Hsame. induction l as [|x l IH]; [done|]. cbn [walk_level1].
  destruct (visit_level1 E B x) as [rB [eB|]] eqn:HxB; [done|].
  destruct (walk_level1 E B l) as [lB eB] eqn:HlB. cbn [snd]. intros ->.
  assert (HxB2 : (visit_level1 E B x).2 = None) by (by rewrite HxB).
  destruct (visit_level1 E A x) as [[xA|] [eA|]] eqn:HxA.
  - cbn [fst]; simpl option_list; cbn [app walk_level1].
    rewrite (visit_level1_after A B x xA _ Hsame HxB2 HxA), HxB. by rewrite HlB.
  - destruct (walk_level1 E A l) as [lA eA] eqn:HlA.
    cbn [fst] in *; simpl option_list; cbn [app walk_level1].
    rewrite (visit_level1_after A B x xA _ Hsame HxB2 HxA), HxB. by rewrite IH.
  - by apply visit_level1_removes in HxA as [_ ?].
  - destruct (walk_level1 E A l) as [lA eA] eqn:HlA.
    cbn [fst] in *; simpl option_list; cbn [app].
    apply visit_level1_removes in HxA as [HinA _].
    assert (rB = None) as ->.
    { destruct rB as [xB|]; [|done].
      apply visit_level1_keeps in HxB as [_ HsB].
      apply (proj2 (proj1 Hsame (tag x))) in HsB.
      apply bool_decide_eq_false in HinA. done. }
    simpl option_list. cbn [app]. by rewrite IH.
Qed.

Lemma toXML_replay xmlTemplate A B :
  same_fields A B ->
  (walk_level1 E B (children xmlTemplate)).2 = None ->
  toXML E (template_after (toXML E xmlTemplate A)) B = toXML E xmlTemplate B.
Proof.
  intros Hsame Hok. rewrite toXML_template_after. unfold toXML.
  rewrite children_set_children, walk_level1_after by done.
  destruct (walk_level1 E B (children xmlTemplate)) as [kids e].
  by rewrite set_children_set_children.
Qed.

(** X6.  What an earlier call left in the template does not show in a later
    document when the two records have the same fields: if the fields of
    the second record are well typed, encoding it after the first gives the
    bytes, and leaves the template in the state, that encoding it against
    the untouched template gives. *)
Theorem toXML_after_same_fields xmlTemplate A B :
  same_fields A B ->
  forallb (node_ok B) (children xmlTemplate) = true ->
  toXML E (template_after (toXML E xmlTemplate A)) B = toXML E xmlTemplate B.
Proof.
  intros Hsame Hok. apply toXML_replay; [done|]. by apply walk_level1_ok.
Qed.
End EncoderCompose.

(** ** More on the run *)

(** What one cycle does to the log, the template and the stop flag,
    whatever the state it starts from. *)
Lemma cycle_effect E w intervalDelta pulled st :
  match cycle E w intervalDelta pulled st with
  | Continue st' =>
      exists l,
        st_log st' = (st_log st ++ [l])%list /\
        fl_document l
        = template_after (toXML E (WaveMU.xmlTemplate (st_self st)) (fl_record l)) /\
        WaveMU.xmlTemplate (st_self st') = fl_document l /\
        WaveMU.stopThread (st_self st') = WaveMU.stopThread (st_self st) /\
        pulled = Return (fl_payload l)
  | Break st' =>
      st_log st' = st_log st /\ WaveMU.stopThread (st_self st') = true /\
      WaveMU.xmlTemplate (st_self st') = WaveMU.xmlTemplate (st_self st)
  | Abort e st' => st_log st' = st_log st
  end.
Proof.
  unfold cycle. cbv zeta.
  destruct (py_int _) as [ms|]; [|done].
  destruct pulled as [payload|e]; [|done].
  destruct (fill_channels _ _ _) as [rd [e|]]; [done|].
  destruct (returned _) as [xml|]; [|done].
  destruct (_ ≫= _) as [wrap|]; [|done].
  eexists. cbn. done.
Qed.

Lemma streaming_not_spinning E w intervalDelta ending pending : forall st o st',
  streaming E w intervalDelta ending pending st = (o, st') -> o <> Spinning.
Proof.
  induction pending as [|payload rest IH]; intros st o st'; cbn [streaming];
    cbv zeta.
  - destruct (WaveMU.stopThread _); [by intros [= <- _]|].
    destruct (cycle _ _ _ _ _); by intros [= <- _].
  - destruct (WaveMU.stopThread _); [by intros [= <- _]|].
    destruct (cycle _ _ _ _ _); [apply IH|by intros [= <- _]..].
Qed.

Section RunMore.
Context (E : externals) (w : world).
Context (path : string) (channels : Z) (ip : string) (port : Z).
Context (template : element).

Local Abbreviation self := (built path channels ip port template).
Local Abbreviation SVgen := (readWaveFileGen (file w path)).

(** [run] either never leaves the hold-off loop, or enters the streaming
    loop in the state [synced self k]. *)
Lemma run_cases fuel :
  (hold_off w fuel (clock w 1) (holding self) = None /\
   exists st, run E w fuel self = (Spinning, st) /\
              st_trace st = [] /\ st_log st = []) \/
  (exists k,
     hold_off w fuel (clock w 1) (holding self) = Some (synced self k) /\
     run E w fuel self
     = streaming E w 10000 (ending SVgen) (pending SVgen) (synced self k) /\
     loop_inv E w path channels ip port (3 + k) k (synced self k)).
Proof.
  destruct (hold_off w fuel (clock w 1) (holding self)) as [st1|] eqn:Hh.
  - right. pose proof Hh as (k & ->)%hold_off_spec. exists k.
    split; [done|]. split.
    + by apply run_unfold.
    + apply loop_inv_start.
  - left. split; [done|].
    apply (run_spinning E) in Hh as (st & Hrun & _ & Ht & Hl). by exists st.
Qed.

(** *** Documents of a run *)

Lemma frame_records_same_fields j1 now1 p1 A j2 now2 p2 B :
  frame_record channels j1 now1 p1 A ->
  frame_record channels j2 now2 p2 B ->
  same_fields A B.
Proof.
  assert (Hdom : forall j1 now1 p1 A j2 now2 p2 B,
    frame_record channels j1 now1 p1 A -> frame_record channels j2 now2 p2 B ->
    forall k, is_Some (A !! k) -> is_Some (B !! k)).
  { clear. intros j1 now1 p1 A j2 now2 p2 B HA HB k Hk.
    destruct (fr_keys _ _ _ _ _ HA k Hk) as [Hf|(i & Hi & ->)].
    - unfold fixed_keys in Hf.
      repeat (apply elem_of_cons in Hf as [->|Hf]; [by destruct HB; eauto|]).
      by apply elem_of_nil in Hf.
    - destruct (fr_channel _ _ _ _ _ HB i Hi) as (row & _ & ->). by eexists. }
  intros HA HB. split.
  - intros k. split; by eapply Hdom.
  - intros k dA dB HdA HdB k2.
    assert (Hk : is_Some (A !! k)) by (by eexists).
    destruct (fr_keys _ _ _ _ _ HA k Hk) as [Hf|(i & Hi & ->)].
    + exfalso. unfold fixed_keys in Hf. destruct HA.
      repeat (apply elem_of_cons in Hf as [->|Hf]; [congruence|]).
      by apply elem_of_nil in Hf.
    + destruct (fr_channel _ _ _ _ _ HA i Hi) as (rowA & _ & HA').
      destruct (fr_channel _ _ _ _ _ HB i Hi) as (rowB & _ & HB').
      rewrite HA' in HdA. rewrite HB' in HdB.
      injection HdA as <-. injection HdB as <-.
      destruct (decide (k2 = "Payload")) as [->|Hne].
      * by rewrite !lookup_insert_eq.
      * by rewrite !lookup_insert_ne by done.
Qed.

Lemma streaming_documents t0 k ending pending : forall st o st',
  loop_inv E w path channels ip port t0 k st ->
  (forall j now p resultDict, frame_record channels j now p resultDict ->
     toXML E (WaveMU.xmlTemplate (st_self st)) resultDict
     = toXML E template resultDict) ->
  (forall l, l ∈ st_log st ->
     fl_document l = template_after (toXML E template (fl_record l))) ->
  streaming E w 10000 ending pending st = (o, st') ->
  forall l, l ∈ st_log st' ->
    fl_document l = template_after (toXML E template (fl_record l)).
Proof.
  induction pending as [|payload rest IH]; intros st o st' Hinv Ht Hlog;
    cbn [streaming]; cbv zeta.
  - set (st1 := if stop_called w _ then _ else st).
    assert (Hlog1 : st_log st1 = st_log st)
      by (subst st1; by destruct (stop_called w _)).
    clearbody st1. destruct (WaveMU.stopThread (st_self st1)).
    { intros [= <- <-]. by rewrite Hlog1. }
    pose proof (cycle_effect E w 10000 (Raise ending) st1) as Hc.
    destruct (cycle E w 10000 (Raise ending) st1) as [st2|st2|e st2].
    + by destruct Hc as (? & _ & _ & _ & _ & ?).
    + destruct Hc as (Hl & _). intros [= <- <-]. by rewrite Hl, Hlog1.
    + intros [= <- <-]. by rewrite Hc, Hlog1.
  - set (st1 := if stop_called w _ then _ else st).
    assert (Hinv1 : loop_inv E w path channels ip port t0 k st1)
      by (subst st1; destruct (stop_called w _); [by apply loop_inv_stop|done]).
    assert (Hlog1 : st_log st1 = st_log st)
      by (subst st1; by destruct (stop_called w _)).
    assert (Ht1 : WaveMU.xmlTemplate (st_self st1) = WaveMU.xmlTemplate (st_self st))
      by (subst st1; by destruct (stop_called w _)).
    clearbody st1. destruct (WaveMU.stopThread (st_self st1)).
    { intros [= <- <-]. by rewrite Hlog1. }
    pose proof (cycle_effect E w 10000 (Return payload) st1) as Hc.
    pose proof (cycle_spec E w path channels ip port t0 k (Return payload) st1 Hinv1)
      as Hs.
    destruct (cycle E w 10000 (Return payload) st1) as [st2|st2|e st2].
    + destruct Hc as (l & Hl & Hdoc & Hx & _).
      destruct Hs as (Hinv2 & _).
      assert (Hrec : frame_record channels (length (st_log st1)) (fl_now l)
                       (fl_payload l) (fl_record l)).
      { apply (eo_record E w channels t0).
        apply (ro_log _ _ _ _ _ _ _ _ _ (li_run _ _ _ _ _ _ _ _ _ Hinv2)).
        rewrite Hl. by apply list_lookup_middle. }
      assert (Hfresh : fl_document l
                       = template_after (toXML E template (fl_record l))).
      { rewrite Hdoc, Ht1. by erewrite Ht. }
      apply IH; [done| |].
      * intros j now p rd Hrd. rewrite Hx, Hfresh.
        apply toXML_replay.
        -- by eapply frame_records_same_fields.
        -- by eapply frame_record_walk.
      * rewrite Hl, Hlog1. intros l' [Hl'|Hl']%elem_of_app; [by apply Hlog|].
        apply elem_of_cons in Hl' as [->|Hl']; [done|]. by apply elem_of_nil in Hl'.
    + destruct Hc as (Hl & _). intros [= <- <-]. by rewrite Hl, Hlog1.
    + intros [= <- <-]. by rewrite Hc, Hlog1.
Qed.

Lemma run_documents fuel o st :
  run E w fuel self = (o, st) ->
  forall l, l ∈ st_log st ->
    fl_document l = template_after (toXML E template (fl_record l)).
Proof.
  intros Hrun.
  destruct (run_cases fuel) as [(_ & st0 & Hs & _ & Hl)|(k & _ & Hs & Hinv)].
  - rewrite Hrun in Hs. injection Hs as _ <-. rewrite Hl. intros l Hin.
    by apply elem_of_nil in Hin.
  - rewrite Hrun in Hs. symmetry in Hs.
    eapply streaming_documents; [exact Hinv|done| |exact Hs].
    intros l Hin. by apply elem_of_nil in Hin.
Qed.

(** X7.  Within a run the mutation of the shared template is harmless:
    every document is the one the frame's record gives against the template
    as the constructor read it, and the datagram is its serialisation. *)
Theorem run_documents_as_from_fresh_template fuel :
  exists o st,
    construct_and_run E w fuel path channels ip port template = Return (o, st) /\
    forall l, l ∈ st_log st ->
      fl_document l = template_after (toXML E template (fl_record l)) /\
      fl_xml l = etree_tostring E (template_after (toXML E template (fl_record l))).
Proof.
  rewrite construct_and_run_eq. fold self.
  destruct (run E w fuel self) as [o st] eqn:Hrun. exists o, st. split; [done|].
  intros l Hl. pose proof (run_documents fuel o st Hrun l Hl) as Hdoc.
  split; [done|]. rewrite <- Hdoc.
  apply run_spec in Hrun as (_ & t0 & k & [_ _ Hlog]).
  apply list_elem_of_lookup in Hl as [j Hj].
  by apply Hlog, entry_document in Hj as (? & _).
Qed.
End RunMore.

(** *** Cooperative stop *)

Lemma streaming_stop E w intervalDelta ending m pending : forall st o st',
  stop_called w m = true ->
  (length (st_log st) <= m)%nat ->
  streaming E w intervalDelta ending pending st = (o, st') ->
  (length (st_log st') <= m)%nat /\
  (length (st_log st') = m -> o = Returned /\ WaveMU.stopThread (st_self st') = true).
Proof.
  induction pending as [|payload rest IH]; intros st o st' Hm Hlen;
    cbn [streaming]; cbv zeta.
  - destruct (decide (length (st_log st) = m)) as [Heq|Hne].
    + rewrite Heq, Hm. cbn. intros [= <- <-]. cbn. by rewrite Heq.
    + set (st1 := if stop_called w _ then _ else st).
      assert (Hlog1 : st_log st1 = st_log st)
        by (subst st1; by destruct (stop_called w (length (st_log st)))).
      clearbody st1. destruct (WaveMU.stopThread (st_self st1)).
      { intros [= <- <-]. rewrite Hlog1. split; [done|]. by intros ?. }
      pose proof (cycle_effect E w intervalDelta (Raise ending) st1) as Hc.
      destruct (cycle E w intervalDelta (Raise ending) st1) as [st2|st2|e st2].
      * by destruct Hc as (? & _ & _ & _ & _ & ?).
      * destruct Hc as (Hl & _). intros [= <- <-]. rewrite Hl, Hlog1.
        split; [done|]. by intros ?.
      * intros [= <- <-]. rewrite Hc, Hlog1. split; [done|]. by intros ?.
  - destruct (decide (length (st_log st) = m)) as [Heq|Hne].
    + rewrite Heq, Hm. cbn. intros [= <- <-]. cbn. by rewrite Heq.
    + set (st1 := if stop_called w _ then _ else st).
      assert (Hlog1 : st_log st1 = st_log st)
        by (subst st1; by destruct (stop_called w (length (st_log st)))).
      clearbody st1. destruct (WaveMU.stopThread (st_self st1)).
      { intros [= <- <-]. rewrite Hlog1. split; [done|]. by intros ?. }
      pose proof (cycle_effect E w intervalDelta (Return payload) st1) as Hc.
      destruct (cycle E w intervalDelta (Return payload) st1) as [st2|st2|e st2].
      * destruct Hc as (l & Hl & _). apply IH; [done|].
        rewrite Hl, length_app, Hlog1. cbn. lia.
      * destruct Hc as (Hl & _). intros [= <- <-]. rewrite Hl, Hlog1.
        split; [done|]. by intros ?.
      * intros [= <- <-]. rewrite Hc, Hlog1. split; [done|]. by intros ?.
Qed.

Lemma hold_off_exact w fuel startTime : forall i st,
  (i < fuel)%nat ->
  (forall i', (i' < i)%nat ->
     datetime.second (clock w (st_reads st + i')) = datetime.second startTime) ->
  datetime.second (clock w (st_reads st + i)) <> datetime.second startTime ->
  hold_off w fuel startTime st
  = Some {| st_self := st_self st; st_frame := st_frame st;
            st_resultDict := st_resultDict st;
            st_reads := st_reads st + i + 1;
            st_trace := st_trace st ++ replicate i (Sleep 100);
            st_log := st_log st |}.
Proof.
  induction fuel as [|fuel IH]; intros i st Hi Hsame Hne; [lia|].
  cbn [hold_off]. cbv zeta. destruct i as [|i].
  - rewrite Nat.add_0_r in Hne.
    destruct (Z.eqb_spec (datetime.second startTime)
                (datetime.second (clock w (st_reads st)))); [congruence|].
    unfold tick. cbn. rewrite app_nil_r. do 2 f_equal. lia.
  - pose proof (Hsame 0%nat ltac:(lia)) as H0. rewrite Nat.add_0_r in H0.
    rewrite H0, Z.eqb_refl.
    rewrite (IH i); [| lia | |].
    + unfold emit, tick. cbn. do 2 f_equal; [lia|]. by rewrite <- app_assoc.
    + intros i' Hi'. cbn [emit tick st_reads].
      replace (S (st_reads st) + i')%nat with (st_reads st + S i')%nat by lia.
      apply Hsame. lia.
    + cbn [emit tick st_reads].
      by replace (S (st_reads st) + i)%nat with (st_reads st + S i)%nat by lia.
Qed.

Lemma chunks_concat bs : forall fuel l,
  (0 < bs)%nat -> (length l <= fuel)%nat -> concat (chunks fuel bs l) = l.
Proof.
  induction fuel as [|fuel IH]; intros l Hbs Hlen.
  - by destruct l; [|cbn in Hlen; lia].
  - destruct l as [|x l]; [done|]. cbn [chunks concat].
    rewrite IH; [apply take_drop|done|].
    rewrite length_drop. cbn [length] in *. lia.
Qed.

Lemma string_app_length s1 s2 :
  String.length (s1 +:+ s2) = (String.length s1 + String.length s2)%nat.
Proof.
  induction s1 as [|a s1 IH]; [done|].
  change (S (String.length (s1 +:+ s2)) = S (String.length s1 + String.length s2)).
  by rewrite IH.
Qed.

Lemma fmt_0d_widths :
  forallb (fun k => (String.length (fmt_0d 2 (Z.of_nat k)) =? 2)%nat
                    && (String.length (fmt_0d 3 (10 * Z.of_nat k)) =? 3)%nat)
    (seq 0 100) = true.
Proof. vm_compute. reflexivity. Qed.

Lemma fmt_0d_2_length z : 0 <= z < 100 -> String.length (fmt_0d 2 z) = 2%nat.
Proof.
  intros Hz.
  pose proof (proj1 (forallb_forall _ _) fmt_0d_widths (Z.to_nat z)) as H.
  cbv beta in H. rewrite Z2Nat.id in H by lia.
  apply andb_prop in H as [H _]; [by apply Nat.eqb_eq|]. apply in_seq. lia.
Qed.

Lemma fmt_0d_3_length m :
  0 <= m < 100 -> String.length (fmt_0d 3 (10 * m)) = 3%nat.
Proof.
  intros Hm.
  pose proof (proj1 (forallb_forall _ _) fmt_0d_widths (Z.to_nat m)) as H.
  cbv beta in H. rewrite Z2Nat.id in H by lia.
  apply andb_prop in H as [_ H]; [by apply Nat.eqb_eq|]. apply in_seq. lia.
Qed.

Section RunEdges.
Context (E : externals) (w : world).
Context (fuel : nat) (path : string) (channels : Z) (ip : string) (port : Z).
Context (template : element).

Local Abbreviation self := (built path channels ip port template).
Local Abbreviation SVgen := (readWaveFileGen (file w path)).

(** X8.  A call of [stop()] from another thread takes effect at the next
    test of the loop condition: if the flag is seen set after [m] completed
    cycles, the run emits at most [m] frames, and when it has emitted [m] it
    has returned normally with the flag set. *)
Theorem stop_request_ends_run m :
  stop_called w m = true ->
  exists o st,
    construct_and_run E w fuel path channels ip port template = Return (o, st) /\
    (length (st_log st) <= m)%nat /\
    (o <> Spinning -> length (st_log st) = m ->
     o = Returned /\ WaveMU.stopThread (st_self st) = true).
Proof.
  intros Hm. rewrite construct_and_run_eq. fold self.
  destruct (run E w fuel self) as [o st] eqn:Hrun. exists o, st. split; [done|].
  destruct (run_cases E w path channels ip port template fuel)
    as [(_ & st0 & Hs & _ & Hl)|(k & _ & Hs & _)].
  - rewrite Hrun in Hs. injection Hs as -> <-. rewrite Hl. cbn.
    split; [lia|]. by intros ?.
  - rewrite Hrun in Hs. symmetry in Hs.
    apply (streaming_stop _ _ _ _ m) in Hs as [H1 H2]; [|done|cbn; lia].
    split; [done|]. intros _. exact H2.
Qed.

(** X9.  Playing a file with a single channel, or with fewer channels than
    the [WaveMU] is configured for, does not stream at all: the first cycle
    raises [IndexError] out of [run] before anything is sent. *)
Theorem missing_channel_raises_IndexError i :
  sf_fault (file w path) = None ->
  sf_frames (file w path) <> [] ->
  0 < channels ->
  sf_channels (file w path) = 1%nat \/ Z.of_nat (sf_channels (file w path)) < channels ->
  stop_called w 0 = false ->
  (i < fuel)%nat ->
  datetime.second (clock w (2 + i)) <> datetime.second (clock w 1) ->
  exists st,
    construct_and_run E w fuel path channels ip port template
    = Return (Raised IndexError, st) /\
    st_log st = [] /\ sends (st_trace st) = [].
Proof.
  intros Hfault Hne Hc Hch Hstop Hi Hclock.
  rewrite construct_and_run_eq. fold self.
  destruct (run_cases E w path channels ip port template fuel)
    as [(Hnone & _)|(k & _ & Hs & Hinv)].
  { destruct (hold_off_total w fuel (clock w 1) (holding self) i Hi Hclock)
      as [? Hsome]. congruence. }
  rewrite Hs.
  assert (Hp : exists rows rest,
            pending SVgen
            = byteswap (transpose (block_array (sf_channels (file w path)) rows))
              :: rest).
  { unfold readWaveFileGen, sf_blocks. cbv zeta. rewrite Hfault. cbn [pending].
    destruct (sf_frames (file w path)) as [|r l]; [done|]. cbn. by eexists _, _. }
  destruct Hp as (rows & rest & ->).
  cbn [streaming]. cbv zeta. cbn [st_log synced length]. rewrite Hstop.
  cbn [st_self synced WaveMU.stopThread built].
  pose proof (cycle_spec E w path channels ip port _ _
                (Return (byteswap (transpose
                   (block_array (sf_channels (file w path)) rows))))
                (synced self k) Hinv) as Hcy.
  destruct (cycle _ _ _ _ _) as [st2|st2|e st2].
  - exfalso. destruct Hcy as (_ & _ & p & l & [= <-] & Hrows & _).
    unfold block_array in Hrows. destruct Hch as [H1|Hlt].
    + rewrite H1 in Hrows. cbn in Hrows.
      destruct (Hrows 0%nat) as [? ?]; [lia|done].
    + destruct (Nat.eqb_spec (sf_channels (file w path)) 1).
      * cbn in Hrows. destruct (Hrows 0%nat) as [? ?]; [lia|done].
      * destruct (Hrows (sf_channels (file w path))) as [row Hrow]; [lia|].
        cbn in Hrow. rewrite !list_lookup_fmap, lookup_seq_ge in Hrow by lia.
        done.
  - by destruct Hcy as (_ & _ & _ & ? & ?).
  - destruct Hcy as ([_ Htr _] & Hlog & -> & _). exists st2.
    split; [done|]. split; [done|].
    rewrite Htr, sends_cycles, Hlog. done.
Qed.

(** X10.  The first cycle starts at the first clock reading after the one
    on which the second was seen to change: if the second changes at the
    [i]-th poll of the hold-off loop, the loop has slept [i] times 100
    microseconds, and cycle [j] takes its [now] from reading [3 + i + 3 j]. *)
Theorem first_cycle_follows_second_change i :
  (i < fuel)%nat ->
  (forall i', (i' < i)%nat ->
     datetime.second (clock w (2 + i')) = datetime.second (clock w 1)) ->
  datetime.second (clock w (2 + i)) <> datetime.second (clock w 1) ->
  exists o st,
    construct_and_run E w fuel path channels ip port template = Return (o, st) /\
    o <> Spinning /\
    sleeps (st_trace st) = (replicate i 100 ++ map fl_sleep (st_log st))%list /\
    forall j l, st_log st !! j = Some l -> fl_now l = clock w (3 + i + 3 * j).
Proof.
  intros Hi Hsame Hne. rewrite construct_and_run_eq. fold self.
  pose proof (hold_off_exact w fuel (clock w 1) i (holding self) Hi Hsame Hne) as Hh.
  change (Some _) with (Some (synced self i)) in Hh.
  destruct (run E w fuel self) as [o st] eqn:Hrun. exists o, st. split; [done|].
  unfold built in Hrun, Hh.
  rewrite (run_unfold E w path channels ip port template fuel _ Hh) in Hrun.
  split; [by eapply streaming_not_spinning|].
  eapply streaming_spec in Hrun as ([_ Htr Hlog] & _); [|apply loop_inv_start].
  split.
  - rewrite Htr. apply sleeps_cycles.
  - intros j l Hl. by destruct (Hlog j l Hl).
Qed.

Lemma run_complete_payloads i :
  (2 <= sf_channels (file w path))%nat ->
  channels <= Z.of_nat (sf_channels (file w path)) ->
  (forall j, stop_called w j = false) ->
  (i < fuel)%nat ->
  datetime.second (clock w (2 + i)) <> datetime.second (clock w 1) ->
  exists st,
    run E w fuel self = (Returned, st) /\
    WaveMU.stopThread (st_self st) = true /\
    map fl_payload (st_log st) = pending SVgen.
Proof.
  intros Hch Hc Hstop Hi Hclock.
  destruct (run_complete E w path channels ip port template fuel i Hi Hclock Hstop)
    as (st & Hrun & Hs & Hn); [by apply pending_has_rows|].
  exists st. split; [done|]. split; [done|].
  apply run_payloads in Hrun as (m & Hm).
  rewrite Hm. apply take_ge.
  apply (f_equal length) in Hm. rewrite length_map, length_take in Hm. lia.
Qed.


(** X12.  When the clock returns valid times of day, every [Time] has the
    twelve characters of [HH:MM:SS.mmm]. *)
Theorem time_has_twelve_characters :
  (forall k, valid_time (clock w k)) ->
  exists o st,
    construct_and_run E w fuel path channels ip port template = Return (o, st) /\
    forall l, l ∈ st_log st ->
      exists s, fl_record l !! "Time" = Some (Obj (PStr s)) /\
                String.length s = 12%nat /\ String.get 8 s = Some "."%char.
Proof.
  intros Hvalid. rewrite construct_and_run_eq.
  destruct (run E w fuel _) as [o st] eqn:Hrun. exists o, st. split; [done|].
  apply run_spec in Hrun as (_ & t0 & k & [_ _ Hlog]).
  intros l [j Hj]%list_elem_of_lookup.
  destruct (Hlog j l Hj) as [Hnow Hrec _ _].
  eexists. split; [apply Hrec|].
  rewrite Hnow. destruct (Hvalid (t0 + 3 * j)%nat) as (Hh & Hm & Hs).
  unfold datetime.strftime_HMS.
  pose proof (fmt_0d_2_length (datetime.hour (clock w (t0 + 3 * j))) ltac:(lia)) as Lh.
  pose proof (fmt_0d_2_length (datetime.minute (clock w (t0 + 3 * j))) ltac:(lia)) as Lm.
  pose proof (fmt_0d_2_length (datetime.second (clock w (t0 + 3 * j))) ltac:(lia)) as Ls.
  pose proof (fmt_0d_3_length (Z.of_nat j mod 100) ltac:(div_lia)) as Lms.
  split.
  - rewrite !string_app_length, Lh, Lm, Ls, Lms. done.
  - destruct (fmt_0d 2 (datetime.hour _)) as [|h1 [|h2 [|]]]; try done.
    destruct (fmt_0d 2 (datetime.minute _)) as [|m1 [|m2 [|]]]; try done.
    destruct (fmt_0d 2 (datetime.second _)) as [|s1 [|s2 [|]]]; try done.
Qed.
End RunEdges.

(** *** Running the same object again *)

Lemma streaming_final_template E w intervalDelta ending x0 pending : forall st st',
  WaveMU.xmlTemplate (st_self st) = from_option fl_document x0 (last (st_log st)) ->
  streaming E w intervalDelta ending pending st = (Returned, st') ->
  WaveMU.xmlTemplate (st_self st') = from_option fl_document x0 (last (st_log st')).
Proof.
  induction pending as [|payload rest IH]; intros st st' HQ;
    cbn [streaming]; cbv zeta.
  - set (st1 := if stop_called w _ then _ else st).
    assert (Hlog1 : st_log st1 = st_log st)
      by (subst st1; by destruct (stop_called w _)).
    assert (Ht1 : WaveMU.xmlTemplate (st_self st1) = WaveMU.xmlTemplate (st_self st))
      by (subst st1; by destruct (stop_called w _)).
    clearbody st1. destruct (WaveMU.stopThread (st_self st1)).
    { intros [= <-]. by rewrite Hlog1, Ht1. }
    pose proof (cycle_effect E w intervalDelta (Raise ending) st1) as Hc.
    destruct (cycle E w intervalDelta (Raise ending) st1) as [st2|st2|e st2].
    + by destruct Hc as (? & _ & _ & _ & _ & ?).
    + destruct Hc as (Hl & _ & Hx). intros [= <-]. by rewrite Hl, Hx, Hlog1, Ht1.
    + by intros [=].
  - set (st1 := if stop_called w _ then _ else st).
    assert (Hlog1 : st_log st1 = st_log st)
      by (subst st1; by destruct (stop_called w _)).
    assert (Ht1 : WaveMU.xmlTemplate (st_self st1) = WaveMU.xmlTemplate (st_self st))
      by (subst st1; by destruct (stop_called w _)).
    clearbody st1. destruct (WaveMU.stopThread (st_self st1)).
    { intros [= <-]. by rewrite Hlog1, Ht1. }
    pose proof (cycle_effect E w intervalDelta (Return payload) st1) as Hc.
    destruct (cycle E w intervalDelta (Return payload) st1) as [st2|st2|e st2].
    + destruct Hc as (l & Hl & _ & Hx & _). apply IH.
      by rewrite Hl, Hx, last_snoc.
    + destruct Hc as (Hl & _ & Hx). intros [= <-]. by rewrite Hl, Hx, Hlog1, Ht1.
    + by intros [=].
Qed.

Section RunAgain.
Context (E : externals) (w w2 : world).
Context (fuel fuel2 : nat) (path : string) (channels : Z) (ip : string) (port : Z).
Context (template : element).

End RunAgain.

(** *** Layout of the documents *)

Lemma run_key_spec channels key :
  run_key channels key = true <->
  key ∈ fixed_keys \/ exists i, (i < Z.to_nat channels)%nat /\ key = channel_key i.
Proof.
  unfold run_key. rewrite orb_true_iff, bool_decide_eq_true, existsb_exists.
  split; (intros [H|H]; [by left|right]).
  - destruct H as (i & Hi%in_seq & ->%String.eqb_eq). exists i. split; [lia|done].
  - destruct H as (i & Hi & ->). exists i.
    split; [apply in_seq; lia|apply String.eqb_refl].
Qed.

Lemma frame_record_keys channels j now payload resultDict key :
  frame_record channels j now payload resultDict ->
  is_Some (resultDict !! key) <-> run_key channels key.
Proof.
  intros Hr. rewrite Is_true_true, run_key_spec. split.
  - apply (fr_keys _ _ _ _ _ Hr).
  - intros [Hf|(i & Hi & ->)].
    + unfold fixed_keys in Hf. destruct Hr.
      repeat (apply elem_of_cons in Hf as [->|Hf]; [by eexists|]).
      by apply elem_of_nil in Hf.
    + destruct (fr_channel _ _ _ _ _ Hr i Hi) as (row & _ & ->). by eexists.
Qed.

Section Layout.
Context (E : externals) (w : world).
Context (fuel : nat) (path : string) (channels : Z) (ip : string) (port : Z).
Context (template : element).

(** X14.  All the documents of a run have one layout: their nodes are the
    nodes of the template the constructor read whose tag is one of the
    seven fixed fields or the key of a configured channel, in the order of
    the template. *)
Theorem documents_share_layout :
  exists o st,
    construct_and_run E w fuel path channels ip port template = Return (o, st) /\
    forall l, l ∈ st_log st ->
      map tag (children (fl_document l))
      = filter (fun key => run_key channels key) (map tag (children template)).
Proof.
  rewrite construct_and_run_eq.
  destruct (run E w fuel _) as [o st] eqn:Hrun. exists o, st. split; [done|].
  intros l Hl.
  rewrite (run_documents E w path channels ip port template fuel o st Hrun l Hl).
  apply run_spec in Hrun as (_ & t0 & k & [_ _ Hlog]).
  apply list_elem_of_lookup in Hl as [j Hj].
  pose proof (eo_record _ _ _ _ _ _ (Hlog j l Hj)) as Hrec.
  pose proof (frame_record_toXML E _ _ _ _ _ template Hrec) as Hx.
  assert (Hret : returned (toXML E template (fl_record l))
                 = Return (etree_tostring E
                             (set_children template
                                (walk_level1 E (fl_record l) (children template)).1)))
    by (by rewrite Hx).
  apply toXML_document in Hret as (_ & _ & ->).
  apply list_filter_iff. intros key. by eapply frame_record_keys.
Qed.

(** X15.  The [Date] of a frame is the [YYYY-MM-DD] of the clock reading
    its [Time] is taken from: one reading of the clock at the start of the
    cycle gives both, in the record and in the document. *)
Theorem date_from_cycle_start :
  exists o st t0,
    construct_and_run E w fuel path channels ip port template = Return (o, st) /\
    forall j l, st_log st !! j = Some l ->
      fl_now l = clock w (t0 + 3 * j) /\
      fl_record l !! "Date"
      = Some (Obj (PStr (datetime.strftime_Ymd (clock w (t0 + 3 * j))))) /\
      forall x, x ∈ children (fl_document l) -> tag x = "Date" ->
        text x = Some (datetime.strftime_Ymd (clock w (t0 + 3 * j))).
Proof.
  rewrite construct_and_run_eq.
  destruct (run E w fuel _) as [o st] eqn:Hrun.
  apply run_spec in Hrun as (_ & t0 & k & [_ _ Hlog]).
  exists o, st, t0. split; [done|].
  intros j l Hl. pose proof (Hlog j l Hl) as Hok.
  pose proof (eo_record _ _ _ _ _ _ Hok) as Hrec.
  rewrite <- (eo_now _ _ _ _ _ _ Hok).
  split; [done|]. split; [apply Hrec|]. intros x Hx Ht.
  apply entry_document in Hok as (_ & Henc & _).
  eapply encoded_str; [by eapply Forall_forall|done| |apply Hrec].
  set_solver.
Qed.
End Layout.

(** ** Instances of the further properties *)

Lemma extended_agrees x :
  x ∈ children Sample.template -> Sample.record_one !! tag x = More.extended !! tag x.
Proof.
  revert x. apply Forall_forall.
  repeat (apply Forall_cons_2; [vm_compute; reflexivity|]). apply Forall_nil_2.
Qed.

Lemma record_later_same_fields : same_fields Sample.record_one More.record_later.
Proof.
  split.
  - intros k. unfold Sample.record_one, More.record_later.
    by rewrite !lookup_insert_is_Some'.
  - intros k dA dB HA HB k2. unfold Sample.record_one in HA.
    unfold More.record_later in HB.
    destruct (decide (k = "Channel_0")) as [->|?].
    + rewrite lookup_insert_eq in HA. rewrite lookup_insert_eq in HB.
      injection HA as <-. injection HB as <-.
      by rewrite !lookup_insert_is_Some'.
    + rewrite lookup_insert_ne in HA by done.
      destruct (decide (k = "Frame")) as [->|?];
        [by rewrite lookup_insert_eq in HA|rewrite lookup_insert_ne in HA by done].
      destruct (decide (k = "Time")) as [->|?];
        [by rewrite lookup_insert_eq in HA|rewrite lookup_insert_ne in HA by done].
      destruct (decide (k = "Fs")) as [->|?];
        [by rewrite lookup_insert_eq in HA|rewrite lookup_insert_ne in HA by done].
      by rewrite lookup_empty in HA.
Qed.

Lemma daily_valid k : valid_time (More.daily k).
Proof.
  unfold valid_time, More.daily, Sample.at_us, Sample.noon.
  cbn [datetime.hour datetime.minute datetime.second].
  repeat split; div_lia.
Qed.

(** X1, witness: a field no node declares. *)
Lemma toXML_ignores_undeclared_fields_witness :
  toXML Sample.lib Sample.template Sample.record_one
  = toXML Sample.lib Sample.template More.extended.
Proof.
  apply (toXML_ignores_undeclared_fields Sample.lib Sample.template
           Sample.record_one More.extended).
  exact extended_agrees.
Defined.


(** X4, witness: the record of a one-channel stream. *)
Lemma toXML_returns_when_fields_ok_witness :
  returned (toXML Sample.lib Sample.template Sample.record_one)
  = Return (etree_tostring Sample.lib
              (template_after (toXML Sample.lib Sample.template Sample.record_one))) /\
  printed (toXML Sample.lib Sample.template Sample.record_one) = [].
Proof.
  apply (toXML_returns_when_fields_ok Sample.lib Sample.template
           Sample.record_one).
  vm_compute. reflexivity.
Defined.

(** X5, witness: a channel that is a number. *)
Lemma toXML_AttributeError_cause_witness :
  exists x o,
    x ∈ children Sample.template /\ String.prefix "Channel_" (tag x) = true /\
    More.not_a_dict !! tag x = Some (Obj o) /\ children x <> [].
Proof.
  apply (toXML_AttributeError_cause Sample.lib Sample.template More.not_a_dict).
  vm_compute. reflexivity.
Defined.

(** X6, witness: two records of a one-channel stream. *)
Lemma toXML_after_same_fields_witness :
  toXML Sample.lib
    (template_after (toXML Sample.lib Sample.template Sample.record_one))
    More.record_later
  = toXML Sample.lib Sample.template More.record_later.
Proof.
  apply (toXML_after_same_fields Sample.lib Sample.template Sample.record_one
           More.record_later).
  - exact record_later_same_fields.
  - vm_compute. reflexivity.
Defined.

(** X8, witness: [stop()] is called during the second cycle of a
    three-block file. *)
Lemma stop_request_ends_run_witness :
  exists o st,
    construct_and_run Sample.lib
      (More.stopping 1 Sample.punctual (Sample.ramp 300)) 5 "example.flac" 2
      "127.0.0.1" 48001 Sample.template = Return (o, st) /\
    (length (st_log st) <= 1)%nat /\
    (o <> Spinning -> length (st_log st) = 1%nat ->
     o = Returned /\ WaveMU.stopThread (st_self st) = true).
Proof.
  apply (stop_request_ends_run Sample.lib
           (More.stopping 1 Sample.punctual (Sample.ramp 300)) 5 "example.flac" 2
           "127.0.0.1" 48001 Sample.template 1).
  reflexivity.
Defined.

(** X9, witness: a mono file played with the default two channels. *)
Lemma missing_channel_raises_IndexError_witness :
  exists st,
    construct_and_run Sample.lib (Sample.playing Sample.punctual (More.mono 200))
      5 "example.flac" 2 "127.0.0.1" 48001 Sample.template
    = Return (Raised IndexError, st) /\
    st_log st = [] /\ sends (st_trace st) = [].
Proof.
  apply (missing_channel_raises_IndexError Sample.lib
           (Sample.playing Sample.punctual (More.mono 200)) 5 "example.flac" 2
           "127.0.0.1" 48001 Sample.template 0).
  - reflexivity.
  - vm_compute. discriminate.
  - lia.
  - left. reflexivity.
  - reflexivity.
  - lia.
  - vm_compute. discriminate.
Defined.

(** X10, witness: with the punctual clock the second changes at the first
    poll. *)
Lemma first_cycle_follows_second_change_witness :
  exists o st,
    construct_and_run Sample.lib (Sample.playing Sample.punctual (Sample.ramp 130))
      5 "example.flac" 2 "127.0.0.1" 48001 Sample.template = Return (o, st) /\
    o <> Spinning /\
    sleeps (st_trace st) = (replicate 0 100 ++ map fl_sleep (st_log st))%list /\
    forall j l, st_log st !! j = Some l ->
      fl_now l = clock (Sample.playing Sample.punctual (Sample.ramp 130))
                   (3 + 0 + 3 * j).
Proof.
  apply (first_cycle_follows_second_change Sample.lib
           (Sample.playing Sample.punctual (Sample.ramp 130)) 5 "example.flac" 2
           "127.0.0.1" 48001 Sample.template 0).
  - lia.
  - intros i' Hi'. lia.
  - vm_compute. discriminate.
Defined.


(** X12, witness: a clock that wraps at midnight. *)
Lemma time_has_twelve_characters_witness :
  exists o st,
    construct_and_run Sample.lib (Sample.playing More.daily (Sample.ramp 130))
      5 "example.flac" 2 "127.0.0.1" 48001 Sample.template = Return (o, st) /\
    forall l, l ∈ st_log st ->
      exists s, fl_record l !! "Time" = Some (Obj (PStr s)) /\
                String.length s = 12%nat /\ String.get 8 s = Some "."%char.
Proof.
  apply (time_has_twelve_characters Sample.lib
           (Sample.playing More.daily (Sample.ramp 130)) 5 "example.flac" 2
           "127.0.0.1" 48001 Sample.template).
  exact daily_valid.
Defined.


(** * A network on which [sendto] can raise *)

Lemma sends_snoc_sleep trace d : sends (trace ++ [Sleep d]) = sends trace.
Proof. unfold sends. rewrite omap_app. cbn. by rewrite app_nil_r. Qed.

Lemma sends_snoc_sendto trace sock data host port :
  sends (trace ++ [Sendto sock data host port])
  = (sends trace ++ [Sendto sock data host port])%list.
Proof. unfold sends. by rewrite omap_app. Qed.

Lemma sends_replicate_sleep k d : sends (replicate k (Sleep d)) = [].
Proof. induction k as [|k IH]; [done|]. exact IH. Qed.

Section NetFacts.
Context (E : externals) (w : world) (net : network).

(** What one cycle of a constructed [WaveMU] does to the log and to the
    datagrams. *)
Lemma Net_cycle_effect intervalDelta pulled st :
  WaveMU.interval (st_self st) = 0.01%float ->
  let ip := WaveMU.ip (st_self st) in
  let port := WaveMU.port (st_self st) in
  match Net.cycle E w net intervalDelta pulled st with
  | Continue st' =>
      exists l,
        st_log st' = (st_log st ++ [l])%list /\
        fl_xml l = etree_tostring E (fl_document l) /\
        sends (st_trace st') = (sends (st_trace st) ++ frame_sends ip port l)%list /\
        WaveMU.ip (st_self st') = ip /\ WaveMU.port (st_self st') = port /\
        WaveMU.interval (st_self st') = 0.01%float
  | Break st' =>
      st_log st' = st_log st /\ sends (st_trace st') = sends (st_trace st)
  | Abort e st' =>
      st_log st' = st_log st /\
      (sends (st_trace st') = sends (st_trace st) \/
       exists xml,
         sends (st_trace st')
         = (sends (st_trace st) ++ [Sendto socketOut xml ip port])%list /\
         net (length (st_log st)) socketFwd xml "127.0.0.1" 48005 = Some e)
  end.
Proof.
  intros Hint. unfold Net.cycle. cbv zeta. rewrite Hint, wrap_default.
  destruct (py_int _) as [ms|]; [|by split; [|left]].
  destruct pulled as [payload|e]; [|done].
  destruct (fill_channels _ _ _) as [rd [e|]]; [by split; [|left]|].
  rewrite toXML_printed.
  destruct (returned _) as [xml|] eqn:Hret;
    [|split; [done|left]; cbn; by rewrite app_nil_r].
  apply toXML_returned in Hret as [_ Hxml].
  destruct (net _ socketOut _ _ _) as [e|];
    [split; [done|left]; cbn; by rewrite app_nil_r|].
  destruct (net _ socketFwd _ _ _) as [e|] eqn:Hfwd.
  { split; [done|right]. exists xml. split; [|exact Hfwd].
    cbn. by rewrite app_nil_r, sends_snoc_sendto. }
  eexists. cbn. split_and!; try done.
  by rewrite sends_snoc_sleep, !sends_snoc_sendto, app_nil_r, <- app_assoc.
Qed.

Lemma Net_streaming_sends ip port ending pending : forall st o st',
  WaveMU.interval (st_self st) = 0.01%float ->
  WaveMU.ip (st_self st) = ip -> WaveMU.port (st_self st) = port ->
  sends (st_trace st) = flat_map (frame_sends ip port) (st_log st) ->
  (forall l, l ∈ st_log st -> fl_xml l = etree_tostring E (fl_document l)) ->
  Net.streaming E w net 10000 ending pending st = (o, st') ->
  (forall l, l ∈ st_log st' -> fl_xml l = etree_tostring E (fl_document l)) /\
  exists rest,
    sends (st_trace st') = (flat_map (frame_sends ip port) (st_log st') ++ rest)%list /\
    (rest = [] \/
     exists xml e,
       rest = [Sendto socketOut xml ip port] /\
       net (length (st_log st')) socketFwd xml "127.0.0.1" 48005 = Some e /\
       o = Raised e).
Proof.
  induction pending as [|payload rest IH]; intros st o st' Hint Hip Hport Hs Hx;
    cbn [Net.streaming]; cbv zeta.
  - set (st1 := if stop_called w _ then _ else st).
    assert (H1 : st_log st1 = st_log st /\ st_trace st1 = st_trace st /\
                 WaveMU.interval (st_self st1) = 0.01%float /\
                 WaveMU.ip (st_self st1) = ip /\ WaveMU.port (st_self st1) = port)
      by (subst st1; by destruct (stop_called w (length (st_log st)))).
    destruct H1 as (Hl1 & Ht1 & Hint1 & Hip1 & Hport1). clearbody st1.
    destruct (WaveMU.stopThread (st_self st1)).
    { intros [= <- <-]. rewrite Hl1, Ht1. split; [done|]. exists [].
      split; [by rewrite app_nil_r|by left]. }
    pose proof (Net_cycle_effect 10000 (Raise ending) st1 Hint1) as Hc.
    cbv zeta in Hc. rewrite Hip1, Hport1, Hl1, Ht1 in Hc.
    destruct (Net.cycle E w net 10000 (Raise ending) st1) as [st2|st2|e st2].
    + destruct Hc as (l & Hl & Hxml & Hs2 & _).
      intros [= <- <-]. rewrite Hl, Hs2, Hs, flat_map_app. cbn [flat_map].
      rewrite app_nil_r. split.
      * intros l' [Hl'|Hl']%elem_of_app; [by apply Hx|].
        apply elem_of_cons in Hl' as [->|Hl']; [done|]. by apply elem_of_nil in Hl'.
      * exists []. split; [by rewrite app_nil_r|by left].
    + destruct Hc as (Hl & Hs2). intros [= <- <-]. rewrite Hl, Hs2, Hs.
      split; [done|]. exists []. split; [by rewrite app_nil_r|by left].
    + destruct Hc as (Hl & Hs2). intros [= <- <-]. rewrite Hl.
      split; [done|]. destruct Hs2 as [Hs2|(xml & Hs2 & Hfwd)]; rewrite Hs2, Hs.
      * exists []. split; [by rewrite app_nil_r|by left].
      * exists [Sendto socketOut xml ip port]. split; [done|right]. by exists xml, e.
  - set (st1 := if stop_called w _ then _ else st).
    assert (H1 : st_log st1 = st_log st /\ st_trace st1 = st_trace st /\
                 WaveMU.interval (st_self st1) = 0.01%float /\
                 WaveMU.ip (st_self st1) = ip /\ WaveMU.port (st_self st1) = port)
      by (subst st1; by destruct (stop_called w (length (st_log st)))).
    destruct H1 as (Hl1 & Ht1 & Hint1 & Hip1 & Hport1). clearbody st1.
    destruct (WaveMU.stopThread (st_self st1)).
    { intros [= <- <-]. rewrite Hl1, Ht1. split; [done|]. exists [].
      split; [by rewrite app_nil_r|by left]. }
    pose proof (Net_cycle_effect 10000 (Return payload) st1 Hint1) as Hc.
    cbv zeta in Hc. rewrite Hip1, Hport1, Hl1, Ht1 in Hc.
    destruct (Net.cycle E w net 10000 (Return payload) st1) as [st2|st2|e st2].
    + destruct Hc as (l & Hl & Hxml & Hs2 & Hip2 & Hport2 & Hint2).
      apply IH; try done.
      * rewrite Hl, Hs2, Hs, flat_map_app. cbn [flat_map]. by rewrite app_nil_r.
      * rewrite Hl. intros l' [Hl'|Hl']%elem_of_app; [by apply Hx|].
        apply elem_of_cons in Hl' as [->|Hl']; [done|]. by apply elem_of_nil in Hl'.
    + destruct Hc as (Hl & Hs2). intros [= <- <-]. rewrite Hl, Hs2, Hs.
      split; [done|]. exists []. split; [by rewrite app_nil_r|by left].
    + destruct Hc as (Hl & Hs2). intros [= <- <-]. rewrite Hl.
      split; [done|]. destruct Hs2 as [Hs2|(xml & Hs2 & Hfwd)]; rewrite Hs2, Hs.
      * exists []. split; [by rewrite app_nil_r|by left].
      * exists [Sendto socketOut xml ip port]. split; [done|right]. by exists xml, e.
Qed.

Lemma Net_cycle_reliable intervalDelta pulled st :
  (forall j sock data host port, net j sock data host port = None) ->
  Net.cycle E w net intervalDelta pulled st = cycle E w intervalDelta pulled st.
Proof.
  intros Hnet. unfold Net.cycle, cycle. cbv zeta.
  destruct (py_int _) as [ms|]; [|done].
  destruct pulled as [payload|e]; [|done].
  destruct (fill_channels _ _ _) as [rd [e|]]; [done|].
  destruct (returned _) as [xml|]; [|done].
  by rewrite !Hnet.
Qed.

Lemma Net_streaming_reliable intervalDelta ending pending : forall st,
  (forall j sock data host port, net j sock data host port = None) ->
  Net.streaming E w net intervalDelta ending pending st
  = streaming E w intervalDelta ending pending st.
Proof.
  intros st Hnet. revert st.
  induction pending as [|payload rest IH]; intros st;
    cbn [Net.streaming streaming]; cbv zeta; rewrite Net_cycle_reliable by done.
  - done.
  - destruct (WaveMU.stopThread _); [done|]. by destruct (cycle _ _ _ _ _).
Qed.

Lemma Net_run_reliable fuel self :
  (forall j sock data host port, net j sock data host port = None) ->
  Net.run E w net fuel self = run E w fuel self.
Proof.
  intros Hnet. unfold Net.run, run. cbv zeta.
  destruct (timedelta_seconds _) as [d|]; [|done].
  destruct (hold_off _ _ _ _) as [st|]; [|done].
  by apply Net_streaming_reliable.
Qed.
End NetFacts.

Section NetClaims.
Context (E : externals) (w : world) (net : network).
Context (fuel : nat) (path : string) (channels : Z) (ip : string) (port : Z).
Context (template : element).

End NetClaims.



(** * The wire document read back *)

Lemma pretty_N_go_length x : forall s,
  (String.length s <= String.length (pretty_N_go x s))%nat.
Proof.
  induction (N.lt_wf_0 x) as [x _ IH]. intros s.
  destruct (decide (x = 0%N)) as [->|Hx]; [by rewrite pretty_N_go_0|].
  rewrite pretty_N_go_step by lia.
  etrans; [|apply IH, N.div_lt; lia]. cbn. lia.
Qed.

Lemma str_int_nonempty z : str_int z <> "".
Proof.
  assert (HN : forall x : N, pretty x <> "").
  { intros x. unfold pretty, pretty_N. case_decide; [done|].
    rewrite pretty_N_go_step by lia. intros Heq.
    pose proof (pretty_N_go_length (x `div` 10)
                  (String (pretty_N_char (x `mod` 10)) "")) as Hlen.
    rewrite Heq in Hlen. cbn in Hlen. lia. }
  unfold str_int, pretty, pretty_Z. destruct z as [|x|x]; [done|apply HN|done].
Qed.

Lemma chunks_nonempty bs : forall fuel l j rows,
  (0 < bs)%nat -> chunks fuel bs l !! j = Some rows -> rows <> [].
Proof.
  induction fuel as [|fuel IH]; intros l j rows Hbs; [done|].
  destruct l as [|x l]; [done|]. cbn [chunks].
  destruct j as [|j]; cbn.
  - intros [= <-]. destruct bs; [lia|done].
  - by apply IH.
Qed.

Lemma tag_parsed x : tag (parsed x) = tag x.
Proof. by destruct x. Qed.

Lemma text_parsed x t : text x = Some t -> t <> "" -> text (parsed x) = Some t.
Proof. destruct x as [? ? tx ? ?]. cbn. intros -> Ht. by destruct t. Qed.

Lemma children_parsed x : children (parsed x) = List.map parsed (children x).
Proof. by destruct x. Qed.

Lemma elem_of_children_parsed x y :
  y ∈ children (parsed x) -> exists y0, y0 ∈ children x /\ y = parsed y0.
Proof.
  rewrite children_parsed. intros (y0 & <- & Hy)%list_elem_of_In%in_map_iff.
  exists y0. by split; [apply list_elem_of_In|].
Qed.

Lemma tail_template_after E xmlTemplate resultDict :
  tail (template_after (toXML E xmlTemplate resultDict)) = tail xmlTemplate.
Proof. rewrite toXML_template_after. by destruct xmlTemplate. Qed.

Lemma Codec_of_to_tree : forall x, Codec.of_tree (Codec.to_tree x) = x.
Proof.
  fix IH 1. intros [t a tx tl c]. cbn. f_equal.
  induction c as [|y c IHc]; [done|]. cbn. by rewrite IH, IHc.
Qed.

Lemma Codec_unbits_bits p : Codec.unbits (Codec.bits p) = Some p.
Proof. induction p as [p IH|p IH|]; cbn; by rewrite ?IH. Qed.

Lemma Codec_fromstring_tostring x :
  Codec.fromstring (etree_tostring Codec.lib x) = Some (parsed x).
Proof.
  unfold Codec.fromstring, Codec.lib, Codec.tostring. cbn [etree_tostring].
  rewrite Codec_unbits_bits. cbn [mbind option_bind].
  rewrite decode_encode. cbn [mbind option_bind]. by rewrite Codec_of_to_tree.
Qed.

Section Wire.
Context (E : externals) (w : world).
Context (fuel : nat) (path : string) (channels : Z) (ip : string) (port : Z).
Context (template : element).
Context (fromstring : string -> option element).

End Wire.

